(** * puchchat: the chat relay of cortex-io

    A shallow embedding of the chat tools of [index.js] (connect, disconnect,
    send, fetch, help, connectedUsers), of the process-wide session they
    share, of the row store they query, of the realtime listener with its
    reconnect callback, and of the start-up checks, the command dispatcher
    and the handler of the lines typed at the terminal.

    Conventions of the embedding.
    - JavaScript strings are byte strings ([string]), the UTF-8 of their
      text; the literals of the source are kept as they are.  [trim] strips
      the white space of ECMAScript, written out on the UTF-8 bytes.
      [toLowerCase] is written out for the code points below 128; for any
      other text it is the case tables of the engine, a parameter
      ([JsString.Engine]) of everything that lower-cases.
    - The session object is one record inside the [World]; every tool runs in
      a state monad over the [World] whose results are either a value or a
      thrown exception, so that [try]/[catch] is written out.
    - The store is a remote service.  Its tables are lists of rows; what it
      answers to the n-th request ([Served], [Refused] with an error object,
      or [Crashed], a rejected promise) is given by the [answers] of the
      world, and every request issued is appended to [requests]. *)

From Stdlib Require Import List String Ascii ZArith Lia Bool Arith.
From Stdlib Require Import Sorting.Sorted Sorting.Permutation.
From Stdlib Require Import DecimalString.
Import ListNotations.

Local Open Scope string_scope.
Local Open Scope Z_scope.

(** ** JavaScript string primitives *)

Module JsString.

(** What [String.prototype.trim] strips is the WhiteSpace and the
    LineTerminator of ECMAScript: TAB, LF, VT, FF, CR, SPACE, U+00A0, U+1680,
    U+2000 to U+200A, U+2028, U+2029, U+202F, U+205F, U+3000 and U+FEFF.  In
    UTF-8 the first six are one byte, U+00A0 is two bytes, the others are
    three. *)

(** TAB, LF, VT, FF, CR and SPACE. *)
Definition is_white_space (c : ascii) : bool :=
  let n := nat_of_ascii c in
  ((9 <=? n)%nat && (n <=? 13)%nat) || (n =? 32)%nat.

(** U+00A0 is C2 A0. *)
Definition is_white_space2 (a b : ascii) : bool :=
  ((nat_of_ascii a =? 194)%nat && (nat_of_ascii b =? 160)%nat)%bool.

(** U+1680 is E1 9A 80; U+2000 to U+200A are E2 80 80 to E2 80 8A; U+2028,
    U+2029 and U+202F are E2 80 A8, E2 80 A9 and E2 80 AF; U+205F is
    E2 81 9F; U+3000 is E3 80 80; U+FEFF is EF BB BF. *)
Definition is_white_space3 (a b c : ascii) : bool :=
  let x := nat_of_ascii a in
  let y := nat_of_ascii b in
  let z := nat_of_ascii c in
  ((x =? 225) && (y =? 154) && (z =? 128)
   || (x =? 226) && (y =? 128) &&
        ((128 <=? z) && (z <=? 138) || (z =? 168) || (z =? 169) || (z =? 175))
   || (x =? 226) && (y =? 129) && (z =? 159)
   || (x =? 227) && (y =? 128) && (z =? 128)
   || (x =? 239) && (y =? 187) && (z =? 191))%nat%bool.

(** The string is one white-space code point. *)
Definition white_space_code_point (s : string) : bool :=
  match s with
  | String a EmptyString => is_white_space a
  | String a (String b EmptyString) => is_white_space2 a b
  | String a (String b (String c EmptyString)) => is_white_space3 a b c
  | _ => false
  end.

(** The string starts with a white-space code point. *)
Definition leading_white_space (s : string) : bool :=
  match s with
  | EmptyString => false
  | String a rest =>
      is_white_space a ||
      match rest with
      | EmptyString => false
      | String b rest2 =>
          is_white_space2 a b ||
          match rest2 with
          | EmptyString => false
          | String c _ => is_white_space3 a b c
          end
      end
  end.

(** [trimStart] drops white-space code points for as long as the string
    starts with one. *)
Fixpoint trimStart (s : string) : string :=
  match s with
  | EmptyString => EmptyString
  | String a rest =>
      if is_white_space a then trimStart rest
      else
        match rest with
        | EmptyString => s
        | String b rest2 =>
            if is_white_space2 a b then trimStart rest2
            else
              match rest2 with
              | EmptyString => s
              | String c rest3 =>
                  if is_white_space3 a b c then trimStart rest3 else s
              end
        end
  end.

(** [trimEnd], from the right: what is kept of the string from a byte on is
    that byte and what is kept after it, unless these make up one white-space
    code point, which then is the end of the string and dropped. *)
Fixpoint trimEnd (s : string) : string :=
  match s with
  | EmptyString => EmptyString
  | String c rest =>
      let kept := String c (trimEnd rest) in
      if white_space_code_point kept then EmptyString else kept
  end.

Definition trim (s : string) : string := trimEnd (trimStart s).

(** The string holds code points below 128 only. *)
Definition is_ascii (s : string) : bool :=
  forallb (fun c => (nat_of_ascii c <? 128)%nat) (list_ascii_of_string s).

Definition lower_char (c : ascii) : ascii :=
  let n := nat_of_ascii c in
  if ((65 <=? n)%nat && (n <=? 90)%nat)%bool then ascii_of_nat (n + 32) else c.

(** A to Z onto a to z, every other byte as it is. *)
Fixpoint lower_ascii (s : string) : string :=
  match s with
  | EmptyString => EmptyString
  | String c rest => String (lower_char c) (lower_ascii rest)
  end.

(** The case tables of the engine.  What [String.prototype.toLowerCase]
    returns for a string with a code point from 128 on is read from the
    tables of the Unicode version the engine was built with (the lower case
    of a capital sigma depends on the letters around it, so the tables are
    asked for the whole string); they are no part of the program, and every
    statement about the tools holds whatever they are. *)
Class Engine := { toLowerCase_unicode : string -> string }.

(** [s.toLowerCase()]: on code points below 128 it maps A to Z onto a to z,
    which is written out; any other string is lower-cased by the tables of
    the engine. *)
Definition toLowerCase {engine : Engine} (s : string) : string :=
  if is_ascii s then lower_ascii s else toLowerCase_unicode s.

(** [s.replace(pat, by)] with one-character strings: the first occurrence
    only. *)
Fixpoint replace (pat by_ : ascii) (s : string) : string :=
  match s with
  | EmptyString => EmptyString
  | String c rest =>
      if Ascii.eqb c pat then String by_ rest else String c (replace pat by_ rest)
  end.

(** [s.split(sep)[0]] with a one-character separator. *)
Fixpoint split_head (sep : ascii) (s : string) : string :=
  match s with
  | EmptyString => EmptyString
  | String c rest =>
      if Ascii.eqb c sep then EmptyString else String c (split_head sep rest)
  end.

(** [xs.join(sep)] *)
Definition join (sep : string) (xs : list string) : string := String.concat sep xs.

(** A number in a template literal (a count, never negative here). *)
Definition of_nat (n : nat) : string := NilEmpty.string_of_uint (Nat.to_uint n).

(** A string is falsy exactly when it is empty; [null] is falsy. *)
Definition falsy (o : option string) : bool :=
  match o with
  | None => true
  | Some EmptyString => true
  | Some _ => false
  end.

(** The string is made of white-space code points only. *)
Fixpoint all_white_space (s : string) : bool :=
  match s with
  | EmptyString => true
  | String a rest =>
      if is_white_space a then all_white_space rest
      else
        match rest with
        | EmptyString => false
        | String b rest2 =>
            if is_white_space2 a b then all_white_space rest2
            else
              match rest2 with
              | EmptyString => false
              | String c rest3 =>
                  if is_white_space3 a b c then all_white_space rest3 else false
              end
        end
  end.

End JsString.

(** ** Rows, session and store *)

(** The error object of a store response: [error.code], [error.message]. *)
Record StoreError := { e_code : string; e_message : string }.

(** A store response, destructured in the source as [{ data, error }]. *)
Record Response (A : Type) := { data : option A; error : option StoreError }.
Arguments data {A} _.
Arguments error {A} _.

(** A row of [puchchat_users]. *)
Record UserRow := { u_username : string; u_is_connected : bool }.

(** A row of [puchchat]. *)
Record MessageRow :=
  { m_id : Z; m_username : string; m_message : string; m_created_at : string }.

(** [const session = { username: null, last_message_id: 0 }] *)
Record Session := { username : option string; last_message_id : Z }.

Definition initial_session : Session :=
  {| username := None; last_message_id := 0 |}.

(** Modelled from the spec: the two tables behind the store client, whose
    schema is not in the sources.  [puchchat] has an auto-increment integer
    primary key [id] (drawn from [next_id]) and a [created_at] that the store
    assigns; [puchchat_users] has a unique [username]. *)
Record Store :=
  { puchchat_users : list UserRow; puchchat : list MessageRow; next_id : Z }.

(** The requests the tools send to the store. *)
Inductive Request :=
| SelectUser (u : string)             (* from(users).select("*").eq("username", u) *)
| UpdateUser (u : string) (c : bool)  (* from(users).update({is_connected: c}).eq("username", u) *)
| InsertUser (u : string) (c : bool)  (* from(users).insert({username: u, is_connected: c}) *)
| SelectIsConnected (u : string)      (* from(users).select("is_connected").eq("username", u).single() *)
| InsertMessage (u text : string)     (* from(puchchat).insert({username: u, message: text}) *)
| SelectMessagesAfter (lastId : Z)    (* from(puchchat).select("*").gt("id", lastId).order("id") *)
| SelectConnected.                    (* from(users).select("username").eq("is_connected", true) *)

(** What the store does with one request. *)
Inductive Outcome :=
| Served (now : string)     (* carried out; [now] is the store's clock *)
| Refused (e : StoreError)  (* answered with an error object, nothing done *)
| Crashed (msg : string).   (* the awaited promise rejects with [e.message = msg] *)

Definition is_failure (o : Outcome) : bool :=
  match o with Served _ => false | _ => true end.

Record World :=
  { session : Session;
    store : Store;
    requests : list Request;
    answers : nat -> Outcome }.

Definition set_session (s : Session) (w : World) : World :=
  {| session := s; store := store w; requests := requests w; answers := answers w |}.

Definition set_store (s : Store) (w : World) : World :=
  {| session := session w; store := s; requests := requests w; answers := answers w |}.

Definition log_request (q : Request) (w : World) : World :=
  {| session := session w; store := store w;
     requests := requests w ++ [q]; answers := answers w |}.

(** ** Queries on the tables *)

(** Modelled from the spec: what the store does with each of the queries the
    tools issue (insert, update by equality filter, select with filter and
    ascending order); the store itself is a remote service and not in the
    sources. *)
Module Table.

Definition ok {A} (a : A) : Response A := {| data := Some a; error := None |}.
Definition done {A} : Response A := {| data := None; error := None |}.
Definition failed {A} (e : StoreError) : Response A :=
  {| data := None; error := Some e |}.

(** The error of [.single()] when the result is not exactly one row. *)
Definition PGRST116 : StoreError :=
  {| e_code := "PGRST116";
     e_message := "JSON object requested, multiple (or no) rows returned" |}.

(** The error of an insert that breaks the unique constraint. *)
Definition unique_violation : StoreError :=
  {| e_code := "23505";
     e_message := "duplicate key value violates unique constraint" |}.

Definition has_username (u : string) (r : UserRow) : bool := String.eqb (u_username r) u.

Definition select_user (u : string) (s : Store) : list UserRow :=
  filter (has_username u) (puchchat_users s).

Definition update_user (u : string) (c : bool) (s : Store) : Store :=
  {| puchchat_users :=
       map (fun r => if has_username u r
                     then {| u_username := u_username r; u_is_connected := c |}
                     else r) (puchchat_users s);
     puchchat := puchchat s; next_id := next_id s |}.

Definition insert_user (u : string) (c : bool) (s : Store) : Response unit * Store :=
  if existsb (has_username u) (puchchat_users s)
  then (failed unique_violation, s)
  else (done,
        {| puchchat_users := puchchat_users s ++ [{| u_username := u; u_is_connected := c |}];
           puchchat := puchchat s; next_id := next_id s |}).

Definition single {A} (rows : list A) : Response A :=
  match rows with
  | [r] => ok r
  | _ => failed PGRST116
  end.

Definition insert_message (u text now : string) (s : Store) : Store :=
  {| puchchat_users := puchchat_users s;
     puchchat := puchchat s ++
       [{| m_id := next_id s; m_username := u; m_message := text; m_created_at := now |}];
     next_id := next_id s + 1 |}.

(** [order("id", { ascending: true })]: a stable insertion sort on [id]. *)
Fixpoint insert_by_id (m : MessageRow) (l : list MessageRow) : list MessageRow :=
  match l with
  | [] => [m]
  | x :: rest => if m_id m <=? m_id x then m :: l else x :: insert_by_id m rest
  end.

Fixpoint order_by_id (l : list MessageRow) : list MessageRow :=
  match l with
  | [] => []
  | m :: rest => insert_by_id m (order_by_id rest)
  end.

(** [.gt("id", lastId)] *)
Definition gt_id (lastId : Z) (m : MessageRow) : bool := lastId <? m_id m.

Definition select_messages_after (lastId : Z) (s : Store) : list MessageRow :=
  order_by_id (filter (gt_id lastId) (puchchat s)).

Definition select_connected (s : Store) : list string :=
  map u_username (filter u_is_connected (puchchat_users s)).

End Table.

(** ** Asynchronous computations over the world *)

(** How an awaited computation completes: with a value, or by throwing an
    exception whose [message] is kept. *)
Inductive Completion (A : Type) :=
| Value (a : A)
| Throw (msg : string).
Arguments Value {A} _.
Arguments Throw {A} _.

Definition Async (A : Type) : Type := World -> Completion A * World.

Definition ret {A} (a : A) : Async A := fun w => (Value a, w).

Definition bind {A B} (c : Async A) (k : A -> Async B) : Async B :=
  fun w =>
    match c w with
    | (Value a, w') => k a w'
    | (Throw msg, w') => (Throw msg, w')
    end.

Notation "x <- c ;; k" := (bind c (fun x => k))
  (at level 61, c at next level, right associativity).
Notation "c ;;; k" := (bind c (fun _ => k))
  (at level 61, right associativity).

(** [try { body } catch (e) { handler(e.message) }]: the world reached when
    the exception was thrown is the one the handler runs in. *)
Definition try_catch {A} (body : Async A) (handler : string -> Async A) : Async A :=
  fun w =>
    match body w with
    | (Value a, w') => (Value a, w')
    | (Throw msg, w') => handler msg w'
    end.

Definition get_session : Async Session := fun w => (Value (session w), w).

(** [session.username = u] *)
Definition assign_username (u : option string) : Async unit :=
  fun w => (Value tt,
            set_session {| username := u;
                           last_message_id := last_message_id (session w) |} w).

(** [session.last_message_id = n] *)
Definition assign_last_message_id (n : Z) : Async unit :=
  fun w => (Value tt,
            set_session {| username := username (session w);
                           last_message_id := n |} w).

(** [await supabase.from(...)...]: the request is logged, then answered as
    the store decides: served on the tables, refused with an error object,
    or rejected. *)
Definition await_store {A} (q : Request)
    (serve : string -> Store -> Response A * Store) : Async (Response A) :=
  fun w =>
    let w1 := log_request q w in
    match answers w (List.length (requests w)) with
    | Served now =>
        let '(r, s) := serve now (store w) in (Value r, set_store s w1)
    | Refused e => (Value (Table.failed e), w1)
    | Crashed msg => (Throw msg, w1)
    end.

Module Supabase.

Definition select_user (u : string) : Async (Response (list UserRow)) :=
  await_store (SelectUser u) (fun _ s => (Table.ok (Table.select_user u s), s)).

Definition update_user (u : string) (c : bool) : Async (Response unit) :=
  await_store (UpdateUser u c) (fun _ s => (Table.done, Table.update_user u c s)).

Definition insert_user (u : string) (c : bool) : Async (Response unit) :=
  await_store (InsertUser u c) (fun _ s => Table.insert_user u c s).

(** The data of the single row is its [is_connected] column. *)
Definition select_is_connected (u : string) : Async (Response bool) :=
  await_store (SelectIsConnected u)
    (fun _ s => (Table.single (map u_is_connected (Table.select_user u s)), s)).

Definition insert_message (u text : string) : Async (Response unit) :=
  await_store (InsertMessage u text)
    (fun now s => (Table.done, Table.insert_message u text now s)).

Definition select_messages_after (lastId : Z) : Async (Response (list MessageRow)) :=
  await_store (SelectMessagesAfter lastId)
    (fun _ s => (Table.ok (Table.select_messages_after lastId s), s)).

Definition select_connected : Async (Response (list string)) :=
  await_store SelectConnected (fun _ s => (Table.ok (Table.select_connected s), s)).

End Supabase.

(** ** The tools *)

(** The line feed of the source's string literals. *)
Definition LF : string := String (ascii_of_nat 10) EmptyString.

(** [class SimpleAuthProvider { constructor(token) { this.token = token } }] *)
Record SimpleAuthProvider := { token : string }.

(** What a successful [verify] resolves to. *)
Record AuthInfo := { clientId : string; scopes : list string }.

(** [async verify(providedToken)]: exact match with [===], [null] otherwise. *)
Definition verify (this : SimpleAuthProvider) (providedToken : string)
  : Async (option AuthInfo) :=
  if String.eqb providedToken (token this)
  then ret (Some {| clientId := "puch-client"; scopes := ["*"] |})
  else ret None.

(** A session username that passes [if (!username)]: neither [null] nor
    the empty string. *)
Definition truthy_username (o : option string) : option string :=
  if JsString.falsy o then None else o.

(** [userError && userError.code !== 'PGRST116'] *)
Definition lookup_error (e : option StoreError) : option StoreError :=
  match e with
  | Some userError =>
      if negb (String.eqb (e_code userError) "PGRST116") then Some userError else None
  | None => None
  end.

(** [userData && userData.length > 0] *)
Definition has_rows {A} (d : option (list A)) : bool :=
  match d with
  | Some (_ :: _) => true
  | _ => false
  end.

(** [userError || !userData || !userData.is_connected] *)
Definition not_marked_connected (r : Response bool) : bool :=
  match error r with
  | Some _ => true
  | None =>
      match data r with
      | None => true
      | Some is_connected => negb is_connected
      end
  end.

Section Relay.

(** [const TOKEN = process.env.AUTH_TOKEN] *)
Variable TOKEN : string.

(** [new Date(created_at).toISOString()] on a timestamp the store assigned. *)
Variable toISOString : string -> string.

Context {engine : JsString.Engine}.

Definition authProvider : SimpleAuthProvider := {| token := TOKEN |}.

Definition connect (username authToken : string) : Async string :=
  isAuthenticated <- verify authProvider authToken ;;
  match isAuthenticated with
  | None => ret "❌ Authentication failed."
  | Some _ =>
      try_catch
        (let username := JsString.toLowerCase (JsString.trim username) in
         assign_username (Some username) ;;;
         found <- Supabase.select_user username ;;
         match lookup_error (error found) with
         | Some userError =>
             ret ("❌ Error fetching user data for '" ++ username ++ "': "
                    ++ e_message userError)
         | None =>
             if has_rows (data found) then
               updated <- Supabase.update_user username true ;;
               match error updated with
               | Some updateError =>
                   ret ("❌ Error updating connection status for '" ++ username ++ "': "
                          ++ e_message updateError)
               | None =>
                   assign_last_message_id 0 ;;;
                   ret ("✅ Connected as '" ++ username ++ "'.")
               end
             else
               inserted <- Supabase.insert_user username true ;;
               match error inserted with
               | Some insertError =>
                   ret ("❌ Error connecting as new user '" ++ username ++ "': "
                          ++ e_message insertError)
               | None =>
                   assign_last_message_id 0 ;;;
                   ret ("✅ Connected as '" ++ username ++ "'.")
               end
         end)
        (fun e => ret ("❌ An unexpected error occurred while connecting: " ++ e))
  end.

Definition disconnect (authToken : string) : Async string :=
  isAuthenticated <- verify authProvider authToken ;;
  match isAuthenticated with
  | None => ret "❌ Authentication failed."
  | Some _ =>
      s <- get_session ;;
      match truthy_username (username s) with
      | None => ret "⚠️ You are not connected."
      | Some username =>
          try_catch
            (updated <- Supabase.update_user username false ;;
             match error updated with
             | Some error =>
                 ret ("❌ Error disconnecting '" ++ username ++ "': " ++ e_message error)
             | None =>
                 assign_username None ;;;
                 assign_last_message_id 0 ;;;
                 ret ("🚪 User '" ++ username ++ "' disconnected from chat.")
             end)
            (fun e => ret ("❌ An unexpected error occurred while disconnecting: " ++ e))
      end
  end.

Definition send (message authToken : string) : Async string :=
  isAuthenticated <- verify authProvider authToken ;;
  match isAuthenticated with
  | None => ret "❌ Authentication failed."
  | Some _ =>
      s <- get_session ;;
      match truthy_username (username s) with
      | None => ret "⚠️ You must /connect before sending messages."
      | Some username =>
          try_catch
            (checked <- Supabase.select_is_connected username ;;
             if not_marked_connected checked then
               ret "⚠️ You are not connected. Use /connect first."
             else
               inserted <- Supabase.insert_message username (JsString.trim message) ;;
               match error inserted with
               | Some insertError =>
                   ret ("❌ Error sending message: " ++ e_message insertError)
               | None => ret ("📨 Message sent: " ++ JsString.trim message)
               end)
            (fun e =>
               ret ("❌ An unexpected error occurred while sending your message: " ++ e))
      end
  end.

(** [`[${formattedDate}] ${m.username}: ${m.message}`] with
    [formattedDate = date.toISOString().replace('T', ' ').split('.')[0]] *)
Definition format_message (m : MessageRow) : string :=
  let formattedDate :=
    JsString.split_head "." (JsString.replace "T" " " (toISOString (m_created_at m))) in
  "[" ++ formattedDate ++ "] " ++ m_username m ++ ": " ++ m_message m.

Definition fetch (authToken : string) : Async string :=
  isAuthenticated <- verify authProvider authToken ;;
  match isAuthenticated with
  | None => ret "❌ Authentication failed."
  | Some _ =>
      s <- get_session ;;
      match truthy_username (username s) with
      | None => ret "⚠️ You must /connect before fetching messages."
      | Some username =>
          try_catch
            (checked <- Supabase.select_is_connected username ;;
             if not_marked_connected checked then
               ret "⚠️ You are not connected. Use /connect first."
             else
               s <- get_session ;;
               (* session.last_message_id || 0 *)
               let lastId :=
                 if last_message_id s =? 0 then 0 else last_message_id s in
               selected <- Supabase.select_messages_after lastId ;;
               match error selected with
               | Some error => ret ("❌ Error fetching messages: " ++ e_message error)
               | None =>
                   match data selected with
                   | None | Some [] => ret "🕒 No new messages."
                   | Some ((first :: _) as messages) =>
                       (* messages[messages.length - 1].id *)
                       assign_last_message_id (m_id (List.last messages first)) ;;;
                       let formatted := JsString.join LF (map format_message messages) in
                       ret ("💬 New messages:" ++ LF ++ formatted)
                   end
               end)
            (fun e =>
               ret ("❌ An unexpected error occurred while fetching messages: " ++ e))
      end
  end.

Definition help (authToken : string) : Async string :=
  isAuthenticated <- verify authProvider authToken ;;
  match isAuthenticated with
  | None => ret "❌ Authentication failed."
  | Some _ =>
      ret ("Commands:" ++ LF ++
           "/connect <username> - Connect to chat" ++ LF ++
           "/disconnect - Disconnect from chat" ++ LF ++
           "/send <message> - Send a message (only when connected)" ++ LF ++
           "/fetch - Fetch new messages" ++ LF ++
           "/help - Show this help" ++ LF ++
           "/connected_users - Show who is connected" ++ LF)
  end.

Definition connectedUsers (authToken : string) : Async string :=
  isAuthenticated <- verify authProvider authToken ;;
  match isAuthenticated with
  | None => ret "❌ Authentication failed."
  | Some _ =>
      try_catch
        (selected <- Supabase.select_connected ;;
         match error selected with
         | Some error =>
             ret ("❌ Error fetching connected users: " ++ e_message error)
         | None =>
             let users := match data selected with Some usersData => usersData | None => [] end in
             let count := List.length users in
             if (count =? 0)%nat then ret "No users are currently connected."
             else ret ("Connected users (" ++ JsString.of_nat count ++ "):" ++ LF
                         ++ JsString.join LF users)
         end)
        (fun e =>
           ret ("❌ An unexpected error occurred while fetching connected users: " ++ e))
  end.

End Relay.

(** ** Sequences of posts, and the order of the message table *)

(** The posts of [texts], one call of [send] after the other with the
    secret; the replies are collected. *)
Fixpoint post_all (TOKEN : string) (texts : list string) : Async (list string) :=
  match texts with
  | [] => ret []
  | text :: rest =>
      r <- send TOKEN text TOKEN ;;
      rs <- post_all TOKEN rest ;;
      ret (r :: rs)
  end.

Definition id_le (a b : MessageRow) : Prop := m_id a <= m_id b.
Definition id_lt (a b : MessageRow) : Prop := m_id a < m_id b.

(** The invariant of an auto-increment key: the rows of [puchchat] are in
    strictly ascending id order, as they were inserted, and [next_id] is above
    every id handed out. *)
Definition ids_ascending (s : Store) : Prop :=
  StronglySorted id_lt (puchchat s) /\
  Forall (fun m => m_id m < next_id s) (puchchat s).

(** ** Store failures during a call *)

(** The requests issued between [w] and [w'] are those numbered from
    [length (requests w)] up to, not including, [length (requests w')]. *)
Definition issued_during (w w' : World) (i : nat) : Prop :=
  (List.length (requests w) <= i < List.length (requests w'))%nat.

(** Some request issued between [w] and [w'] was refused or crashed. *)
Definition store_failure_during (w w' : World) : Prop :=
  exists i, issued_during w w' i /\ is_failure (answers w i) = true.

(** The call stopped at its failed request: no request follows it. *)
Definition aborted_at_failure (w w' : World) : Prop :=
  forall i, issued_during w w' i -> is_failure (answers w i) = true ->
            S i = List.length (requests w').

(** The answer that connect takes for an empty lookup rather than a failure:
    an error object with the code PGRST116. *)
Definition no_rows_answer (o : Outcome) : bool :=
  match o with
  | Refused e => String.eqb (e_code e) "PGRST116"
  | _ => false
  end.

(** A failure during a join other than a no-rows answer to its lookup, which
    is its first request. *)
Definition join_failure_during (w w' : World) : Prop :=
  exists i, issued_during w w' i /\ is_failure (answers w i) = true /\
            (i = List.length (requests w) -> no_rows_answer (answers w i) = false).


(** What holds of every world the tools can reach from a fresh one: the
    message table has its key invariant, ids start at 1, and the cursor of
    the session is an id already handed out, or 0. *)
Definition consistent (w : World) : Prop :=
  ids_ascending (store w) /\
  0 < next_id (store w) /\
  last_message_id (session w) < next_id (store w).

(** ** The realtime listener *)

Module Realtime.

(** The status a channel reports to its [subscribe] callbacks. *)
Inductive Status := SUBSCRIBED | CHANNEL_ERROR | TIMED_OUT | CLOSED.

(** Where the body of the [try] in [startRealtimeListener] may throw. *)
Inductive Setup :=
| SetupDone               (* nothing throws *)
| ChannelThrows           (* supabase.channel(...) throws *)
| SubscribeThrows         (* .on(...).on(...).subscribe(...) throws *)
| SecondSubscribeThrows.  (* realtimeChannel.subscribe(...) throws *)

(** The listener's part of the process: the variable [realtimeChannel]
    (channel objects are numbered in the order of their creation), the
    callbacks registered with [subscribe], the channels unsubscribed, the
    delays of the pending [setTimeout(() => startRealtimeListener(), ms)],
    the presence [track] calls, and whether [process.exit()] was called. *)
Record Listener :=
  { realtimeChannel : option nat;
    created : nat;
    status_callbacks : list nat;
    presence_callbacks : list nat;
    unsubscribed : list nat;
    timers : list nat;
    tracked : list (nat * string);
    exited : bool }.

Definition initial : Listener :=
  {| realtimeChannel := None; created := 0%nat; status_callbacks := [];
     presence_callbacks := []; unsubscribed := []; timers := [];
     tracked := []; exited := false |}.

(** [setTimeout(() => startRealtimeListener(), ms)] *)
Definition setTimeout (ms : nat) (l : Listener) : Listener :=
  {| realtimeChannel := realtimeChannel l; created := created l;
     status_callbacks := status_callbacks l;
     presence_callbacks := presence_callbacks l;
     unsubscribed := unsubscribed l; timers := timers l ++ [ms];
     tracked := tracked l; exited := exited l |}.

(** [realtimeChannel = supabase.channel(...)] *)
Definition new_channel (l : Listener) : Listener :=
  {| realtimeChannel := Some (created l); created := S (created l);
     status_callbacks := status_callbacks l;
     presence_callbacks := presence_callbacks l;
     unsubscribed := unsubscribed l; timers := timers l;
     tracked := tracked l; exited := exited l |}.

Definition subscribe_status (ch : nat) (l : Listener) : Listener :=
  {| realtimeChannel := realtimeChannel l; created := created l;
     status_callbacks := status_callbacks l ++ [ch];
     presence_callbacks := presence_callbacks l;
     unsubscribed := unsubscribed l; timers := timers l;
     tracked := tracked l; exited := exited l |}.

Definition subscribe_presence (ch : nat) (l : Listener) : Listener :=
  {| realtimeChannel := realtimeChannel l; created := created l;
     status_callbacks := status_callbacks l;
     presence_callbacks := presence_callbacks l ++ [ch];
     unsubscribed := unsubscribed l; timers := timers l;
     tracked := tracked l; exited := exited l |}.

Definition unsubscribe (ch : nat) (l : Listener) : Listener :=
  {| realtimeChannel := realtimeChannel l; created := created l;
     status_callbacks := status_callbacks l;
     presence_callbacks := presence_callbacks l;
     unsubscribed := unsubscribed l ++ [ch]; timers := timers l;
     tracked := tracked l; exited := exited l |}.

Definition track (ch : nat) (user : string) (l : Listener) : Listener :=
  {| realtimeChannel := realtimeChannel l; created := created l;
     status_callbacks := status_callbacks l;
     presence_callbacks := presence_callbacks l;
     unsubscribed := unsubscribed l; timers := timers l;
     tracked := tracked l ++ [(ch, user)]; exited := exited l |}.

Definition exit (l : Listener) : Listener :=
  {| realtimeChannel := realtimeChannel l; created := created l;
     status_callbacks := status_callbacks l;
     presence_callbacks := presence_callbacks l;
     unsubscribed := unsubscribed l; timers := timers l;
     tracked := tracked l; exited := true |}.

(** [const startRealtimeListener = () => { try { ... } catch (e) { ... } }] *)
Definition startRealtimeListener (setup : Setup) (l : Listener) : Listener :=
  match setup with
  | ChannelThrows => setTimeout 5000 l
  | SubscribeThrows => setTimeout 5000 (new_channel l)
  | SecondSubscribeThrows =>
      setTimeout 5000 (subscribe_status (created l) (new_channel l))
  | SetupDone =>
      subscribe_presence (created l) (subscribe_status (created l) (new_channel l))
  end.

(** The callback of the first [subscribe]: only [CLOSED] schedules a new
    start, the other statuses are logged. *)
Definition on_status (status : Status) (l : Listener) : Listener :=
  match status with
  | SUBSCRIBED => l
  | CHANNEL_ERROR => l
  | TIMED_OUT => l
  | CLOSED => setTimeout 5000 l
  end.

(** The callback of the second [subscribe]:
    [realtimeChannel.track({ user: session.username || 'anonymous', ... })] *)
Definition on_status_presence (user : option string) (status : Status) (l : Listener)
  : Listener :=
  match status with
  | SUBSCRIBED =>
      match realtimeChannel l with
      | Some ch =>
          track ch (match truthy_username user with Some u => u | None => "anonymous" end) l
      | None => l
      end
  | _ => l
  end.

(** What the runtime delivers to the process. *)
Inductive Event :=
| Report (ch : nat) (status : Status)  (* channel [ch] reports a status *)
| TimerFires (setup : Setup)           (* the oldest pending timer fires *)
| SIGINT.

Definition registered (ch : nat) (callbacks : list nat) : bool :=
  existsb (Nat.eqb ch) callbacks.

(** [process.on('SIGINT', ...)] *)
Definition on_SIGINT (l : Listener) : Listener :=
  exit (match realtimeChannel l with
        | Some ch => unsubscribe ch l
        | None => l
        end).

Definition pop_timer (l : Listener) : Listener :=
  {| realtimeChannel := realtimeChannel l; created := created l;
     status_callbacks := status_callbacks l;
     presence_callbacks := presence_callbacks l;
     unsubscribed := unsubscribed l; timers := tl (timers l);
     tracked := tracked l; exited := exited l |}.

(** One turn of the event loop; nothing runs once the process has exited. *)
Definition step (user : option string) (e : Event) (l : Listener) : Listener :=
  if exited l then l
  else
    match e with
    | Report ch status =>
        let l1 := if registered ch (status_callbacks l) then on_status status l else l in
        if registered ch (presence_callbacks l)
        then on_status_presence user status l1 else l1
    | TimerFires setup =>
        match timers l with
        | [] => l
        | _ :: _ => startRealtimeListener setup (pop_timer l)
        end
    | SIGINT => on_SIGINT l
    end.

Definition run (user : option string) (events : list Event) (l : Listener) : Listener :=
  fold_left (fun l e => step user e l) events l.

(** [n] rounds of: the channel held reports [CLOSED], then the timer fires
    and the listener starts again without a throw. *)
Fixpoint closed_rounds (n : nat) (first : nat) : list Event :=
  match n with
  | O => []
  | S k => Report first CLOSED :: TimerFires SetupDone :: closed_rounds k (S first)
  end.

(** The state of a listener between two rounds of closing and starting
    again: it runs, holds the channel created last, whose status callback is
    registered, no timer is pending and nothing was unsubscribed. *)
Definition listening (ch : nat) (l : Listener) : Prop :=
  exited l = false /\
  realtimeChannel l = Some ch /\
  created l = S ch /\
  registered ch (status_callbacks l) = true /\
  timers l = [] /\
  unsubscribed l = [].

(** The listener once the start-up call of [startRealtimeListener] has run. *)
Definition started : Listener := startRealtimeListener SetupDone initial.

End Realtime.

(** ** Sample worlds *)

Module Sample.

Definition clock : string := "2024-01-02T03:04:05.678Z".

Definition healthy : nat -> Outcome := fun _ => Served clock.

Definition empty_store : Store :=
  {| puchchat_users := []; puchchat := []; next_id := 1 |}.

Definition fresh (answers : nat -> Outcome) : World :=
  {| session := initial_session; store := empty_store;
     requests := []; answers := answers |}.

Definition alice_row : UserRow := {| u_username := "alice"; u_is_connected := true |}.

Definition hello : MessageRow :=
  {| m_id := 1; m_username := "alice"; m_message := "hello"; m_created_at := clock |}.

(** alice has joined and posted one message, not yet drained. *)
Definition joined (answers : nat -> Outcome) : World :=
  {| session := {| username := Some "alice"; last_message_id := 0 |};
     store := {| puchchat_users := [alice_row]; puchchat := [hello]; next_id := 2 |};
     requests := []; answers := answers |}.

Definition network_down : StoreError :=
  {| e_code := "08006"; e_message := "connection failure" |}.

Definition no_rows : StoreError :=
  {| e_code := "PGRST116"; e_message := "No rows found" |}.

(** The first request fails, the later ones are served. *)
Definition first_refused (e : StoreError) : nat -> Outcome :=
  fun n => match n with O => Refused e | _ => Served clock end.

Definition iso (created_at : string) : string := created_at.

(** The no-break space U+00A0, in UTF-8. *)
Definition NBSP : string :=
  String (ascii_of_nat 194) (String (ascii_of_nat 160) EmptyString).

(** The case tables of an engine, cut down to the letters the samples hold:
    beside A to Z the capital letters of Latin-1, U+00C0 to U+00DE without
    U+00D7 (in UTF-8 the byte C3, then a byte from 80 to 9E that is not 97),
    whose lower case is 32 further on. *)
Definition latin1_capital (a b : ascii) : bool :=
  let y := nat_of_ascii b in
  ((nat_of_ascii a =? 195) && (128 <=? y) && (y <=? 158) && negb (y =? 151))%nat%bool.

Fixpoint latin1_lower (s : string) : string :=
  match s with
  | EmptyString => EmptyString
  | String a rest =>
      match rest with
      | EmptyString => String (JsString.lower_char a) EmptyString
      | String b rest2 =>
          if latin1_capital a b
          then String a (String (ascii_of_nat (nat_of_ascii b + 32)) (latin1_lower rest2))
          else String (JsString.lower_char a) (latin1_lower rest)
      end
  end.

Definition engine : JsString.Engine :=
  {| JsString.toLowerCase_unicode := latin1_lower |}.

End Sample.

(** ** Start-up *)

Module Startup.

(** [process.env] once [dotenv.config] has run: a variable is a string or
    [undefined]. *)
Definition Env : Type := string -> option string.

Record Config :=
  { AUTH_TOKEN : string; SUPABASE_URL : string; SUPABASE_KEY : string }.

(** How the top of the script ends: [process.exit(code)] after an error
    line of the logger, or the script goes on with the three values. *)
Inductive Start :=
| Exits (code : Z) (logged : string)
| Runs (config : Config).

(** The three [if (!X) { logger.error(...); process.exit(1); }] in their
    order: the token, the URL, the key. *)
Definition start (env : Env) : Start :=
  let TOKEN := env "AUTH_TOKEN" in
  let KEY := env "SUPABASE_KEY" in
  let URL := env "SUPABASE_URL" in
  match truthy_username TOKEN with
  | None => Exits 1 "AUTH_TOKEN environment variable not set. Exiting."
  | Some token =>
      match truthy_username URL with
      | None => Exits 1 "SUPABASE_URL environment variable not set. Exiting."
      | Some url =>
          match truthy_username KEY with
          | None => Exits 1 "SUPABASE_KEY environment variable not set. Exiting."
          | Some key =>
              Runs {| AUTH_TOKEN := token; SUPABASE_URL := url; SUPABASE_KEY := key |}
          end
      end
  end.

End Startup.

(** ** The command line *)

Module Cli.

(** [s.startsWith(c)] with a one-character string. *)
Definition startsWith (c : ascii) (s : string) : bool :=
  match s with
  | EmptyString => false
  | String first _ => Ascii.eqb first c
  end.

(** [s.substring(1)] *)
Definition substring1 (s : string) : string :=
  match s with
  | EmptyString => EmptyString
  | String _ rest => rest
  end.

(** [s.split(sep)] with a one-character separator: the pieces between the
    separators, one piece (the empty string) for the empty string. *)
Fixpoint split (sep : ascii) (s : string) : list string :=
  match s with
  | EmptyString => [EmptyString]
  | String c rest =>
      if Ascii.eqb c sep then EmptyString :: split sep rest
      else
        match split sep rest with
        | piece :: pieces => String c piece :: pieces
        | [] => [String c EmptyString]
        end
  end.

(** [s.includes(c)] with a one-character string. *)
Fixpoint includes (c : ascii) (s : string) : bool :=
  match s with
  | EmptyString => false
  | String first rest => Ascii.eqb first c || includes c rest
  end.

(** The process as the command line sees it: the world of the tools, the
    lines written with [console.log], the code of [process.exit] once it was
    called, and the message of an exception that no handler caught. *)
Record Process :=
  { world : World;
    console : list string;
    exit_code : option Z;
    uncaught : option string }.

Definition halted (p : Process) : bool :=
  match exit_code p, uncaught p with
  | None, None => false
  | _, _ => true
  end.

(** [console.log(line)] *)
Definition console_log (line : string) (p : Process) : Process :=
  {| world := world p; console := console p ++ [line];
     exit_code := exit_code p; uncaught := uncaught p |}.

(** [process.exit()] *)
Definition process_exit (p : Process) : Process :=
  {| world := world p; console := console p;
     exit_code := Some 0; uncaught := uncaught p |}.

(** [console.log(await tool(...))]: the tool runs on the world and its reply
    is printed; an exception of the tool is not caught here. *)
Definition log_reply (tool : Async string) (p : Process) : Process :=
  match tool (world p) with
  | (Value reply, w) =>
      {| world := w; console := console p ++ [reply];
         exit_code := exit_code p; uncaught := uncaught p |}
  | (Throw msg, w) =>
      {| world := w; console := console p;
         exit_code := exit_code p; uncaught := Some msg |}
  end.

Section Dispatch.

Variable TOKEN : string.
Variable toISOString : string -> string.

(** The message of the TypeError that [undefined.trim()] throws. *)
Variable trim_of_undefined : string.

Context {engine : JsString.Engine}.

(** [connect(undefined, authToken)]: [username.trim()] throws inside the
    [try], before the session is touched. *)
Definition connect_undefined (authToken : string) : Async string :=
  isAuthenticated <- verify (authProvider TOKEN) authToken ;;
  match isAuthenticated with
  | None => ret "❌ Authentication failed."
  | Some _ =>
      try_catch
        (fun w => (Throw trim_of_undefined, w))
        (fun e => ret ("❌ An unexpected error occurred while connecting: " ++ e))
  end.

(** [send(undefined, authToken)]: [message.trim()] throws where the row to
    insert is built, after the check of the user's row and before the insert
    is issued. *)
Definition send_undefined (authToken : string) : Async string :=
  isAuthenticated <- verify (authProvider TOKEN) authToken ;;
  match isAuthenticated with
  | None => ret "❌ Authentication failed."
  | Some _ =>
      s <- get_session ;;
      match truthy_username (username s) with
      | None => ret "⚠️ You must /connect before sending messages."
      | Some username =>
          try_catch
            (checked <- Supabase.select_is_connected username ;;
             if not_marked_connected checked then
               ret "⚠️ You are not connected. Use /connect first."
             else
               fun w => (Throw trim_of_undefined, w))
            (fun e =>
               ret ("❌ An unexpected error occurred while sending your message: " ++ e))
      end
  end.

(** [const simulateCommand = async (command, args = [], token = TOKEN)]:
    [args[0]] is [undefined] when [args] is empty. *)
Definition simulateCommand (command : string) (args : list string) (token : string)
  : Process -> Process :=
  if String.eqb command "connect" then
    log_reply (match nth_error args 0 with
               | Some username => connect TOKEN username token
               | None => connect_undefined token
               end)
  else if String.eqb command "disconnect" then log_reply (disconnect TOKEN token)
  else if String.eqb command "send" then
    log_reply (match nth_error args 0 with
               | Some message => send TOKEN message token
               | None => send_undefined token
               end)
  else if String.eqb command "fetch" then log_reply (fetch TOKEN toISOString token)
  else if String.eqb command "help" then log_reply (help TOKEN token)
  else if String.eqb command "connected_users" then log_reply (connectedUsers TOKEN token)
  else console_log ("Unknown command: " ++ command).

(** What the handler of a line reads off it: [parts[0]] and
    [parts.slice(1).join(' ')] of [input.substring(1).split(' ')]. *)
Definition command_of (input : string) : string :=
  hd EmptyString (split " " (substring1 input)).

Definition args_of (input : string) : string :=
  JsString.join " " (tl (split " " (substring1 input))).

(** [process.stdin.on('data', async (text) => { ... })]; once the process
    has exited no handler runs. *)
Definition on_data (text : string) (p : Process) : Process :=
  if halted p then p
  else
    let input := JsString.trim text in
    if startsWith "/" input then
      let command := command_of input in
      let args := args_of input in
      if String.eqb command "connect" then simulateCommand "connect" [args] TOKEN p
      else if String.eqb command "disconnect" then simulateCommand "disconnect" [] TOKEN p
      else if String.eqb command "send" then simulateCommand "send" [args] TOKEN p
      else if String.eqb command "fetch" then simulateCommand "fetch" [] TOKEN p
      else if String.eqb command "help" then simulateCommand "help" [] TOKEN p
      else if String.eqb command "connected_users" then
        simulateCommand "connected_users" [] TOKEN p
      else if String.eqb command "exit" then
        process_exit (console_log "Exiting CLI." p)
      else
        console_log ("Unknown command: /" ++ command ++
                     ". Type /help for a list of commands.") p
    else
      match truthy_username (username (session (world p))) with
      | Some _ => simulateCommand "send" [input] TOKEN p
      | None =>
          console_log "You are not connected. Use /connect <username> to join the chat." p
      end.

(** The lines of a terminal session, one handler after the other. *)
Definition on_lines (texts : list string) (p : Process) : Process :=
  fold_left (fun p text => on_data text p) texts p.

(** What one line can do to the world: nothing, or one call of a tool with
    the secret. *)
Inductive tool_call (w : World) : World -> Prop :=
| call_none : tool_call w w
| call_connect (username : string) :
    tool_call w (snd (connect TOKEN username TOKEN w))
| call_disconnect : tool_call w (snd (disconnect TOKEN TOKEN w))
| call_send (message : string) :
    tool_call w (snd (send TOKEN message TOKEN w))
| call_fetch : tool_call w (snd (fetch TOKEN toISOString TOKEN w))
| call_help : tool_call w (snd (help TOKEN TOKEN w))
| call_connectedUsers : tool_call w (snd (connectedUsers TOKEN TOKEN w)).

End Dispatch.

(** The process when the command line starts reading. *)
Definition ready (w : World) : Process :=
  {| world := w; console := []; exit_code := None; uncaught := None |}.

End Cli.

(** ** More sample data *)

Module Cases.

(** An environment with the three variables set. *)
Definition env : Startup.Env :=
  fun name =>
    if String.eqb name "AUTH_TOKEN" then Some "secret"
    else if String.eqb name "SUPABASE_URL" then Some "https://db.example"
    else if String.eqb name "SUPABASE_KEY" then Some "key"
    else None.

(** alice is the session's user, but her row was marked disconnected by
    another path. *)
Definition drifted (answers : nat -> Outcome) : World :=
  {| session := {| username := Some "alice"; last_message_id := 0 |};
     store := {| puchchat_users := [{| u_username := "alice"; u_is_connected := false |}];
                 puchchat := [Sample.hello]; next_id := 2 |};
     requests := []; answers := answers |}.

(** What is typed in a short terminal session. *)
Definition typed : list string :=
  ["/connect Alice"; "hello there "; "/fetch"; "/fetch"; "/connected_users";
   "/nonsense"; "/disconnect"; "hello?"; "/exit"; "/help"].

(** The message of V8 for [undefined.trim()]. *)
Definition trim_of_undefined : string :=
  "Cannot read properties of undefined (reading 'trim')".

End Cases.

(** ** Trimmed strings *)

(** What [trimStart] returns does not start with a white-space code point,
    and [trimEnd] keeps such a start. *)
Definition starts_clean (s : string) : Prop :=
  JsString.leading_white_space s = false.

(** ** Keys of the user table *)

(** The usernames of the rows of [puchchat_users], in the order of the rows. *)
Definition user_keys (s : Store) : list string := map u_username (puchchat_users s).

(** * Properties *)

(** ** The string primitives *)

(** Induction on the length, for the functions that step over a code point
    of one, two or three bytes. *)
Lemma string_length_ind (P : string -> Prop) :
  (forall s, (forall t, (String.length t < String.length s)%nat -> P t) -> P s) ->
  forall s, P s.
Proof.
  intros step s.
  assert (H : forall n t, (String.length t < n)%nat -> P t).
  { induction n as [|n IH]; intros t Ht; [lia |].
    apply step. intros t' Ht'. apply IH. lia. }
  apply (H (S (String.length s))). lia.
Qed.

(** One step of a function that reads a code point off the start of [s]:
    the goal is split on the three tests, [s] being taken apart as far as the
    tests read it. *)
Ltac read_code_point s :=
  let a := fresh "a" in
  let b := fresh "b" in
  let c := fresh "c" in
  let rest := fresh "rest" in
  destruct s as [|a rest]; simpl;
  [| destruct (JsString.is_white_space a) eqn:?; simpl;
     [| destruct rest as [|b rest]; simpl;
        [| destruct (JsString.is_white_space2 a b) eqn:?; simpl;
           [| destruct rest as [|c rest]; simpl;
              [| destruct (JsString.is_white_space3 a b c) eqn:?; simpl ]]]]].

Lemma trimStart_all_white_space (s : string) :
  JsString.all_white_space s = true -> JsString.trimStart s = EmptyString.
Proof.
  induction s as [s IH] using string_length_ind.
  read_code_point s; try discriminate; try reflexivity;
    intros H; apply IH; simpl; solve [lia | exact H].
Qed.

Lemma trim_all_white_space (s : string) :
  JsString.all_white_space s = true -> JsString.trim s = EmptyString.
Proof.
  intros H. unfold JsString.trim. now rewrite trimStart_all_white_space.
Qed.

(** ** The monad and the store client *)

Lemma last_request_index {A} (l : list A) (q : A) :
  List.length (l ++ [q]) = S (List.length l).
Proof. rewrite length_app. simpl. lia. Qed.

Lemma await_store_served {A} (q : Request) (serve : string -> Store -> Response A * Store)
    (w : World) (now : string) :
  answers w (List.length (requests w)) = Served now ->
  await_store q serve w =
    (Value (fst (serve now (store w))),
     set_store (snd (serve now (store w))) (log_request q w)).
Proof.
  intros H. unfold await_store. rewrite H. now destruct (serve now (store w)).
Qed.

Lemma await_store_refused {A} (q : Request) (serve : string -> Store -> Response A * Store)
    (w : World) (e : StoreError) :
  answers w (List.length (requests w)) = Refused e ->
  await_store q serve w = (Value (Table.failed e), log_request q w).
Proof. intros H. unfold await_store. now rewrite H. Qed.

Lemma await_store_crashed {A} (q : Request) (serve : string -> Store -> Response A * Store)
    (w : World) (msg : string) :
  answers w (List.length (requests w)) = Crashed msg ->
  await_store q serve w = (Throw msg, log_request q w).
Proof. intros H. unfold await_store. now rewrite H. Qed.

(** ** The tables *)

Lemma has_rows_select_user (u : string) (s : Store) :
  has_rows (Some (Table.select_user u s)) =
  existsb (Table.has_username u) (puchchat_users s).
Proof.
  unfold Table.select_user.
  induction (puchchat_users s) as [|row rows IH]; simpl.
  - reflexivity.
  - destruct (Table.has_username u row); simpl; [reflexivity | exact IH].
Qed.

Lemma update_user_rows (u : string) (c : bool) (s : Store) (row : UserRow) :
  In row (puchchat_users (Table.update_user u c s)) ->
  u_username row = u -> u_is_connected row = c.
Proof.
  unfold Table.update_user. simpl. intros Hin Hu.
  apply in_map_iff in Hin as [old [Hrow _]].
  destruct (Table.has_username u old) eqn:Hold; subst row.
  - reflexivity.
  - unfold Table.has_username in Hold. simpl in Hu.
    apply String.eqb_neq in Hold. contradiction.
Qed.

Lemma update_user_keeps_keys (u : string) (c : bool) (s : Store) :
  map u_username (puchchat_users (Table.update_user u c s)) =
  map u_username (puchchat_users s).
Proof.
  unfold Table.update_user. simpl. rewrite map_map.
  apply map_ext. intros row. now destruct (Table.has_username u row).
Qed.

(** Rows of another user are left as they are by an update. *)
Lemma update_user_frame (u a : string) (c : bool) (s : Store) :
  a <> u ->
  Table.select_user a (Table.update_user u c s) = Table.select_user a s.
Proof.
  intros Hne. unfold Table.select_user, Table.update_user. simpl.
  induction (puchchat_users s) as [|row rows IH]; simpl.
  - reflexivity.
  - destruct (Table.has_username u row) eqn:Hu.
    + unfold Table.has_username in *. simpl.
      apply String.eqb_eq in Hu. rewrite Hu.
      destruct (String.eqb_spec u a); [congruence | exact IH].
    + now rewrite IH.
Qed.

Lemma insert_user_frame (u a : string) (c : bool) (s : Store) :
  a <> u ->
  Table.select_user a
    {| puchchat_users :=
         puchchat_users s ++ [{| u_username := u; u_is_connected := c |}];
       puchchat := puchchat s; next_id := next_id s |} =
  Table.select_user a s.
Proof.
  intros Hne. unfold Table.select_user. simpl. rewrite filter_app. simpl.
  unfold Table.has_username at 2. simpl.
  destruct (String.eqb_spec u a); [congruence | apply app_nil_r].
Qed.

(** ** Ordering by id *)

Lemma insert_by_id_perm (m : MessageRow) (l : list MessageRow) :
  Permutation (m :: l) (Table.insert_by_id m l).
Proof.
  induction l as [|x rest IH]; simpl.
  - apply Permutation_refl.
  - destruct (m_id m <=? m_id x).
    + apply Permutation_refl.
    + eapply perm_trans; [apply perm_swap |]. now apply perm_skip.
Qed.

Lemma order_by_id_perm (l : list MessageRow) :
  Permutation l (Table.order_by_id l).
Proof.
  induction l as [|m rest IH]; simpl.
  - apply perm_nil.
  - eapply perm_trans; [apply perm_skip, IH | apply insert_by_id_perm].
Qed.

Lemma insert_by_id_sorted (m : MessageRow) (l : list MessageRow) :
  StronglySorted id_le l -> StronglySorted id_le (Table.insert_by_id m l).
Proof.
  induction l as [|x rest IH]; simpl; intros Hs.
  - repeat constructor.
  - inversion Hs as [|? ? Hrest Hall]; subst.
    destruct (m_id m <=? m_id x) eqn:Hcmp.
    + apply Z.leb_le in Hcmp. constructor; [exact Hs |].
      constructor; [exact Hcmp |].
      eapply Forall_impl; [| exact Hall]. unfold id_le. intros; lia.
    + apply Z.leb_gt in Hcmp. constructor; [now apply IH |].
      apply (Permutation_Forall (insert_by_id_perm m rest)).
      constructor; [unfold id_le; lia | exact Hall].
Qed.

(** [order("id", { ascending: true })] returns its rows in ascending id
    order. *)
Lemma order_by_id_sorted (l : list MessageRow) :
  StronglySorted id_le (Table.order_by_id l).
Proof.
  induction l as [|m rest IH]; simpl.
  - constructor.
  - now apply insert_by_id_sorted.
Qed.

(** Rows that are already in strictly ascending id order are returned as
    they are. *)
Lemma order_by_id_ascending (l : list MessageRow) :
  StronglySorted id_lt l -> Table.order_by_id l = l.
Proof.
  induction l as [|m rest IH]; simpl; intros Hs.
  - reflexivity.
  - inversion Hs as [|? ? Hrest Hall]; subst. rewrite (IH Hrest).
    destruct rest as [|x rest']; simpl; [reflexivity |].
    inversion Hall as [|? ? Hmx _]; subst. unfold id_lt in Hmx.
    destruct (Z.leb_spec (m_id m) (m_id x)); [reflexivity | lia].
Qed.

(** No id of an ascending list exceeds the id of its last row. *)
Lemma last_is_greatest (l : list MessageRow) (d m : MessageRow) :
  StronglySorted id_le l -> In m l -> m_id m <= m_id (List.last l d).
Proof.
  revert m. induction l as [|x rest IH]; intros m Hs Hin; [contradiction |].
  inversion Hs as [|? ? Hrest Hall]; subst.
  destruct rest as [|y rest'].
  - destruct Hin as [<- | []]. simpl. lia.
  - change (List.last (x :: y :: rest') d) with (List.last (y :: rest') d).
    destruct Hin as [<- | Hin].
    + assert (Hy : m_id y <= m_id (List.last (y :: rest') d))
        by (apply IH; [exact Hrest | now left]).
      inversion Hall as [|? ? Hxy _]; subst. unfold id_le in Hxy. lia.
    + now apply IH.
Qed.

Lemma last_In (first : MessageRow) (others : list MessageRow) :
  In (List.last (first :: others) first) (first :: others).
Proof.
  destruct (exists_last (l := first :: others)) as [front [z Hz]]; [discriminate |].
  rewrite Hz, last_last. apply in_or_app. right. now left.
Qed.

Lemma select_messages_after_In (lastId : Z) (s : Store) (m : MessageRow) :
  In m (Table.select_messages_after lastId s) <->
  In m (puchchat s) /\ lastId < m_id m.
Proof.
  unfold Table.select_messages_after. split.
  - intros Hin.
    apply (Permutation_in _ (Permutation_sym (order_by_id_perm _))) in Hin.
    apply filter_In in Hin as [Hin Hgt]. split; [exact Hin |].
    unfold Table.gt_id in Hgt. now apply Z.ltb_lt.
  - intros [Hin Hgt]. apply (Permutation_in _ (order_by_id_perm _)).
    apply filter_In. split; [exact Hin |].
    unfold Table.gt_id. now apply Z.ltb_lt.
Qed.

(** Once the cursor is the last id of a selection, nothing is left to
    select. *)
Lemma nothing_after_last (lastId : Z) (s : Store) (d : MessageRow) :
  Table.select_messages_after lastId s <> [] ->
  Table.select_messages_after
    (m_id (List.last (Table.select_messages_after lastId s) d)) s = [].
Proof.
  intros Hne.
  set (sel := Table.select_messages_after lastId s) in *.
  assert (Hlast : In (List.last sel d) sel).
  { destruct sel as [|x rest]; [contradiction |].
    destruct (exists_last (l := x :: rest)) as [front [z Hz]]; [discriminate |].
    rewrite Hz, last_last. apply in_or_app. right. now left. }
  apply (proj1 (select_messages_after_In lastId s _)) in Hlast as [_ Hgt].
  destruct (Table.select_messages_after (m_id (List.last sel d)) s) as [|m rest] eqn:Hsel;
    [reflexivity | exfalso].
  assert (Hm : In m (Table.select_messages_after (m_id (List.last sel d)) s))
    by (rewrite Hsel; now left).
  apply select_messages_after_In in Hm as [Hin Hafter].
  assert (Hin' : In m sel) by (apply select_messages_after_In; split; [exact Hin | lia]).
  pose proof (last_is_greatest sel d m (order_by_id_sorted _) Hin'). lia.
Qed.


(** ** Guards of the tools *)

(** [session.last_message_id || 0] is the cursor itself. *)
Lemma cursor_or_zero (z : Z) : (if z =? 0 then 0 else z) = z.
Proof. destruct (Z.eqb_spec z 0); congruence. Qed.

(** The store-side check of post and drain passes exactly when the user has
    one row and that row is marked connected. *)
Lemma marked_connected (rows : list bool) :
  not_marked_connected (Table.single rows) = false <-> rows = [true].
Proof.
  unfold not_marked_connected, Table.single. split.
  - destruct rows as [|[] [|? ?]]; simpl; intros H; try discriminate; reflexivity.
  - intros ->. reflexivity.
Qed.


(** ** The auto-increment key *)

Lemma insert_message_ascending (u text now : string) (s : Store) :
  ids_ascending s -> ids_ascending (Table.insert_message u text now s).
Proof.
  unfold ids_ascending, Table.insert_message. simpl. intros [Hsorted Hbelow].
  split.
  - induction (puchchat s) as [|m rest IH]; simpl.
    + repeat constructor.
    + inversion Hsorted as [|? ? Hrest Hall]; subst.
      inversion Hbelow as [|? ? Hm Hbelow']; subst.
      constructor; [now apply IH |].
      apply Forall_app. split; [exact Hall |].
      constructor; [exact Hm | constructor].
  - apply Forall_app. split.
    + eapply Forall_impl; [| exact Hbelow]. simpl. intros; lia.
    + constructor; [simpl; lia | constructor].
Qed.

Lemma filter_sorted (f : MessageRow -> bool) (l : list MessageRow) :
  StronglySorted id_lt l -> StronglySorted id_lt (filter f l).
Proof.
  induction l as [|m rest IH]; simpl; intros Hs; [constructor |].
  inversion Hs as [|? ? Hrest Hall]; subst.
  destruct (f m); [| now apply IH].
  constructor; [now apply IH |].
  apply Forall_forall. intros x Hx. apply filter_In in Hx as [Hx _].
  revert x Hx. now apply Forall_forall.
Qed.

Lemma sorted_NoDup (l : list MessageRow) : StronglySorted id_lt l -> NoDup l.
Proof.
  induction l as [|m rest IH]; intros Hs; [constructor |].
  inversion Hs as [|? ? Hrest Hall]; subst. constructor; [| now apply IH].
  intros Hin. rewrite Forall_forall in Hall. specialize (Hall m Hin).
  unfold id_lt in Hall. lia.
Qed.

(** On a table in ascending id order the selection after a cursor is the
    table's own rows above the cursor, in the table's order. *)
Lemma select_messages_after_ascending (lastId : Z) (s : Store) :
  ids_ascending s ->
  Table.select_messages_after lastId s = filter (Table.gt_id lastId) (puchchat s).
Proof.
  intros [Hsorted _]. unfold Table.select_messages_after.
  apply order_by_id_ascending. now apply filter_sorted.
Qed.

(** Rows whose ids are all above the cursor pass the filter. *)
Lemma filter_gt_id_all (lastId : Z) (l : list MessageRow) :
  Forall (fun m => lastId < m_id m) l -> filter (Table.gt_id lastId) l = l.
Proof.
  induction 1 as [|m rest Hm _ IH]; simpl; [reflexivity |].
  unfold Table.gt_id at 1. apply Z.ltb_lt in Hm. rewrite Hm. now rewrite IH.
Qed.


(** A lookup answered with the code PGRST116 passes the guard of connect. *)
Lemma lookup_error_no_rows (e : StoreError) :
  lookup_error (Some e) = None <-> no_rows_answer (Refused e) = true.
Proof.
  unfold lookup_error, no_rows_answer.
  destruct (String.eqb (e_code e) "PGRST116"); simpl; split; congruence.
Qed.

(** ** The command gate *)

Lemma verify_mismatch (TOKEN providedToken : string) (w : World) :
  providedToken <> TOKEN ->
  verify (authProvider TOKEN) providedToken w = (Value None, w).
Proof.
  intros H. unfold verify, authProvider. simpl.
  destruct (String.eqb_spec providedToken TOKEN); [contradiction | reflexivity].
Qed.

Lemma verify_match (TOKEN : string) (w : World) :
  verify (authProvider TOKEN) TOKEN w =
    (Value (Some {| clientId := "puch-client"; scopes := ["*"] |}), w).
Proof. unfold verify, authProvider. simpl. now rewrite String.eqb_refl. Qed.

(** ** Running a tool

    [expose] unfolds the monad and the store client down to the answers of
    the store; [crack] then splits on every answer and on every guard of the
    tool, so that each path of the tool is one goal. *)

Ltac expose :=
  cbv beta iota zeta delta
    [bind try_catch ret get_session assign_username assign_last_message_id
     await_store log_request set_store set_session
     Supabase.select_user Supabase.update_user Supabase.insert_user
     Supabase.select_is_connected Supabase.insert_message
     Supabase.select_messages_after Supabase.select_connected
     session store requests answers username last_message_id
     data error Table.ok Table.done Table.failed fst snd].

Ltac split_outcome :=
  match goal with
  | |- context [match ?ans ?n with Served _ => _ | Refused _ => _ | Crashed _ => _ end] =>
      let A := fresh "Hanswer" in destruct (ans n) eqn:A
  end.

Ltac crack :=
  repeat (expose;
    first
      [ split_outcome
      | match goal with
        | |- context [lookup_error ?e] =>
            let L := fresh "Hlookup" in destruct (lookup_error e) eqn:L
        | |- context [if has_rows ?d then _ else _] =>
            let R := fresh "Hrows" in destruct (has_rows d) eqn:R
        | |- context [Table.insert_user ?u ?c ?s] =>
            unfold Table.insert_user;
            let X := fresh "Hexists" in
            destruct (existsb (Table.has_username u) (puchchat_users s)) eqn:X
        | |- context [if not_marked_connected ?r then _ else _] =>
            let R := fresh "Hmarked" in destruct (not_marked_connected r) eqn:R
        end ]);
  expose.

(** The call passes the gate or is turned away; in the second case the goal
    is closed by [tac]. *)
Ltac gate TOKEN authToken tac :=
  unfold bind at 1;
  destruct (String.eqb_spec authToken TOKEN) as [->|?];
  [ rewrite verify_match
  | rewrite verify_mismatch by assumption; tac ].


(** Reasoning on which of the (at most two) requests of a call failed. *)

Ltac normalize_indices :=
  repeat match goal with
         | H : context [List.length (_ ++ [_])] |- _ => rewrite last_request_index in H
         | |- context [List.length (_ ++ [_])] => rewrite last_request_index
         end.

Ltac use_answers :=
  repeat match goal with
         | H : ?ans ?n = _, Hf : context [?ans ?n] |- _ => rewrite H in Hf
         end.

Ltac which_request i Hrange reqs :=
  unfold issued_during in Hrange; simpl in Hrange; normalize_indices;
  let Hi := fresh "Hi" in
  assert (Hi : i = List.length reqs \/ i = S (List.length reqs)) by lia;
  destruct Hi as [-> | ->].

(** A call that issued no request, or whose requests were all served, has no
    store failure. *)
Ltac no_failure i Hrange reqs :=
  exfalso; which_request i Hrange reqs; use_answers; solve [discriminate | lia].

(** The failed request is not a lookup answered with the code PGRST116. *)
Ltac no_rows_excluded Hnr :=
  specialize (Hnr eq_refl); use_answers;
  match goal with
  | Hl : lookup_error (Some _) = None |- _ => apply lookup_error_no_rows in Hl
  end;
  congruence.

Ltac stopped_at_failure reqs :=
  let j := fresh "j" in
  let Hj := fresh "Hj" in
  let Hf := fresh "Hf" in
  intros j Hj Hf; simpl in Hf; which_request j Hj reqs; use_answers;
  solve [discriminate | simpl; normalize_indices; lia].


Section Properties.

Variable TOKEN : string.
Variable toISOString : string -> string.
Context {engine : JsString.Engine}.

(** C5: a command called with a credential that is not the static secret
    resolves (it does not throw) to the authentication failure and leaves the
    world as it was: no store request is issued, no table and no session field
    changes.  This holds for connect, disconnect, send, fetch, connectedUsers
    and help. *)
Theorem C5_unauthorized_is_rejected_untouched
    (authToken username message : string) (w : World) :
  authToken <> TOKEN ->
  connect TOKEN username authToken w = (Value "❌ Authentication failed.", w) /\
  disconnect TOKEN authToken w = (Value "❌ Authentication failed.", w) /\
  send TOKEN message authToken w = (Value "❌ Authentication failed.", w) /\
  fetch TOKEN toISOString authToken w = (Value "❌ Authentication failed.", w) /\
  connectedUsers TOKEN authToken w = (Value "❌ Authentication failed.", w) /\
  help TOKEN authToken w = (Value "❌ Authentication failed.", w).
Proof.
  intros H.
  unfold connect, disconnect, send, fetch, connectedUsers, help, bind.
  rewrite (verify_mismatch TOKEN authToken w H).
  repeat split; reflexivity.
Qed.


(** What a successful join has done. *)
Lemma connect_success (input authToken r : string) (w w' : World) :
  connect TOKEN input authToken w = (Value r, w') ->
  String.prefix "✅" r = true ->
  let u := JsString.toLowerCase (JsString.trim input) in
  r = "✅ Connected as '" ++ u ++ "'." /\
  session w' = {| username := Some u; last_message_id := 0 |} /\
  puchchat_users (store w') =
    (if existsb (Table.has_username u) (puchchat_users (store w))
     then puchchat_users (Table.update_user u true (store w))
     else (puchchat_users (store w) ++ [{| u_username := u; u_is_connected := true |}])%list).
Proof.
  intros Hrun Hok u. revert Hrun Hok. subst u. unfold connect.
  gate TOKEN authToken ltac:(intros [= <- <-]; simpl; discriminate).
  destruct w as [[u0 last0] st reqs ans].
  crack; intros [= <- <-]; try (simpl; discriminate); intros _;
    repeat split; simpl.
  all: try (now rewrite Hexists).
  all: rewrite has_rows_select_user in Hrows; now rewrite Hrows.
Qed.

(** After an upsert of [u] a row of that key exists and every such row is
    connected. *)
Lemma upsert_connected (u : string) (s : Store) (rows : list UserRow) :
  rows =
    (if existsb (Table.has_username u) (puchchat_users s)
     then puchchat_users (Table.update_user u true s)
     else (puchchat_users s ++ [{| u_username := u; u_is_connected := true |}])%list) ->
  (exists row, In row rows /\ u_username row = u) /\
  (forall row, In row rows -> u_username row = u -> u_is_connected row = true).
Proof.
  intros ->.
  destruct (existsb (Table.has_username u) (puchchat_users s)) eqn:Hex; split.
  - apply existsb_exists in Hex as [old [Hin Hold]].
    exists {| u_username := u_username old; u_is_connected := true |}. split.
    + unfold Table.update_user. simpl. apply in_map_iff. exists old.
      now rewrite Hold.
    + apply String.eqb_eq in Hold. exact Hold.
  - intros row Hin Hkey. now apply (update_user_rows u true s row).
  - exists {| u_username := u; u_is_connected := true |}. split.
    + apply in_or_app. right. now left.
    + reflexivity.
  - intros row Hin Hkey.
    apply in_app_or in Hin as [Hold | [<- | []]]; [exfalso | reflexivity].
    assert (Hno : existsb (Table.has_username u) (puchchat_users s) = true).
    { apply existsb_exists. exists row. split; [exact Hold |].
      unfold Table.has_username. now apply String.eqb_eq. }
    congruence.
Qed.

(** A join whose two store requests are served succeeds. *)
Lemma connect_served (input now1 now2 : string) (w : World) :
  answers w (List.length (requests w)) = Served now1 ->
  answers w (S (List.length (requests w))) = Served now2 ->
  exists w',
    connect TOKEN input TOKEN w =
      (Value ("✅ Connected as '" ++ JsString.toLowerCase (JsString.trim input) ++ "'."), w').
Proof.
  unfold connect. unfold bind at 1. rewrite verify_match.
  destruct w as [[u0 last0] st reqs ans]. simpl. intros H1 H2.
  expose. rewrite H1. expose. unfold lookup_error.
  destruct (has_rows _) eqn:Hrows; expose; rewrite last_request_index, H2; expose.
  - eexists. reflexivity.
  - rewrite has_rows_select_user in Hrows. unfold Table.insert_user.
    rewrite Hrows. expose. eexists. reflexivity.
Qed.

(** C8: a join that succeeds (its reply is the one that starts with the check
    mark) leaves [session.username] at the trimmed, lower-cased username and
    [session.last_message_id] at 0, has upserted the user row of that
    username (the rows of that key updated to [is_connected = true] when there
    was one, a new connected row appended otherwise, so that a row of that key
    exists and every such row is connected), and replies
    "Connected as '<normalized username>'." *)
Theorem C8_join_success (input authToken r : string) (w w' : World) :
  connect TOKEN input authToken w = (Value r, w') ->
  String.prefix "✅" r = true ->
  let u := JsString.toLowerCase (JsString.trim input) in
  r = "✅ Connected as '" ++ u ++ "'." /\
  session w' = {| username := Some u; last_message_id := 0 |} /\
  puchchat_users (store w') =
    (if existsb (Table.has_username u) (puchchat_users (store w))
     then puchchat_users (Table.update_user u true (store w))
     else (puchchat_users (store w) ++ [{| u_username := u; u_is_connected := true |}])%list) /\
  (exists row, In row (puchchat_users (store w')) /\ u_username row = u) /\
  (forall row, In row (puchchat_users (store w')) ->
               u_username row = u -> u_is_connected row = true).
Proof.
  intros Hrun Hok u.
  destruct (connect_success input authToken r w w' Hrun Hok) as (Hr & Hs & Hu).
  destruct (upsert_connected u (store w) _ Hu) as [Hex Hall].
  repeat split; assumption.
Qed.

(** C10: a username made of white space only is not turned away.  It
    normalizes to the empty string; with the store serving the two requests
    of the join, the reply is the success reply for the empty name,
    [session.username] is the empty string, [session.last_message_id] is 0,
    and [puchchat_users] holds a row keyed by the empty string, every such
    row with [is_connected = true]. *)
Theorem C10_blank_username_joins (input now1 now2 : string) (w : World) :
  JsString.all_white_space input = true ->
  answers w (List.length (requests w)) = Served now1 ->
  answers w (S (List.length (requests w))) = Served now2 ->
  JsString.toLowerCase (JsString.trim input) = EmptyString /\
  exists w',
    connect TOKEN input TOKEN w = (Value "✅ Connected as ''.", w') /\
    session w' = {| username := Some EmptyString; last_message_id := 0 |} /\
    (exists row, In row (puchchat_users (store w')) /\ u_username row = EmptyString) /\
    (forall row, In row (puchchat_users (store w')) ->
                 u_username row = EmptyString -> u_is_connected row = true).
Proof.
  intros Hblank H1 H2.
  assert (Hnorm : JsString.toLowerCase (JsString.trim input) = EmptyString).
  { now rewrite trim_all_white_space. }
  split; [exact Hnorm |].
  destruct (connect_served input now1 now2 w H1 H2) as [w' Hrun].
  exists w'.
  destruct (connect_success input TOKEN _ w w' Hrun eq_refl) as (_ & Hs & Hu).
  rewrite Hnorm in Hrun, Hs, Hu.
  destruct (upsert_connected EmptyString (store w) _ Hu) as [Hex Hall].
  repeat split; assumption.
Qed.

(** C9: a join for a username whose normal form is not [a] leaves the rows of
    [a] in [puchchat_users] as they were, whatever the store answers: when
    [a] is the user of the running session, its row keeps
    [is_connected = true]. *)
Theorem C9_join_keeps_other_rows (input authToken a : string) (w : World) :
  a <> JsString.toLowerCase (JsString.trim input) ->
  let w' := snd (connect TOKEN input authToken w) in
  Table.select_user a (store w') = Table.select_user a (store w) /\
  (forall row, In row (puchchat_users (store w)) ->
     u_username row = a -> u_is_connected row = true ->
     In row (puchchat_users (store w'))).
Proof.
  intros Hne w'.
  assert (Hframe : Table.select_user a (store w') = Table.select_user a (store w)).
  { subst w'. unfold connect.
    gate TOKEN authToken ltac:(reflexivity).
    destruct w as [[u0 last0] st reqs ans].
    crack; try reflexivity;
      solve [now apply update_user_frame | now apply insert_user_frame]. }
  split; [exact Hframe |].
  intros row Hin Hkey _.
  assert (Hsel : In row (Table.select_user a (store w))).
  { unfold Table.select_user. apply filter_In. split; [exact Hin |].
    unfold Table.has_username. now apply String.eqb_eq. }
  rewrite <- Hframe in Hsel. unfold Table.select_user in Hsel.
  now apply filter_In in Hsel.
Qed.

(** C7: after a leave that succeeded (its reply starts with the door) the
    session has no username, and a post that follows at once resolves to the
    warning "You must /connect before sending messages.", a value and not a
    failure reply, in an unchanged world: no store request is issued and no
    message row is created. *)
Theorem C7_leave_then_post (authToken message r : string) (w w' : World) :
  disconnect TOKEN authToken w = (Value r, w') ->
  String.prefix "🚪" r = true ->
  username (session w') = None /\
  send TOKEN message TOKEN w' =
    (Value "⚠️ You must /connect before sending messages.", w').
Proof.
  intros Hrun Hok.
  assert (Hleft : username (session w') = None).
  { revert Hrun Hok. unfold disconnect.
    gate TOKEN authToken ltac:(intros [= <- <-]; simpl; discriminate).
    destruct w as [[u0 last0] st reqs ans]. expose.
    destruct (truthy_username u0) as [u|];
      crack; intros [= <- <-]; try (simpl; discriminate); intros _.
    reflexivity. }
  split; [exact Hleft |].
  unfold send. unfold bind at 1. rewrite verify_match.
  destruct w' as [[u1 last1] st1 reqs1 ans1]. simpl in Hleft. subst u1.
  reflexivity.
Qed.

(** A post by a joined user whose row is marked connected, with both store
    requests served: the trimmed text is stored under the next id and echoed. *)
Lemma send_delivers (message u now1 now2 : string) (w : World) :
  truthy_username (username (session w)) = Some u ->
  answers w (List.length (requests w)) = Served now1 ->
  map u_is_connected (Table.select_user u (store w)) = [true] ->
  answers w (S (List.length (requests w))) = Served now2 ->
  send TOKEN message TOKEN w =
    (Value ("📨 Message sent: " ++ JsString.trim message),
     set_store
       (Table.insert_message u (JsString.trim message) now2 (store w))
       (log_request (InsertMessage u (JsString.trim message))
          (log_request (SelectIsConnected u) w))).
Proof.
  unfold send. unfold bind at 1. rewrite verify_match.
  destruct w as [[u0 last0] st reqs ans]. simpl. intros Hu H1 Hrow H2.
  expose. rewrite Hu. expose. rewrite H1. expose. rewrite Hrow.
  unfold Table.single, not_marked_connected. expose. cbn [negb]. expose.
  rewrite last_request_index, H2. reflexivity.
Qed.

(** C3, as the code has it: post has no empty-input check.  For every text,
    empty after trimming or not, a post by a joined user whose row is marked
    connected and whose two store requests are served issues both requests
    (the check of the row, then the insert), appends one row that carries the
    store-assigned id, the session's username and the trimmed text, and
    replies with the confirmation that echoes the trimmed text; the reply
    does not carry the id. *)
Theorem C3_post_stores_trimmed_text (message u now1 now2 : string) (w : World) :
  truthy_username (username (session w)) = Some u ->
  answers w (List.length (requests w)) = Served now1 ->
  map u_is_connected (Table.select_user u (store w)) = [true] ->
  answers w (S (List.length (requests w))) = Served now2 ->
  exists w',
    send TOKEN message TOKEN w =
      (Value ("📨 Message sent: " ++ JsString.trim message), w') /\
    requests w' =
      (requests w ++ [SelectIsConnected u; InsertMessage u (JsString.trim message)])%list /\
    puchchat (store w') =
      (puchchat (store w) ++
        [{| m_id := next_id (store w); m_username := u;
            m_message := JsString.trim message; m_created_at := now2 |}])%list /\
    next_id (store w') = next_id (store w) + 1 /\
    puchchat_users (store w') = puchchat_users (store w) /\
    session w' = session w.
Proof.
  intros Hu H1 Hrow H2. eexists. split.
  - exact (send_delivers message u now1 now2 w Hu H1 Hrow H2).
  - simpl. rewrite <- app_assoc. repeat split; reflexivity.
Qed.


(** A drain by a joined user whose row is marked connected, with both store
    requests served: the rows after the cursor, in ascending id order, are
    formatted one per line and the cursor moves to the id of the last one. *)
Lemma fetch_delivers (u now1 now2 : string) (w : World) :
  truthy_username (username (session w)) = Some u ->
  answers w (List.length (requests w)) = Served now1 ->
  map u_is_connected (Table.select_user u (store w)) = [true] ->
  answers w (S (List.length (requests w))) = Served now2 ->
  fetch TOKEN toISOString TOKEN w =
    let lastId := last_message_id (session w) in
    let w2 := log_request (SelectMessagesAfter lastId)
                (log_request (SelectIsConnected u) w) in
    match Table.select_messages_after lastId (store w) with
    | [] => (Value "🕒 No new messages.", w2)
    | first :: rest =>
        (Value ("💬 New messages:" ++ LF ++
                JsString.join LF (map (format_message toISOString) (first :: rest))),
         set_session {| username := username (session w);
                        last_message_id := m_id (List.last (first :: rest) first) |} w2)
    end.
Proof.
  unfold fetch. unfold bind at 1. rewrite verify_match.
  destruct w as [[u0 last0] st reqs ans]. simpl. intros Hu H1 Hrow H2.
  expose. rewrite Hu. expose. rewrite H1. expose. rewrite Hrow.
  unfold Table.single, not_marked_connected. expose. cbn [negb]. expose.
  rewrite last_request_index, H2, cursor_or_zero. expose.
  destruct (Table.select_messages_after last0 st) as [|first rest]; reflexivity.
Qed.

(** A drain that delivered (new messages, or the notice that there are none)
    was called with the secret by a joined user whose row is marked
    connected, and the store served its two requests. *)
Lemma fetch_delivered_inv (authToken r : string) (w w1 : World) :
  fetch TOKEN toISOString authToken w = (Value r, w1) ->
  String.prefix "💬" r = true \/ r = "🕒 No new messages." ->
  authToken = TOKEN /\
  exists u now1 now2,
    truthy_username (username (session w)) = Some u /\
    answers w (List.length (requests w)) = Served now1 /\
    map u_is_connected (Table.select_user u (store w)) = [true] /\
    answers w (S (List.length (requests w))) = Served now2.
Proof.
  unfold fetch.
  gate TOKEN authToken ltac:(intros [= <- <-] [H|H]; simpl in H; discriminate).
  destruct w as [[u0 last0] st reqs ans]. expose.
  destruct (truthy_username u0) as [u|] eqn:Hu; expose;
    [| intros [= <- <-] [H|H]; simpl in H; discriminate].
  crack;
    try (intros [= <- <-] [H|H]; simpl in H; discriminate);
    try (simpl in Hmarked; discriminate).
  intros _ _. split; [reflexivity |].
  rewrite last_request_index in Hanswer0.
  apply marked_connected in Hmarked.
  exists u, now, now0. repeat split; assumption.
Qed.

(** C6: let a drain deliver (new messages, or the notice that there are
    none).  What it returned are the rows of [puchchat] with an id above the
    cursor, formatted in its reply, and it left the cursor at the greatest id
    among them (where it was when there are none), the tables as they were.
    When nothing is inserted into [puchchat] before the next drain, that next
    drain, its two store requests served, replies "No new messages." and
    changes neither the session nor the tables. *)
Theorem C6_second_drain_is_empty (authToken r1 now1 now2 : string) (w w1 : World) :
  fetch TOKEN toISOString authToken w = (Value r1, w1) ->
  String.prefix "💬" r1 = true \/ r1 = "🕒 No new messages." ->
  answers w1 (List.length (requests w1)) = Served now1 ->
  answers w1 (S (List.length (requests w1))) = Served now2 ->
  let cursor := last_message_id (session w) in
  let returned := Table.select_messages_after cursor (store w) in
  (forall m, In m returned <-> In m (puchchat (store w)) /\ cursor < m_id m) /\
  r1 = match returned with
       | [] => "🕒 No new messages."
       | _ :: _ =>
           "💬 New messages:" ++ LF ++
           JsString.join LF (map (format_message toISOString) returned)
       end /\
  last_message_id (session w1) =
    match returned with
    | [] => cursor
    | first :: _ => m_id (List.last returned first)
    end /\
  (forall m, In m returned -> m_id m <= last_message_id (session w1)) /\
  (returned <> [] ->
   exists m, In m returned /\ m_id m = last_message_id (session w1)) /\
  username (session w1) = username (session w) /\
  store w1 = store w /\
  exists w2,
    fetch TOKEN toISOString TOKEN w1 = (Value "🕒 No new messages.", w2) /\
    session w2 = session w1 /\ store w2 = store w1.
Proof.
  intros Hrun Hok H1 H2 cursor returned.
  destruct (fetch_delivered_inv authToken r1 w w1 Hrun Hok)
    as (-> & u & n1 & n2 & Hu & Ha1 & Hrow & Ha2).
  rewrite (fetch_delivers u n1 n2 w Hu Ha1 Hrow Ha2) in Hrun.
  cbv zeta in Hrun. fold cursor in Hrun. fold returned in Hrun.
  split; [intros m; apply select_messages_after_In |].
  assert (Hsorted : StronglySorted id_le returned) by apply order_by_id_sorted.
  assert (Hsel : Table.select_messages_after cursor (store w) = returned) by reflexivity.
  clearbody returned.
  destruct returned as [|first rest]; injection Hrun as <- <-.
  - split; [reflexivity |]. split; [reflexivity |].
    split; [intros m [] |]. split; [intros Hne; now contradiction Hne |].
    split; [reflexivity |]. split; [reflexivity |].
    rewrite (fetch_delivers u now1 now2); try assumption.
    cbv zeta. simpl. fold cursor. rewrite Hsel. eexists. repeat split.
  - split; [reflexivity |]. split; [reflexivity |].
    split.
    { intros m Hin. cbn [session set_session last_message_id].
      exact (last_is_greatest (first :: rest) first m Hsorted Hin). }
    split.
    { intros _. exists (List.last (first :: rest) first).
      split; [apply last_In | reflexivity]. }
    split; [reflexivity |]. split; [reflexivity |].
    simpl in H1, H2.
    rewrite (fetch_delivers u now1 now2); try assumption.
    cbv zeta.
    change (store (set_session _ _)) with (store w).
    change (last_message_id (session (set_session _ _)))
      with (m_id (List.last (first :: rest) first)).
    rewrite <- Hsel, nothing_after_last by (rewrite Hsel; discriminate).
    eexists. repeat split.
Qed.


(** A post that was confirmed was made with the secret by a joined user whose
    row is marked connected, and the store served its two requests. *)
Lemma send_confirmed_inv (message authToken r : string) (w w1 : World) :
  send TOKEN message authToken w = (Value r, w1) ->
  String.prefix "📨" r = true ->
  authToken = TOKEN /\
  exists u now1 now2,
    truthy_username (username (session w)) = Some u /\
    answers w (List.length (requests w)) = Served now1 /\
    map u_is_connected (Table.select_user u (store w)) = [true] /\
    answers w (S (List.length (requests w))) = Served now2.
Proof.
  unfold send.
  gate TOKEN authToken ltac:(intros [= <- <-] H; simpl in H; discriminate).
  destruct w as [[u0 last0] st reqs ans]. expose.
  destruct (truthy_username u0) as [u|] eqn:Hu; expose;
    [| intros [= <- <-] H; simpl in H; discriminate].
  crack;
    try (intros [= <- <-] H; simpl in H; discriminate);
    try (simpl in Hmarked; discriminate).
  intros _ _. split; [reflexivity |].
  rewrite last_request_index in Hanswer0.
  apply marked_connected in Hmarked.
  exists u, now, now0. repeat split; assumption.
Qed.

(** A sequence of confirmed posts appends one row per text, in the order of
    the calls, and touches nothing else. *)
Lemma post_all_confirmed (u : string) (texts : list string) :
  forall (w w1 : World) (replies : list string),
    post_all TOKEN texts w = (Value replies, w1) ->
    Forall (fun r => String.prefix "📨" r = true) replies ->
    truthy_username (username (session w)) = Some u ->
    ids_ascending (store w) ->
    exists posted,
      puchchat (store w1) = (puchchat (store w) ++ posted)%list /\
      map m_message posted = map JsString.trim texts /\
      Forall (fun m => m_username m = u /\ next_id (store w) <= m_id m) posted /\
      replies = map (fun text => "📨 Message sent: " ++ JsString.trim text) texts /\
      session w1 = session w /\
      puchchat_users (store w1) = puchchat_users (store w) /\
      ids_ascending (store w1) /\
      next_id (store w) <= next_id (store w1).
Proof.
  induction texts as [|text rest IH]; intros w w1 replies Hrun Hok Hu Hasc.
  - injection Hrun as <- <-. exists []. rewrite app_nil_r.
    repeat split; try assumption; try constructor; try apply Hasc; lia.
  - simpl in Hrun. unfold bind at 1 in Hrun.
    destruct (send TOKEN text TOKEN w) as [[r|msg] w'] eqn:Hsend; [| discriminate].
    unfold bind at 1 in Hrun.
    destruct (post_all TOKEN rest w') as [[rs|msg] w''] eqn:Hrest; [| discriminate].
    injection Hrun as <- <-.
    inversion Hok as [|? ? Hr Hrs]; subst.
    destruct (send_confirmed_inv text TOKEN r w w' Hsend Hr)
      as (_ & u' & now1 & now2 & Hu' & H1 & Hrow & H2).
    assert (u' = u) by congruence. subst u'.
    rewrite (send_delivers text u now1 now2 w Hu H1 Hrow H2) in Hsend.
    injection Hsend as <- <-.
    destruct (IH _ _ _ Hrest Hrs) as (posted & Hp & Hm & Hall & Hreplies & Hs & Husers & Hasc' & Hnext).
    + exact Hu.
    + simpl. now apply insert_message_ascending.
    + simpl in Hp, Hall, Hs, Husers, Hnext.
      exists ({| m_id := next_id (store w); m_username := u;
                 m_message := JsString.trim text; m_created_at := now2 |} :: posted).
      split. { rewrite Hp. simpl. now rewrite <- app_assoc. }
      split. { simpl. now rewrite Hm. }
      split.
      { constructor; [simpl; split; [reflexivity | lia] |].
        eapply Forall_impl; [| exact Hall]. simpl.
        intros m [? ?]. split; [assumption | lia]. }
      split. { rewrite Hreplies. reflexivity. }
      split. { exact Hs. }
      split. { exact Husers. }
      split. { exact Hasc'. }
      lia.
Qed.

(** C1: let a joined user make any sequence of posts, all confirmed, on a
    message table with an auto-increment key and a cursor below the next id,
    and then drain with the user's row marked connected and the store serving.
    The drain returns exactly the rows whose id is above the cursor (those
    that were there before the posts, then the posted ones in the order of
    the calls), in strictly ascending id order, none left out and none twice;
    its reply is one formatted line per row, or the notice that there are no
    new messages when there is no such row; and the cursor ends at the id of
    the last row returned. *)
Theorem C1_drain_returns_rows_after_cursor
    (u nowd1 nowd2 : string) (texts replies : list string) (w w1 : World) :
  truthy_username (username (session w)) = Some u ->
  ids_ascending (store w) ->
  last_message_id (session w) < next_id (store w) ->
  post_all TOKEN texts w = (Value replies, w1) ->
  Forall (fun r => String.prefix "📨" r = true) replies ->
  answers w1 (List.length (requests w1)) = Served nowd1 ->
  map u_is_connected (Table.select_user u (store w1)) = [true] ->
  answers w1 (S (List.length (requests w1))) = Served nowd2 ->
  exists posted w2,
    let cursor := last_message_id (session w) in
    let delivered := (filter (Table.gt_id cursor) (puchchat (store w)) ++ posted)%list in
    puchchat (store w1) = (puchchat (store w) ++ posted)%list /\
    map m_message posted = map JsString.trim texts /\
    Forall (fun m => m_username m = u) posted /\
    fetch TOKEN toISOString TOKEN w1 =
      (Value (match delivered with
              | [] => "🕒 No new messages."
              | _ :: _ =>
                  "💬 New messages:" ++ LF ++
                  JsString.join LF (map (format_message toISOString) delivered)
              end), w2) /\
    (forall m, In m delivered <-> In m (puchchat (store w1)) /\ cursor < m_id m) /\
    StronglySorted id_lt delivered /\
    NoDup delivered /\
    last_message_id (session w2) =
      match delivered with
      | [] => cursor
      | first :: _ => m_id (List.last delivered first)
      end.
Proof.
  intros Hu Hasc Hcursor Hposts Hok H1 Hrow H2.
  destruct (post_all_confirmed u texts w w1 replies Hposts Hok Hu Hasc)
    as (posted & Hp & Hm & Hall & _ & Hs & _ & Hasc1 & _).
  assert (Hsel : Table.select_messages_after (last_message_id (session w)) (store w1) =
                 (filter (Table.gt_id (last_message_id (session w))) (puchchat (store w))
                    ++ posted)%list).
  { rewrite select_messages_after_ascending by assumption.
    rewrite Hp, filter_app. f_equal. apply filter_gt_id_all.
    eapply Forall_impl; [| exact Hall]. simpl. intros m [_ Hid]. lia. }
  assert (Hu1 : truthy_username (username (session w1)) = Some u) by (now rewrite Hs).
  pose proof (fetch_delivers u nowd1 nowd2 w1 Hu1 H1 Hrow H2) as Hfetch.
  cbv zeta in Hfetch. rewrite Hs, Hsel in Hfetch.
  assert (Hnames : Forall (fun m => m_username m = u) posted).
  { eapply Forall_impl; [| exact Hall]. simpl. now intros m [? _]. }
  assert (Hsorted : StronglySorted id_lt
            (filter (Table.gt_id (last_message_id (session w))) (puchchat (store w))
               ++ posted)%list).
  { rewrite <- Hsel, select_messages_after_ascending by assumption.
    apply filter_sorted, Hasc1. }
  assert (Hin : forall m,
            In m (filter (Table.gt_id (last_message_id (session w))) (puchchat (store w))
                    ++ posted)%list <->
            In m (puchchat (store w1)) /\ last_message_id (session w) < m_id m).
  { intros m. rewrite <- Hsel. apply select_messages_after_In. }
  destruct (filter (Table.gt_id (last_message_id (session w))) (puchchat (store w))
              ++ posted)%list as [|first others] eqn:Hd;
    exists posted; eexists; cbv zeta; rewrite Hd;
    (split; [exact Hp |]); (split; [exact Hm |]); (split; [exact Hnames |]);
    (split; [exact Hfetch |]); (split; [exact Hin |]);
    (split; [exact Hsorted |]).
  - split; [constructor |]. simpl. now rewrite Hs.
  - split; [now apply sorted_NoDup | reflexivity].
Qed.


(** A store failure during a leave. *)
Lemma disconnect_failure (authToken : string) (w w' : World) (r : Completion string) :
  disconnect TOKEN authToken w = (r, w') ->
  store_failure_during w w' ->
  session w' = session w /\ store w' = store w /\ aborted_at_failure w w' /\
  exists reply, r = Value reply /\ String.prefix "❌" reply = true.
Proof.
  unfold disconnect.
  gate TOKEN authToken
    ltac:(intros [= <- <-] [i [Hrange _]]; unfold issued_during in Hrange; lia).
  destruct w as [[u0 last0] st reqs ans]. expose.
  destruct (truthy_username u0) as [u|] eqn:Hu; expose;
    [| intros [= <- <-] [i [Hrange _]]; unfold issued_during in Hrange; lia].
  crack; intros [= <- <-] [i [Hrange Hfail]]; simpl in Hfail;
    try (no_failure i Hrange reqs);
    (split; [reflexivity |]); (split; [reflexivity |]);
    (split; [stopped_at_failure reqs |]);
    eexists; split; reflexivity.
Qed.

(** A store failure during a post. *)
Lemma send_failure (message authToken : string) (w w' : World) (r : Completion string) :
  send TOKEN message authToken w = (r, w') ->
  store_failure_during w w' ->
  session w' = session w /\ store w' = store w /\ aborted_at_failure w w' /\
  exists reply, r = Value reply /\
    (String.prefix "❌" reply = true \/
     reply = "⚠️ You are not connected. Use /connect first." /\
     exists e, answers w (List.length (requests w)) = Refused e).
Proof.
  unfold send.
  gate TOKEN authToken
    ltac:(intros [= <- <-] [i [Hrange _]]; unfold issued_during in Hrange; lia).
  destruct w as [[u0 last0] st reqs ans]. expose.
  destruct (truthy_username u0) as [u|] eqn:Hu; expose;
    [| intros [= <- <-] [i [Hrange _]]; unfold issued_during in Hrange; lia].
  crack; intros [= <- <-] [i [Hrange Hfail]]; simpl in Hfail;
    try (simpl in Hmarked; discriminate);
    try (no_failure i Hrange reqs);
    (split; [reflexivity |]); (split; [reflexivity |]);
    (split; [stopped_at_failure reqs |]);
    eexists; (split; [reflexivity |]);
    first [ left; reflexivity
          | right; split; [reflexivity | eexists; reflexivity] ].
Qed.

(** A store failure during a drain. *)
Lemma fetch_failure (authToken : string) (w w' : World) (r : Completion string) :
  fetch TOKEN toISOString authToken w = (r, w') ->
  store_failure_during w w' ->
  session w' = session w /\ store w' = store w /\ aborted_at_failure w w' /\
  exists reply, r = Value reply /\
    (String.prefix "❌" reply = true \/
     reply = "⚠️ You are not connected. Use /connect first." /\
     exists e, answers w (List.length (requests w)) = Refused e).
Proof.
  unfold fetch.
  gate TOKEN authToken
    ltac:(intros [= <- <-] [i [Hrange _]]; unfold issued_during in Hrange; lia).
  destruct w as [[u0 last0] st reqs ans]. expose.
  destruct (truthy_username u0) as [u|] eqn:Hu; expose;
    [| intros [= <- <-] [i [Hrange _]]; unfold issued_during in Hrange; lia].
  crack; try destruct (Table.select_messages_after _ _) as [|first rest]; expose;
    intros [= <- <-] [i [Hrange Hfail]]; simpl in Hfail;
    try (simpl in Hmarked; discriminate);
    try (no_failure i Hrange reqs);
    (split; [reflexivity |]); (split; [reflexivity |]);
    (split; [stopped_at_failure reqs |]);
    eexists; (split; [reflexivity |]);
    first [ left; reflexivity
          | right; split; [reflexivity | eexists; reflexivity] ].
Qed.


(** A store failure during a join, other than a no-rows answer to the
    lookup. *)
Lemma connect_failure (input authToken : string) (w w' : World) (r : Completion string) :
  connect TOKEN input authToken w = (r, w') ->
  join_failure_during w w' ->
  last_message_id (session w') = last_message_id (session w) /\
  store w' = store w /\
  (forall i, issued_during w w' i -> is_failure (answers w i) = true ->
             (i = List.length (requests w) -> no_rows_answer (answers w i) = false) ->
             S i = List.length (requests w')) /\
  exists reply, r = Value reply /\ String.prefix "❌" reply = true.
Proof.
  unfold connect.
  gate TOKEN authToken
    ltac:(intros [= <- <-] [i [Hrange _]]; unfold issued_during in Hrange; lia).
  destruct w as [[u0 last0] st reqs ans].
  crack; intros [= <- <-] (i & Hrange & Hfail & Hnr); simpl in Hfail, Hnr;
    try (simpl in Hrows; discriminate);
    try (simpl in Hlookup; discriminate);
    try (no_failure i Hrange reqs);
    try (exfalso; which_request i Hrange reqs;
         [ no_rows_excluded Hnr | use_answers; solve [discriminate | lia] ]);
    (split; [reflexivity |]); (split; [reflexivity |]);
    (split;
     [ intros j Hj Hf Hjnr; simpl in Hf, Hjnr; which_request j Hj reqs;
       try (exfalso; no_rows_excluded Hjnr);
       use_answers; solve [discriminate | simpl; normalize_indices; lia] |]);
    eexists; split; reflexivity.
Qed.

(** C2, as the code has it.  For leave, post and drain, a store request that
    is refused or crashes ends the call at that request and leaves the
    session record and both tables as they were; the reply is a failure reply
    (it starts with the cross), except that post and drain answer a refused
    check of the user's row with the warning "You are not connected. Use
    /connect first.".  For join, a lookup refused with the code PGRST116 is
    taken for an empty result and the join goes on; any other refused or
    crashed request ends the join at that request with a failure reply and
    leaves both tables and [session.last_message_id] as they were. *)
Theorem C2_store_failure_aborts_and_is_reported
    (input message authToken : string) (w w' : World) (r : Completion string) :
  (disconnect TOKEN authToken w = (r, w') -> store_failure_during w w' ->
     session w' = session w /\ store w' = store w /\ aborted_at_failure w w' /\
     exists reply, r = Value reply /\ String.prefix "❌" reply = true) /\
  (send TOKEN message authToken w = (r, w') -> store_failure_during w w' ->
     session w' = session w /\ store w' = store w /\ aborted_at_failure w w' /\
     exists reply, r = Value reply /\
       (String.prefix "❌" reply = true \/
        reply = "⚠️ You are not connected. Use /connect first." /\
        exists e, answers w (List.length (requests w)) = Refused e)) /\
  (fetch TOKEN toISOString authToken w = (r, w') -> store_failure_during w w' ->
     session w' = session w /\ store w' = store w /\ aborted_at_failure w w' /\
     exists reply, r = Value reply /\
       (String.prefix "❌" reply = true \/
        reply = "⚠️ You are not connected. Use /connect first." /\
        exists e, answers w (List.length (requests w)) = Refused e)) /\
  (connect TOKEN input authToken w = (r, w') -> join_failure_during w w' ->
     last_message_id (session w') = last_message_id (session w) /\
     store w' = store w /\
     (forall i, issued_during w w' i -> is_failure (answers w i) = true ->
                (i = List.length (requests w) -> no_rows_answer (answers w i) = false) ->
                S i = List.length (requests w')) /\
     exists reply, r = Value reply /\ String.prefix "❌" reply = true).
Proof.
  split; [apply disconnect_failure |].
  split; [apply send_failure |].
  split; [apply fetch_failure | apply connect_failure].
Qed.


(** ** The invariant of the worlds *)

(** The cursor a drain leaves is below the next id. *)
Lemma drained_cursor_below_next (lastId : Z) (s : Store)
    (first : MessageRow) (others : list MessageRow) :
  ids_ascending s ->
  Table.select_messages_after lastId s = first :: others ->
  m_id (List.last (first :: others) first) < next_id s.
Proof.
  intros [_ Hbelow] Hsel.
  pose proof (last_In first others) as Hin. rewrite <- Hsel in Hin.
  apply select_messages_after_In in Hin as [Hin _]. rewrite Hsel in Hin.
  rewrite Forall_forall in Hbelow. now apply Hbelow.
Qed.

Lemma insert_message_consistent (u text now : string) (s : Store) (cursor : Z) :
  ids_ascending s /\ 0 < next_id s /\ cursor < next_id s ->
  ids_ascending (Table.insert_message u text now s) /\
  0 < next_id (Table.insert_message u text now s) /\
  cursor < next_id (Table.insert_message u text now s).
Proof.
  intros (Hasc & Hpos & Hcur). split; [now apply insert_message_ascending |].
  simpl. lia.
Qed.

Lemma fresh_consistent (answers : nat -> Outcome) : consistent (Sample.fresh answers).
Proof. repeat split; try constructor. Qed.

(** Every tool keeps the worlds consistent, whatever the store answers. *)
Lemma tools_keep_consistent (input message authToken : string) (w : World) :
  consistent w ->
  consistent (snd (connect TOKEN input authToken w)) /\
  consistent (snd (disconnect TOKEN authToken w)) /\
  consistent (snd (send TOKEN message authToken w)) /\
  consistent (snd (fetch TOKEN toISOString authToken w)) /\
  consistent (snd (connectedUsers TOKEN authToken w)) /\
  consistent (snd (help TOKEN authToken w)).
Proof.
  intros Hw.
  assert (Hwide : forall users,
            ids_ascending {| puchchat_users := users; puchchat := puchchat (store w);
                             next_id := next_id (store w) |})
    by (intros users; exact (proj1 Hw)).
  destruct Hw as (Hasc & Hpos & Hcur).
  destruct w as [[u0 last0] st reqs ans]. simpl in *.
  assert (Hsame : consistent {| session := {| username := u0; last_message_id := last0 |};
                                store := st; requests := reqs; answers := ans |})
    by (split; [exact Hasc | split; assumption]).
  assert (Hkeep : forall sess users rs,
            0 <= last_message_id sess < next_id st ->
            consistent {| session := sess;
                          store := {| puchchat_users := users; puchchat := puchchat st;
                                      next_id := next_id st |};
                          requests := rs; answers := ans |}).
  { intros sess users rs Hsess. split; [apply Hwide |]. simpl. lia. }
  assert (Hstay : forall name rs,
            consistent {| session := {| username := name; last_message_id := last0 |};
                          store := st; requests := rs; answers := ans |})
    by (intros; split; [exact Hasc | split; assumption]).
  split.
  { unfold connect. gate TOKEN authToken ltac:(exact Hsame).
    crack; first [apply Hstay | apply Hkeep; simpl; lia | apply (Hkeep _ (_ ++ _)%list); simpl; lia]. }
  split.
  { unfold disconnect. gate TOKEN authToken ltac:(exact Hsame).
    expose. destruct (truthy_username u0); expose; [| exact Hsame].
    crack; first [apply Hstay | apply Hkeep; simpl; lia]. }
  split.
  { unfold send. gate TOKEN authToken ltac:(exact Hsame).
    expose. destruct (truthy_username u0); expose; [| exact Hsame].
    crack; try (simpl in Hmarked; discriminate);
      first [apply Hstay | now apply insert_message_consistent]. }
  split.
  { unfold fetch. gate TOKEN authToken ltac:(exact Hsame).
    expose. destruct (truthy_username u0); expose; [| exact Hsame].
    crack; try apply Hstay; try (simpl in Hmarked; discriminate).
    rewrite cursor_or_zero.
    destruct (Table.select_messages_after last0 st) as [|first others] eqn:Hsel;
      expose; [apply Hstay |].
    split; [exact Hasc | split; [exact Hpos |]].
    simpl. now apply (drained_cursor_below_next last0 st). }
  split.
  { unfold connectedUsers. gate TOKEN authToken ltac:(exact Hsame).
    crack; try destruct (_ =? _)%nat; apply Hstay. }
  unfold help. gate TOKEN authToken ltac:(exact Hsame).
  exact Hsame.
Qed.


End Properties.



(** ** The listener restarts *)

Lemma registered_last (ch : nat) (callbacks : list nat) :
  Realtime.registered ch (callbacks ++ [ch]) = true.
Proof.
  unfold Realtime.registered. rewrite existsb_app. simpl.
  rewrite Nat.eqb_refl. apply orb_true_iff. right. reflexivity.
Qed.

(** One round, the channel held reports [CLOSED] and the timer fires, leaves
    the listener listening on a fresh channel. *)
Lemma closed_round (user : option string) (ch : nat) (l : Realtime.Listener) :
  Realtime.listening ch l ->
  Realtime.listening (S ch)
    (Realtime.step user (Realtime.TimerFires Realtime.SetupDone)
       (Realtime.step user (Realtime.Report ch Realtime.CLOSED) l)).
Proof.
  intros (Hrun & Hheld & Hcreated & Hreg & Htimers & Hunsub).
  destruct l as [held made status presence unsub pending seen gone].
  simpl in *. subst. unfold Realtime.step. simpl. rewrite Hreg.
  destruct (Realtime.registered ch presence); simpl;
    (repeat split; try reflexivity; apply registered_last).
Qed.

Lemma closed_rounds_listening (user : option string) (n : nat) :
  forall (ch : nat) (l : Realtime.Listener),
    Realtime.listening ch l ->
    Realtime.listening (n + ch) (Realtime.run user (Realtime.closed_rounds n ch) l).
Proof.
  induction n as [|n IH]; intros ch l Hl; simpl.
  - exact Hl.
  - replace (S (n + ch)) with (n + S ch)%nat by lia.
    apply IH. now apply closed_round.
Qed.

Lemma started_listening : Realtime.listening 0 Realtime.started.
Proof. repeat split. Qed.

(** C4, as the code has it.  While the process runs, a [CLOSED] report on a
    channel whose status callback is registered schedules one new start of
    the listener with the fixed delay of 5000 ms; [CHANNEL_ERROR] and
    [TIMED_OUT] are logged and change nothing, no start is scheduled.  A start
    that throws schedules another start in 5000 ms; a start that does not
    throw puts a fresh channel in [realtimeChannel] with its callbacks
    registered and does not unsubscribe the channel held before.  On SIGINT
    the channel held, and only that one, is unsubscribed and the process
    exits.  There is no retry limit: after any number of rounds of closing
    and starting again the listener is still listening, on the channel
    created last, and the next [CLOSED] schedules a start again. *)
Theorem C4_listener_restarts_on_closed_only
    (user : option string) (ch : nat) (l : Realtime.Listener) :
  Realtime.exited l = false ->
  Realtime.registered ch (Realtime.status_callbacks l) = true ->
  Realtime.timers (Realtime.step user (Realtime.Report ch Realtime.CLOSED) l) =
    (Realtime.timers l ++ [5000%nat])%list /\
  Realtime.step user (Realtime.Report ch Realtime.CHANNEL_ERROR) l = l /\
  Realtime.step user (Realtime.Report ch Realtime.TIMED_OUT) l = l /\
  (forall setup, setup <> Realtime.SetupDone ->
     Realtime.timers (Realtime.startRealtimeListener setup l) =
       (Realtime.timers l ++ [5000%nat])%list) /\
  (let l' := Realtime.startRealtimeListener Realtime.SetupDone l in
   Realtime.realtimeChannel l' = Some (Realtime.created l) /\
   Realtime.registered (Realtime.created l) (Realtime.status_callbacks l') = true /\
   Realtime.unsubscribed l' = Realtime.unsubscribed l /\
   Realtime.timers l' = Realtime.timers l) /\
  (let l' := Realtime.step user Realtime.SIGINT l in
   Realtime.exited l' = true /\
   Realtime.unsubscribed l' =
     (Realtime.unsubscribed l ++
        match Realtime.realtimeChannel l with Some held => [held] | None => [] end)%list) /\
  (forall n,
     let ln := Realtime.run user (Realtime.closed_rounds n 0) Realtime.started in
     Realtime.listening n ln /\
     Realtime.timers (Realtime.step user (Realtime.Report n Realtime.CLOSED) ln) =
       [5000%nat]).
Proof.
  intros Hrun Hreg.
  split.
  { unfold Realtime.step. rewrite Hrun, Hreg.
    destruct (Realtime.registered ch (Realtime.presence_callbacks l)); reflexivity. }
  split.
  { unfold Realtime.step. rewrite Hrun, Hreg.
    destruct (Realtime.registered ch (Realtime.presence_callbacks l)); reflexivity. }
  split.
  { unfold Realtime.step. rewrite Hrun, Hreg.
    destruct (Realtime.registered ch (Realtime.presence_callbacks l)); reflexivity. }
  split.
  { intros setup Hthrows. destruct setup; [contradiction | reflexivity ..]. }
  split.
  { cbv zeta. simpl. repeat split. apply registered_last. }
  split.
  { cbv zeta. unfold Realtime.step. rewrite Hrun. unfold Realtime.on_SIGINT.
    destruct (Realtime.realtimeChannel l); simpl; split;
      try reflexivity; now rewrite app_nil_r. }
  intros n. cbv zeta.
  pose proof (closed_rounds_listening user n 0 Realtime.started started_listening) as Hn.
  rewrite Nat.add_0_r in Hn.
  set (ln := Realtime.run user (Realtime.closed_rounds n 0) Realtime.started) in *.
  clearbody ln. split; [exact Hn |].
  destruct Hn as (Hrun' & _ & _ & Hreg' & Htimers & _).
  unfold Realtime.step. rewrite Hrun', Hreg'.
  destruct (Realtime.registered n (Realtime.presence_callbacks ln)); simpl;
    now rewrite Htimers.
Qed.

(** * Concrete runs *)

Section Runs.

(** The runs are on an engine with the sample tables. *)
#[local] Existing Instance Sample.engine.

(** The scenario of the specification: join, post, drain, drain, leave,
    post. *)
Example scenario_replies :
  fst ((r1 <- connect "secret" "Alice" "secret" ;;
        r2 <- send "secret" "hello" "secret" ;;
        r3 <- fetch "secret" Sample.iso "secret" ;;
        r4 <- fetch "secret" Sample.iso "secret" ;;
        r5 <- disconnect "secret" "secret" ;;
        r6 <- send "secret" "x" "secret" ;;
        ret [r1; r2; r3; r4; r5; r6]) (Sample.fresh Sample.healthy)) =
  Value ["✅ Connected as 'alice'.";
         "📨 Message sent: hello";
         "💬 New messages:" ++ LF ++ "[2024-01-02 03:04:05] alice: hello";
         "🕒 No new messages.";
         "🚪 User 'alice' disconnected from chat.";
         "⚠️ You must /connect before sending messages."].
Proof. vm_compute. reflexivity. Qed.

(** C1 at a concrete input: alice, who has one message not yet drained,
    posts two more, the first one with a blank before it and a no-break
    space after it, and drains. *)
Lemma C1_witness :
  exists w2,
    fetch "secret" Sample.iso "secret"
      (snd (post_all "secret" [" hi" ++ Sample.NBSP; "there"]
              (Sample.joined Sample.healthy))) =
    (Value ("💬 New messages:" ++ LF ++
            "[2024-01-02 03:04:05] alice: hello" ++ LF ++
            "[2024-01-02 03:04:05] alice: hi" ++ LF ++
            "[2024-01-02 03:04:05] alice: there"), w2) /\
    last_message_id (session w2) = 3.
Proof.
  destruct (C1_drain_returns_rows_after_cursor "secret" Sample.iso
              "alice" Sample.clock Sample.clock [" hi" ++ Sample.NBSP; "there"]
              ["📨 Message sent: hi"; "📨 Message sent: there"]
              (Sample.joined Sample.healthy)
              (snd (post_all "secret" [" hi" ++ Sample.NBSP; "there"]
                      (Sample.joined Sample.healthy))))
    as (posted & w2 & Hposted & Htexts & _ & Hfetch & _ & _ & _ & Hcursor).
  - reflexivity.
  - split; repeat constructor.
  - reflexivity.
  - vm_compute. reflexivity.
  - repeat constructor.
  - reflexivity.
  - vm_compute. reflexivity.
  - reflexivity.
  - exists w2. simpl in Hposted. injection Hposted as <-.
    split; [exact Hfetch | exact Hcursor].
Defined.

(** C2 breaks on the code.  (a) A join whose lookup is refused has already
    switched the session to the new username.  (b) A post whose check of the
    user's row is refused answers with the not-connected warning, not with a
    failure reply.  (c) A join whose lookup is refused with the code PGRST116
    does not stop: it inserts the user and succeeds. *)
Lemma C2_counterexample :
  (let w := Sample.joined (Sample.first_refused Sample.network_down) in
   let '(r, w') := connect "secret" "Bob" "secret" w in
   r = Value "❌ Error fetching user data for 'bob': connection failure" /\
   session w = {| username := Some "alice"; last_message_id := 0 |} /\
   session w' = {| username := Some "bob"; last_message_id := 0 |}) /\
  (let w := Sample.joined (Sample.first_refused Sample.network_down) in
   let '(r, w') := send "secret" "hi" "secret" w in
   r = Value "⚠️ You are not connected. Use /connect first." /\
   requests w' = [SelectIsConnected "alice"]) /\
  (let w := Sample.joined (Sample.first_refused Sample.no_rows) in
   let '(r, w') := connect "secret" "Bob" "secret" w in
   r = Value "✅ Connected as 'bob'." /\
   requests w' = [SelectUser "bob"; InsertUser "bob" true] /\
   puchchat_users (store w') =
     [Sample.alice_row; {| u_username := "bob"; u_is_connected := true |}]).
Proof. vm_compute. repeat split. Qed.

(** C2 at a concrete input: a leave whose update is refused. *)
Lemma C2_witness :
  let w := Sample.joined (Sample.first_refused Sample.network_down) in
  session (snd (disconnect "secret" "secret" w)) = session w /\
  store (snd (disconnect "secret" "secret" w)) = store w.
Proof.
  pose (w := Sample.joined (Sample.first_refused Sample.network_down)).
  destruct (proj1 (C2_store_failure_aborts_and_is_reported "secret" Sample.iso
                     "Bob" "hi" "secret" w (snd (disconnect "secret" "secret" w))
                     (fst (disconnect "secret" "secret" w)))) as (Hs & Hst & _).
  - reflexivity.
  - exists 0%nat. split; [unfold issued_during; simpl; lia | reflexivity].
  - split; [exact Hs | exact Hst].
Defined.

(** C3 breaks on the code: a text of blanks only is not turned away.  Both
    store requests are issued, a row with the empty message is inserted and
    the post is confirmed. *)
Lemma C3_counterexample :
  JsString.trim "   " = EmptyString /\
  let '(r, w') := send "secret" "   " "secret" (Sample.joined Sample.healthy) in
  r = Value "📨 Message sent: " /\
  requests w' = [SelectIsConnected "alice"; InsertMessage "alice" EmptyString] /\
  puchchat (store w') =
    [Sample.hello;
     {| m_id := 2; m_username := "alice"; m_message := EmptyString; m_created_at := Sample.clock |}].
Proof. vm_compute. repeat split. Qed.

(** C3 at a concrete input: a post with blanks before the text and a
    no-break space after it. *)
Lemma C3_witness :
  exists w',
    send "secret" ("  hi" ++ Sample.NBSP) "secret" (Sample.joined Sample.healthy) =
      (Value "📨 Message sent: hi", w') /\
    puchchat (store w') =
      [Sample.hello;
       {| m_id := 2; m_username := "alice"; m_message := "hi"; m_created_at := Sample.clock |}].
Proof.
  destruct (C3_post_stores_trimmed_text "secret" ("  hi" ++ Sample.NBSP) "alice"
              Sample.clock Sample.clock
              (Sample.joined Sample.healthy) eq_refl eq_refl eq_refl eq_refl)
    as (w' & Hrun & _ & Hrows & _).
  exists w'. split; [exact Hrun | exact Hrows].
Defined.

(** C4 breaks on the code: after [TIMED_OUT] or [CHANNEL_ERROR] no start is
    scheduled; and the channel that closed is unsubscribed neither when the
    listener starts again nor at shutdown, where only the channel held then
    is. *)
Lemma C4_counterexample :
  Realtime.timers
    (Realtime.step None (Realtime.Report 0 Realtime.TIMED_OUT) Realtime.started) = [] /\
  Realtime.timers
    (Realtime.step None (Realtime.Report 0 Realtime.CHANNEL_ERROR) Realtime.started) = [] /\
  Realtime.unsubscribed
    (Realtime.run None
       [Realtime.Report 0 Realtime.CLOSED; Realtime.TimerFires Realtime.SetupDone;
        Realtime.SIGINT] Realtime.started) = [1%nat].
Proof. repeat split. Qed.

(** C4 at a concrete input: the listener as started reports [CLOSED]. *)
Lemma C4_witness :
  Realtime.timers
    (Realtime.step None (Realtime.Report 0 Realtime.CLOSED) Realtime.started) =
  [5000%nat].
Proof.
  destruct (C4_listener_restarts_on_closed_only None 0 Realtime.started
              eq_refl eq_refl) as (Hclosed & _).
  exact Hclosed.
Defined.

(** C5 at a concrete input: a guessed token. *)
Lemma C5_witness :
  send "secret" "hi" "guess" (Sample.joined Sample.healthy) =
    (Value "❌ Authentication failed.", Sample.joined Sample.healthy).
Proof.
  destruct (C5_unauthorized_is_rejected_untouched "secret" Sample.iso
              "guess" "Alice" "hi" (Sample.joined Sample.healthy))
    as (_ & _ & Hsend & _).
  - discriminate.
  - exact Hsend.
Defined.

(** C6 at a concrete input: alice drains her one message, which moves the
    cursor from 0 to its id, then drains again. *)
Lemma C6_witness :
  let w1 := snd (fetch "secret" Sample.iso "secret" (Sample.joined Sample.healthy)) in
  last_message_id (session (Sample.joined Sample.healthy)) = 0 /\
  last_message_id (session w1) = 1 /\
  exists w2,
    fetch "secret" Sample.iso "secret" w1 = (Value "🕒 No new messages.", w2).
Proof.
  destruct (C6_second_drain_is_empty "secret" Sample.iso "secret"
              ("💬 New messages:" ++ LF ++ "[2024-01-02 03:04:05] alice: hello")
              Sample.clock Sample.clock (Sample.joined Sample.healthy)
              (snd (fetch "secret" Sample.iso "secret" (Sample.joined Sample.healthy))))
    as (_ & _ & Hcursor & _ & _ & _ & _ & w2 & Hrun & _).
  - vm_compute. reflexivity.
  - left. reflexivity.
  - reflexivity.
  - reflexivity.
  - split; [reflexivity |]. split; [exact Hcursor |]. exists w2. exact Hrun.
Defined.

(** C7 at a concrete input: alice leaves, then posts. *)
Lemma C7_witness :
  let w' := snd (disconnect "secret" "secret" (Sample.joined Sample.healthy)) in
  send "secret" "x" "secret" w' =
    (Value "⚠️ You must /connect before sending messages.", w').
Proof.
  destruct (C7_leave_then_post "secret" "secret" "x"
              "🚪 User 'alice' disconnected from chat."
              (Sample.joined Sample.healthy)
              (snd (disconnect "secret" "secret" (Sample.joined Sample.healthy))))
    as (_ & Hpost).
  - vm_compute. reflexivity.
  - reflexivity.
  - exact Hpost.
Defined.

(** C8 at a concrete input: a join under a name in capital letters, one of
    them beyond the code points below 128, with a no-break space after it. *)
Lemma C8_witness :
  session (snd (connect "secret" (" ÉCOLE" ++ Sample.NBSP) "secret"
                  (Sample.fresh Sample.healthy))) =
    {| username := Some "école"; last_message_id := 0 |}.
Proof.
  destruct (C8_join_success "secret" (" ÉCOLE" ++ Sample.NBSP) "secret"
              "✅ Connected as 'école'."
              (Sample.fresh Sample.healthy)
              (snd (connect "secret" (" ÉCOLE" ++ Sample.NBSP) "secret"
                      (Sample.fresh Sample.healthy))))
    as (_ & Hsession & _).
  - vm_compute. reflexivity.
  - reflexivity.
  - exact Hsession.
Defined.

(** C9 at a concrete input: bob joins while alice is the session's user. *)
Lemma C9_witness :
  Table.select_user "alice"
    (store (snd (connect "secret" "Bob" "secret" (Sample.joined Sample.healthy)))) =
  [Sample.alice_row].
Proof.
  destruct (C9_join_keeps_other_rows "secret" "Bob" "secret" "alice"
              (Sample.joined Sample.healthy)) as (Hrows & _).
  - discriminate.
  - exact Hrows.
Defined.

(** C10 at a concrete input: a username of a blank, a no-break space and a
    tab. *)
Lemma C10_witness :
  exists w',
    connect "secret" (" " ++ Sample.NBSP ++ String (ascii_of_nat 9) EmptyString)
      "secret" (Sample.fresh Sample.healthy) = (Value "✅ Connected as ''.", w') /\
    session w' = {| username := Some EmptyString; last_message_id := 0 |}.
Proof.
  destruct (C10_blank_username_joins "secret"
              (" " ++ Sample.NBSP ++ String (ascii_of_nat 9) EmptyString)
              Sample.clock Sample.clock (Sample.fresh Sample.healthy)
              eq_refl eq_refl eq_refl)
    as (_ & w' & Hrun & Hsession & _).
  exists w'. split; [exact Hrun | exact Hsession].
Defined.

End Runs.

(** * More of the tools *)

(** ** What a call can do to the store *)

Section StoreEffects.

Variable TOKEN : string.
Variable toISOString : string -> string.
Context {engine : JsString.Engine}.

(** A join leaves the store as it was, or marks the rows of the normalized
    username connected, or appends a connected row for it when there is
    none. *)
Lemma connect_store_cases (input authToken : string) (w : World) :
  let u := JsString.toLowerCase (JsString.trim input) in
  let s' := store (snd (connect TOKEN input authToken w)) in
  s' = store w \/
  s' = Table.update_user u true (store w) \/
  existsb (Table.has_username u) (puchchat_users (store w)) = false /\
  s' = {| puchchat_users :=
            puchchat_users (store w) ++ [{| u_username := u; u_is_connected := true |}];
          puchchat := puchchat (store w); next_id := next_id (store w) |}.
Proof.
  intros u s'. subst u s'.
  remember (snd (connect TOKEN input authToken w)) as w' eqn:Hw'. revert Hw'.
  unfold connect.
  gate TOKEN authToken ltac:(intros ->; left; reflexivity).
  destruct w as [[u0 last0] st reqs ans].
  crack; intros ->; simpl;
    first [ left; reflexivity
          | right; left; reflexivity
          | right; right; split; [first [assumption | reflexivity] | reflexivity] ].
Qed.

(** A leave leaves the store as it was or marks the rows of the session's
    user disconnected. *)
Lemma disconnect_store_cases (authToken : string) (w : World) :
  let s' := store (snd (disconnect TOKEN authToken w)) in
  s' = store w \/
  exists u, truthy_username (username (session w)) = Some u /\
            s' = Table.update_user u false (store w).
Proof.
  intros s'. subst s'.
  remember (snd (disconnect TOKEN authToken w)) as w' eqn:Hw'. revert Hw'.
  unfold disconnect.
  gate TOKEN authToken ltac:(intros ->; left; reflexivity).
  destruct w as [[u0 last0] st reqs ans]. expose.
  destruct (truthy_username u0) as [u|] eqn:Hu; expose;
    [| intros ->; left; reflexivity].
  crack; intros ->; simpl;
    first [ left; reflexivity
          | right; exists u; split; reflexivity ].
Qed.

(** A post leaves the store as it was or inserts one message of the
    session's user with the trimmed text. *)
Lemma send_store_cases (message authToken : string) (w : World) :
  let s' := store (snd (send TOKEN message authToken w)) in
  s' = store w \/
  exists u now, truthy_username (username (session w)) = Some u /\
                s' = Table.insert_message u (JsString.trim message) now (store w).
Proof.
  intros s'. subst s'.
  remember (snd (send TOKEN message authToken w)) as w' eqn:Hw'. revert Hw'.
  unfold send.
  gate TOKEN authToken ltac:(intros ->; left; reflexivity).
  destruct w as [[u0 last0] st reqs ans]. expose.
  destruct (truthy_username u0) as [u|] eqn:Hu; expose;
    [| intros ->; left; reflexivity].
  crack; intros ->; simpl;
    first [ left; reflexivity
          | right; exists u; eexists; split; reflexivity ].
Qed.

(** A drain, the list of the connected users and the help text leave the
    store as it was. *)
Lemma readers_keep_store (authToken : string) (w : World) :
  store (snd (fetch TOKEN toISOString authToken w)) = store w /\
  store (snd (connectedUsers TOKEN authToken w)) = store w /\
  store (snd (help TOKEN authToken w)) = store w.
Proof.
  split; [| split].
  - unfold fetch. gate TOKEN authToken ltac:(reflexivity).
    destruct w as [[u0 last0] st reqs ans]. expose.
    destruct (truthy_username u0) as [u|]; expose; [| reflexivity].
    crack; try destruct (Table.select_messages_after _ _); reflexivity.
  - unfold connectedUsers. gate TOKEN authToken ltac:(reflexivity).
    destruct w as [[u0 last0] st reqs ans].
    crack; try destruct (_ =? _)%nat; reflexivity.
  - unfold help. gate TOKEN authToken ltac:(reflexivity). reflexivity.
Qed.

Lemma absent_key (u : string) (rows : list UserRow) :
  existsb (Table.has_username u) rows = false -> ~ In u (map u_username rows).
Proof.
  intros Hno Hin. apply in_map_iff in Hin as [row [Hkey Hrow]].
  assert (Hyes : existsb (Table.has_username u) rows = true).
  { apply existsb_exists. exists row. split; [exact Hrow |].
    unfold Table.has_username. now apply String.eqb_eq. }
  congruence.
Qed.

Lemma tools_resolve (input message authToken : string) (w : World) :
  (exists reply, fst (connect TOKEN input authToken w) = Value reply) /\
  (exists reply, fst (disconnect TOKEN authToken w) = Value reply) /\
  (exists reply, fst (send TOKEN message authToken w) = Value reply) /\
  (exists reply, fst (fetch TOKEN toISOString authToken w) = Value reply) /\
  (exists reply, fst (connectedUsers TOKEN authToken w) = Value reply) /\
  (exists reply, fst (help TOKEN authToken w) = Value reply).
Proof.
  destruct w as [[u0 last0] st reqs ans].
  split.
  { unfold connect. gate TOKEN authToken ltac:(eexists; reflexivity).
    crack; eexists; reflexivity. }
  split.
  { unfold disconnect. gate TOKEN authToken ltac:(eexists; reflexivity).
    expose. destruct (truthy_username u0); expose; [| eexists; reflexivity].
    crack; eexists; reflexivity. }
  split.
  { unfold send. gate TOKEN authToken ltac:(eexists; reflexivity).
    expose. destruct (truthy_username u0); expose; [| eexists; reflexivity].
    crack; eexists; reflexivity. }
  split.
  { unfold fetch. gate TOKEN authToken ltac:(eexists; reflexivity).
    expose. destruct (truthy_username u0); expose; [| eexists; reflexivity].
    crack; try destruct (Table.select_messages_after _ _); eexists; reflexivity. }
  split.
  { unfold connectedUsers. gate TOKEN authToken ltac:(eexists; reflexivity).
    crack; try destruct (_ =? _)%nat; eexists; reflexivity. }
  unfold help. gate TOKEN authToken ltac:(eexists; reflexivity).
  eexists; reflexivity.
Qed.

(** X1: Every tool resolves to a reply: whatever the arguments, the token and
    the answers of the store, none of the six tools throws. *)
Theorem tools_always_reply (input message authToken : string) (w : World) :
  (exists reply, fst (connect TOKEN input authToken w) = Value reply) /\
  (exists reply, fst (disconnect TOKEN authToken w) = Value reply) /\
  (exists reply, fst (send TOKEN message authToken w) = Value reply) /\
  (exists reply, fst (fetch TOKEN toISOString authToken w) = Value reply) /\
  (exists reply, fst (connectedUsers TOKEN authToken w) = Value reply) /\
  (exists reply, fst (help TOKEN authToken w) = Value reply).
Proof. exact (tools_resolve input message authToken w). Qed.

(** With one row per username before a call there is one row per username
    after it. *)
Lemma tools_keep_unique_keys (input message authToken : string) (w : World) :
  NoDup (user_keys (store w)) ->
  NoDup (user_keys (store (snd (connect TOKEN input authToken w)))) /\
  NoDup (user_keys (store (snd (disconnect TOKEN authToken w)))) /\
  NoDup (user_keys (store (snd (send TOKEN message authToken w)))) /\
  NoDup (user_keys (store (snd (fetch TOKEN toISOString authToken w)))) /\
  NoDup (user_keys (store (snd (connectedUsers TOKEN authToken w)))) /\
  NoDup (user_keys (store (snd (help TOKEN authToken w)))).
Proof.
  intros Hnodup.
  destruct (readers_keep_store authToken w) as (Hfetch & Husers & Hhelp).
  rewrite Hfetch, Husers, Hhelp.
  split.
  { destruct (connect_store_cases input authToken w) as [H | [H | [Hno H]]];
      cbv zeta in H; rewrite H.
    - exact Hnodup.
    - unfold user_keys. now rewrite update_user_keeps_keys.
    - unfold user_keys. simpl. rewrite map_app. simpl.
      apply NoDup_app; [exact Hnodup | repeat constructor; intros [] |].
      intros x Hx [<- | []]. revert Hx. now apply absent_key. }
  split.
  { destruct (disconnect_store_cases authToken w) as [H | [u [_ H]]];
      cbv zeta in H; rewrite H; [exact Hnodup |].
    unfold user_keys. now rewrite update_user_keeps_keys. }
  split.
  { destruct (send_store_cases message authToken w) as [H | (u & now & _ & H)];
      cbv zeta in H; rewrite H; exact Hnodup. }
  repeat split; exact Hnodup.
Qed.

(** X2: Message rows are never updated or deleted: after a join, a leave, a
    drain, the list of connected users or the help text the message table is
    the one before; after a post it is the one before, or the one before with
    one row appended, which carries the next id, the session's username and
    the trimmed text. *)
Theorem messages_are_append_only (input message authToken : string) (w : World) :
  puchchat (store (snd (connect TOKEN input authToken w))) = puchchat (store w) /\
  puchchat (store (snd (disconnect TOKEN authToken w))) = puchchat (store w) /\
  puchchat (store (snd (fetch TOKEN toISOString authToken w))) = puchchat (store w) /\
  puchchat (store (snd (connectedUsers TOKEN authToken w))) = puchchat (store w) /\
  puchchat (store (snd (help TOKEN authToken w))) = puchchat (store w) /\
  (puchchat (store (snd (send TOKEN message authToken w))) = puchchat (store w) \/
   exists row,
     puchchat (store (snd (send TOKEN message authToken w))) =
       (puchchat (store w) ++ [row])%list /\
     m_id row = next_id (store w) /\
     m_message row = JsString.trim message /\
     username (session w) = Some (m_username row)).
Proof.
  destruct (readers_keep_store authToken w) as (Hfetch & Husers & Hhelp).
  split.
  { destruct (connect_store_cases input authToken w) as [H | [H | [_ H]]];
      cbv zeta in H; now rewrite H. }
  split.
  { destruct (disconnect_store_cases authToken w) as [H | [u [_ H]]];
      cbv zeta in H; now rewrite H. }
  split; [now rewrite Hfetch |].
  split; [now rewrite Husers |].
  split; [now rewrite Hhelp |].
  destruct (send_store_cases message authToken w) as [H | (u & now & Hu & H)];
    cbv zeta in H; rewrite H; [now left | right].
  eexists. split; [reflexivity |]. simpl. repeat split.
  unfold truthy_username in Hu.
  destruct (JsString.falsy (username (session w))); congruence.
Qed.

(** X3: User rows are never deleted or renamed.  A post, a drain, the list of
    connected users and the help text leave the user table as it was; a leave
    keeps its keys; a join keeps its keys or appends the normalized username,
    and only when no row had that key.  So a table with one row per username
    stays one. *)
Theorem user_rows_are_kept (input message authToken : string) (w : World) :
  puchchat_users (store (snd (send TOKEN message authToken w))) = puchchat_users (store w) /\
  puchchat_users (store (snd (fetch TOKEN toISOString authToken w))) =
    puchchat_users (store w) /\
  puchchat_users (store (snd (connectedUsers TOKEN authToken w))) =
    puchchat_users (store w) /\
  puchchat_users (store (snd (help TOKEN authToken w))) = puchchat_users (store w) /\
  user_keys (store (snd (disconnect TOKEN authToken w))) = user_keys (store w) /\
  (let u := JsString.toLowerCase (JsString.trim input) in
   let keys' := user_keys (store (snd (connect TOKEN input authToken w))) in
   keys' = user_keys (store w) \/
   keys' = (user_keys (store w) ++ [u])%list /\ ~ In u (user_keys (store w))) /\
  (NoDup (user_keys (store w)) ->
   NoDup (user_keys (store (snd (connect TOKEN input authToken w)))) /\
   NoDup (user_keys (store (snd (disconnect TOKEN authToken w))))).
Proof.
  destruct (readers_keep_store authToken w) as (Hfetch & Husers & Hhelp).
  assert (Hjoin :
    user_keys (store (snd (connect TOKEN input authToken w))) = user_keys (store w) \/
    user_keys (store (snd (connect TOKEN input authToken w))) =
      (user_keys (store w) ++ [JsString.toLowerCase (JsString.trim input)])%list /\
    ~ In (JsString.toLowerCase (JsString.trim input)) (user_keys (store w))).
  { destruct (connect_store_cases input authToken w) as [H | [H | [Hno H]]];
      cbv zeta in H; rewrite H.
    - now left.
    - left. apply update_user_keeps_keys.
    - right. unfold user_keys. simpl. rewrite map_app. simpl.
      split; [reflexivity | now apply absent_key]. }
  assert (Hleave :
    user_keys (store (snd (disconnect TOKEN authToken w))) = user_keys (store w)).
  { destruct (disconnect_store_cases authToken w) as [H | [u [_ H]]];
      cbv zeta in H; rewrite H; [reflexivity | apply update_user_keeps_keys]. }
  split.
  { destruct (send_store_cases message authToken w) as [H | (u & now & _ & H)];
      cbv zeta in H; now rewrite H. }
  split; [now rewrite Hfetch |].
  split; [now rewrite Husers |].
  split; [now rewrite Hhelp |].
  split; [exact Hleave |].
  split; [exact Hjoin |].
  intros Hnodup. split; [| now rewrite Hleave].
  destruct Hjoin as [-> | [-> Hnew]]; [exact Hnodup |].
  apply NoDup_app; [exact Hnodup | repeat constructor; intros [] |].
  intros x Hx [<- | []]. contradiction.
Qed.

End StoreEffects.

(** ** The cursor *)

Lemma drained_cursor_above (lastId : Z) (s : Store)
    (first : MessageRow) (others : list MessageRow) :
  Table.select_messages_after lastId s = first :: others ->
  lastId < m_id (List.last (first :: others) first).
Proof.
  intros Hsel. pose proof (last_In first others) as Hin.
  rewrite <- Hsel in Hin at 2.
  now apply select_messages_after_In in Hin as [_ Hgt].
Qed.

Section Cursor.

Variable TOKEN : string.
Variable toISOString : string -> string.
Context {engine : JsString.Engine}.

(** X4: A drain never moves the cursor back and never changes the session's
    username, whatever the token and the answers of the store; when it
    delivers messages the cursor moves strictly forward. *)
Theorem fetch_never_rewinds (authToken : string) (w : World) :
  let w' := snd (fetch TOKEN toISOString authToken w) in
  last_message_id (session w) <= last_message_id (session w') /\
  username (session w') = username (session w) /\
  (forall reply, fst (fetch TOKEN toISOString authToken w) = Value reply ->
                 String.prefix "💬" reply = true ->
                 last_message_id (session w) < last_message_id (session w')).
Proof.
  cbv zeta.
  destruct (fetch TOKEN toISOString authToken w) as [r w'] eqn:Hrun.
  revert Hrun. unfold fetch.
  gate TOKEN authToken
    ltac:(intros [= <- <-]; simpl; repeat split; try lia; intros ? [= <-]; discriminate).
  destruct w as [[u0 last0] st reqs ans]. expose.
  destruct (truthy_username u0) as [u|]; expose;
    [| intros [= <- <-]; simpl; repeat split; try lia; intros ? [= <-]; discriminate].
  crack; try rewrite cursor_or_zero;
    try destruct (Table.select_messages_after last0 st) as [|first others] eqn:Hsel;
    intros [= <- <-]; cbn [session last_message_id username];
    try (simpl in Hmarked; discriminate);
    try (repeat split; try lia; intros ? [= <-]; discriminate).
  pose proof (drained_cursor_above last0 st first others Hsel) as Habove.
  simpl in Habove.
  split; [lia | split; [reflexivity | intros; exact Habove]].
Qed.

(** X5: A row is never delivered twice: the rows a drain delivers are those its
    reply formats, and none of them is selected again from the cursor the
    drain leaves, whatever the message table holds by then. *)
Theorem never_delivered_twice (authToken reply : string) (w w1 : World) :
  fetch TOKEN toISOString authToken w = (Value reply, w1) ->
  String.prefix "💬" reply = true ->
  let delivered := Table.select_messages_after (last_message_id (session w)) (store w) in
  reply = "💬 New messages:" ++ LF ++
          JsString.join LF (map (format_message toISOString) delivered) /\
  delivered <> [] /\
  forall (later : Store) (m : MessageRow),
    In m delivered ->
    ~ In m (Table.select_messages_after (last_message_id (session w1)) later).
Proof.
  intros Hrun Hok delivered.
  destruct (fetch_delivered_inv TOKEN toISOString authToken reply w w1 Hrun (or_introl Hok))
    as (-> & u & n1 & n2 & Hu & Ha1 & Hrow & Ha2).
  rewrite (fetch_delivers TOKEN toISOString u n1 n2 w Hu Ha1 Hrow Ha2) in Hrun.
  cbv zeta in Hrun. fold delivered in Hrun.
  assert (Hsorted : StronglySorted id_le delivered) by apply order_by_id_sorted.
  destruct delivered as [|first others] eqn:Hsel.
  - injection Hrun as <- _. discriminate.
  - injection Hrun as <- <-. split; [reflexivity |]. split; [discriminate |].
    intros later m Hin Hagain.
    cbn [session set_session last_message_id] in Hagain.
    apply select_messages_after_In in Hagain as [_ Hgt].
    pose proof (last_is_greatest (first :: others) first m Hsorted Hin) as Hle.
    simpl in Hle, Hgt. lia.
Qed.

End Cursor.

(** ** Presence *)

Lemma truthy_username_Some (o : option string) (u : string) :
  truthy_username o = Some u <-> o = Some u /\ u <> EmptyString.
Proof.
  unfold truthy_username, JsString.falsy.
  destruct o as [[|c rest]|]; split; try discriminate.
  - intros [[= <-] Hne]. contradiction.
  - intros [= <-]. split; [reflexivity | discriminate].
  - intros [[= <-] _]. reflexivity.
  - intros [? _]. discriminate.
Qed.

(** A user whose rows were all marked disconnected is not among the
    connected. *)
Lemma disconnected_not_listed (u : string) (s : Store) :
  ~ In u (Table.select_connected (Table.update_user u false s)).
Proof.
  unfold Table.select_connected. intros Hin.
  apply in_map_iff in Hin as [row [Hkey Hrow]].
  apply filter_In in Hrow as [Hrow Hflag].
  pose proof (update_user_rows u false s row Hrow Hkey). congruence.
Qed.

(** With one row per username, the rows of a key are that one row. *)
Lemma select_user_unique (u : string) (rows : list UserRow) (row : UserRow) :
  NoDup (map u_username rows) -> In row rows -> u_username row = u ->
  filter (Table.has_username u) rows = [row].
Proof.
  induction rows as [|x rest IH]; simpl; intros Hnodup Hin Hkey; [contradiction |].
  inversion Hnodup as [|? ? Hfresh Hrest]; subst.
  unfold Table.has_username at 1.
  destruct Hin as [-> | Hin].
  - rewrite String.eqb_refl. f_equal.
    destruct (filter (Table.has_username (u_username row)) rest) as [|y others] eqn:Hy;
      [reflexivity | exfalso].
    assert (Hiny : In y (filter (Table.has_username (u_username row)) rest))
      by (rewrite Hy; now left).
    apply filter_In in Hiny as [Hiny Hkeyy].
    apply Hfresh. apply in_map_iff. exists y. split; [| exact Hiny].
    now apply String.eqb_eq.
  - destruct (String.eqb_spec (u_username x) (u_username row)) as [Heq | _].
    + exfalso. apply Hfresh. rewrite Heq. now apply in_map.
    + now apply IH.
Qed.

Section Presence.

Variable TOKEN : string.
Variable toISOString : string -> string.
Context {engine : JsString.Engine}.

(** Leave, post and drain turn a session without a username away at once. *)
Lemma unjoined_is_turned_away (message : string) (w : World) :
  truthy_username (username (session w)) = None ->
  disconnect TOKEN TOKEN w = (Value "⚠️ You are not connected.", w) /\
  send TOKEN message TOKEN w =
    (Value "⚠️ You must /connect before sending messages.", w) /\
  fetch TOKEN toISOString TOKEN w =
    (Value "⚠️ You must /connect before fetching messages.", w).
Proof.
  intros Hu. destruct w as [[u0 last0] st reqs ans]. simpl in Hu.
  split; [| split].
  - unfold disconnect. unfold bind at 1. rewrite verify_match.
    expose. now rewrite Hu.
  - unfold send. unfold bind at 1. rewrite verify_match.
    expose. now rewrite Hu.
  - unfold fetch. unfold bind at 1. rewrite verify_match.
    expose. now rewrite Hu.
Qed.

(** A join with the secret under a username of white space only names the
    session by the empty string, whatever the store answers. *)
Lemma blank_connect_names_empty (input : string) (w : World) :
  JsString.all_white_space input = true ->
  username (session (snd (connect TOKEN input TOKEN w))) = Some EmptyString.
Proof.
  intros Hblank.
  remember (snd (connect TOKEN input TOKEN w)) as w1 eqn:Hw1. revert Hw1.
  unfold connect. unfold bind at 1. rewrite verify_match.
  rewrite (trim_all_white_space input Hblank).
  destruct w as [[u0 last0] st reqs ans].
  crack; intros ->; reflexivity.
Qed.

(** X7: A join under a username of white space only, made with the secret, leaves
    a session that no tool serves, whatever the store answered to the join:
    leave, post and drain are turned away with their warnings and issue no
    request, so the row keyed by the empty name cannot be marked
    disconnected by a leave. *)
Theorem blank_join_locks_the_session (input message : string) (w : World) :
  JsString.all_white_space input = true ->
  let w' := snd (connect TOKEN input TOKEN w) in
  username (session w') = Some EmptyString /\
  disconnect TOKEN TOKEN w' = (Value "⚠️ You are not connected.", w') /\
  send TOKEN message TOKEN w' =
    (Value "⚠️ You must /connect before sending messages.", w') /\
  fetch TOKEN toISOString TOKEN w' =
    (Value "⚠️ You must /connect before fetching messages.", w').
Proof.
  intros Hblank w'.
  assert (Hname : username (session w') = Some EmptyString)
    by (subst w'; now apply blank_connect_names_empty).
  split; [exact Hname |].
  apply unjoined_is_turned_away. now rewrite Hname.
Qed.

(** X8: When the store serves the check of the user's row and the user does not
    have exactly one row marked connected (no row, a row marked disconnected
    by another path, several rows), post and drain answer with the warning
    "You are not connected. Use /connect first." after that one request; the
    tables and the session, its username included, stay as they were. *)
Theorem drifted_session_is_warned (message u now : string) (w : World) :
  truthy_username (username (session w)) = Some u ->
  answers w (List.length (requests w)) = Served now ->
  map u_is_connected (Table.select_user u (store w)) <> [true] ->
  send TOKEN message TOKEN w =
    (Value "⚠️ You are not connected. Use /connect first.",
     log_request (SelectIsConnected u) w) /\
  fetch TOKEN toISOString TOKEN w =
    (Value "⚠️ You are not connected. Use /connect first.",
     log_request (SelectIsConnected u) w).
Proof.
  intros Hu Hserved Hrow.
  assert (Hmarked : not_marked_connected
            (Table.single (map u_is_connected (Table.select_user u (store w)))) = true).
  { destruct (not_marked_connected _) eqn:Hm; [reflexivity |].
    apply marked_connected in Hm. contradiction. }
  destruct w as [[u0 last0] st reqs ans]. simpl in *.
  split.
  - unfold send. unfold bind at 1. rewrite verify_match.
    expose. rewrite Hu. expose. rewrite Hserved. expose. now rewrite Hmarked.
  - unfold fetch. unfold bind at 1. rewrite verify_match.
    expose. rewrite Hu. expose. rewrite Hserved. expose. now rewrite Hmarked.
Qed.

(** X6: A leave that succeeded was made by a joined user: it issued the one
    update, marked every row of that user disconnected, left the rows of the
    other users alone, reset the session to no username and cursor 0, and the
    user is no longer among the connected. *)
Theorem leave_success (authToken reply : string) (w w' : World) :
  disconnect TOKEN authToken w = (Value reply, w') ->
  String.prefix "🚪" reply = true ->
  exists u,
    username (session w) = Some u /\ u <> EmptyString /\
    reply = "🚪 User '" ++ u ++ "' disconnected from chat." /\
    session w' = initial_session /\
    store w' = Table.update_user u false (store w) /\
    requests w' = (requests w ++ [UpdateUser u false])%list /\
    ~ In u (Table.select_connected (store w')) /\
    (forall a, a <> u ->
       Table.select_user a (store w') = Table.select_user a (store w)).
Proof.
  unfold disconnect.
  gate TOKEN authToken ltac:(intros [= <- <-]; simpl; discriminate).
  destruct w as [[u0 last0] st reqs ans]. expose.
  destruct (truthy_username u0) as [u|] eqn:Hu; expose;
    [| intros [= <- <-]; simpl; discriminate].
  apply truthy_username_Some in Hu as [-> Hne].
  crack; intros [= <- <-]; try (simpl; discriminate); intros _.
  exists u. simpl.
  split; [reflexivity |]. split; [exact Hne |].
  split; [reflexivity |]. split; [reflexivity |].
  split; [reflexivity |]. split; [reflexivity |].
  split; [apply disconnected_not_listed |].
  intros a Ha. now apply update_user_frame.
Qed.

(** X9: The list of connected users, asked with the secret and served by the
    store, needs no joined session and changes neither the session nor the
    tables: the reply names the rows with [is_connected = true] in table
    order under their count, or says that nobody is connected when there is
    no such row. *)
Theorem connectedUsers_lists_connected_rows (now : string) (w : World) :
  answers w (List.length (requests w)) = Served now ->
  let connected := filter u_is_connected (puchchat_users (store w)) in
  connectedUsers TOKEN TOKEN w =
    (Value (match connected with
            | [] => "No users are currently connected."
            | _ :: _ =>
                "Connected users (" ++ JsString.of_nat (List.length connected) ++ "):"
                  ++ LF ++ JsString.join LF (map u_username connected)
            end),
     log_request SelectConnected w).
Proof.
  intros Hserved connected. subst connected.
  unfold connectedUsers. unfold bind at 1. rewrite verify_match.
  destruct w as [[u0 last0] st reqs ans]. simpl in *.
  expose. rewrite Hserved. expose. unfold Table.select_connected.
  rewrite length_map.
  destruct (filter u_is_connected (puchchat_users st)) as [|row rows]; reflexivity.
Qed.

(** After a join that succeeded the user is among the connected; and when
    the user table had one row per username it still has, and the user's one
    row is marked connected, which is what post and drain check. *)
Lemma connect_success_presence (input authToken r : string) (w w' : World) :
  connect TOKEN input authToken w = (Value r, w') ->
  String.prefix "✅" r = true ->
  let u := JsString.toLowerCase (JsString.trim input) in
  In u (Table.select_connected (store w')) /\
  (puchchat (store w') = puchchat (store w) /\ next_id (store w') = next_id (store w)) /\
  (NoDup (user_keys (store w)) ->
   NoDup (user_keys (store w')) /\
   map u_is_connected (Table.select_user u (store w')) = [true]).
Proof.
  intros Hrun Hok u.
  destruct (connect_success TOKEN input authToken r w w' Hrun Hok) as (_ & _ & Hu).
  destruct (upsert_connected u (store w) _ Hu) as [[row [Hin Hkey]] Hall].
  pose proof (connect_store_cases TOKEN input authToken w) as Hcases.
  cbv zeta in Hcases. rewrite Hrun in Hcases. simpl in Hcases.
  split.
  { unfold Table.select_connected. apply in_map_iff. exists row.
    split; [exact Hkey |]. apply filter_In. split; [exact Hin | now apply Hall]. }
  split.
  { destruct Hcases as [-> | [-> | [_ ->]]]; split; reflexivity. }
  intros Hnodup.
  assert (Hnodup' : NoDup (user_keys (store w'))).
  { destruct Hcases as [-> | [-> | [Hno ->]]].
    - exact Hnodup.
    - unfold user_keys. now rewrite update_user_keeps_keys.
    - unfold user_keys. simpl. rewrite map_app. simpl.
      apply NoDup_app; [exact Hnodup | repeat constructor; intros [] |].
      intros x Hx [<- | []]. now apply (absent_key u (puchchat_users (store w))). }
  split; [exact Hnodup' |].
  unfold Table.select_user.
  rewrite (select_user_unique u _ row Hnodup' Hin Hkey). simpl.
  now rewrite (Hall row Hin Hkey).
Qed.

End Presence.

(** ** A join and what follows *)

Section AfterJoin.

Variable TOKEN : string.
Variable toISOString : string -> string.
Context {engine : JsString.Engine}.

(** X10: After a join that succeeded under a name that is not empty, on a user
    table with one row per username, a post whose two requests the store
    serves is confirmed: the message is stored under the next id with the
    normalized username and the trimmed text. *)
Theorem join_then_post_is_confirmed
    (input authToken r message now1 now2 : string) (w w1 : World) :
  connect TOKEN input authToken w = (Value r, w1) ->
  String.prefix "✅" r = true ->
  NoDup (user_keys (store w)) ->
  JsString.toLowerCase (JsString.trim input) <> EmptyString ->
  answers w1 (List.length (requests w1)) = Served now1 ->
  answers w1 (S (List.length (requests w1))) = Served now2 ->
  exists w2,
    send TOKEN message TOKEN w1 =
      (Value ("📨 Message sent: " ++ JsString.trim message), w2) /\
    puchchat (store w2) =
      (puchchat (store w) ++
         [{| m_id := next_id (store w);
             m_username := JsString.toLowerCase (JsString.trim input);
             m_message := JsString.trim message; m_created_at := now2 |}])%list.
Proof.
  intros Hrun Hok Hnodup Hname H1 H2.
  destruct (connect_success TOKEN input authToken r w w1 Hrun Hok) as (_ & Hs & _).
  destruct (connect_success_presence TOKEN input authToken r w w1 Hrun Hok)
    as (_ & [Hrows Hnext] & Hrow).
  destruct (Hrow Hnodup) as [_ Hconnected].
  assert (Hu : truthy_username (username (session w1)) =
               Some (JsString.toLowerCase (JsString.trim input))).
  { rewrite Hs. apply truthy_username_Some. split; [reflexivity | exact Hname]. }
  eexists. split.
  - exact (send_delivers TOKEN message _ now1 now2 w1 Hu H1 Hconnected H2).
  - simpl. now rewrite Hrows, Hnext.
Qed.

(** X11: A join resets the cursor, so the drain that follows replays the backlog:
    after a join that succeeded under a name that is not empty, on a user
    table with one row per username, a served drain delivers every row of the
    message table with an id above 0, whoever posted it and whenever, in
    ascending id order. *)
Theorem join_then_drain_replays_backlog
    (input authToken r now1 now2 : string) (w w1 : World) :
  connect TOKEN input authToken w = (Value r, w1) ->
  String.prefix "✅" r = true ->
  NoDup (user_keys (store w)) ->
  JsString.toLowerCase (JsString.trim input) <> EmptyString ->
  answers w1 (List.length (requests w1)) = Served now1 ->
  answers w1 (S (List.length (requests w1))) = Served now2 ->
  exists delivered w2,
    fetch TOKEN toISOString TOKEN w1 =
      (Value (match delivered with
              | [] => "🕒 No new messages."
              | _ :: _ =>
                  "💬 New messages:" ++ LF ++
                  JsString.join LF (map (format_message toISOString) delivered)
              end), w2) /\
    StronglySorted id_le delivered /\
    (forall m, In m delivered <-> In m (puchchat (store w)) /\ 0 < m_id m).
Proof.
  intros Hrun Hok Hnodup Hname H1 H2.
  destruct (connect_success TOKEN input authToken r w w1 Hrun Hok) as (_ & Hs & _).
  destruct (connect_success_presence TOKEN input authToken r w w1 Hrun Hok)
    as (_ & [Hrows _] & Hrow).
  destruct (Hrow Hnodup) as [_ Hconnected].
  assert (Hu : truthy_username (username (session w1)) =
               Some (JsString.toLowerCase (JsString.trim input))).
  { rewrite Hs. apply truthy_username_Some. split; [reflexivity | exact Hname]. }
  pose proof (fetch_delivers TOKEN toISOString _ now1 now2 w1 Hu H1 Hconnected H2)
    as Hfetch.
  cbv zeta in Hfetch. rewrite Hs in Hfetch. simpl in Hfetch.
  exists (Table.select_messages_after 0 (store w1)).
  destruct (Table.select_messages_after 0 (store w1)) as [|first others] eqn:Hsel;
    eexists; (split; [exact Hfetch |]); rewrite <- Hsel;
    (split; [apply order_by_id_sorted |]);
    intros m; rewrite <- Hrows; apply select_messages_after_In.
Qed.

(** X12: After a join that succeeded the list of connected users, served by the
    store, names the user. *)
Theorem join_then_listed (input authToken r now : string) (w w1 : World) :
  connect TOKEN input authToken w = (Value r, w1) ->
  String.prefix "✅" r = true ->
  answers w1 (List.length (requests w1)) = Served now ->
  exists names,
    connectedUsers TOKEN TOKEN w1 =
      (Value ("Connected users (" ++ JsString.of_nat (List.length names) ++ "):"
                ++ LF ++ JsString.join LF names),
       log_request SelectConnected w1) /\
    In (JsString.toLowerCase (JsString.trim input)) names.
Proof.
  intros Hrun Hok Hserved.
  destruct (connect_success_presence TOKEN input authToken r w w1 Hrun Hok)
    as (Hlisted & _).
  exists (Table.select_connected (store w1)). split; [| exact Hlisted].
  unfold connectedUsers. unfold bind at 1. rewrite verify_match.
  destruct w1 as [[u1 last1] st1 reqs1 ans1]. simpl in *.
  expose. rewrite Hserved. expose.
  destruct (Table.select_connected st1) as [|name names]; [contradiction | reflexivity].
Qed.

End AfterJoin.

(** ** Trimmed texts and normal forms of usernames *)

Lemma trimStart_starts_clean (s : string) : starts_clean (JsString.trimStart s).
Proof.
  unfold starts_clean.
  induction s as [s IH] using string_length_ind.
  read_code_point s; try reflexivity; try (apply IH; simpl; lia);
    repeat match goal with H : _ = false |- _ => rewrite H; clear H end; reflexivity.
Qed.

Lemma trimStart_clean (s : string) : starts_clean s -> JsString.trimStart s = s.
Proof.
  unfold starts_clean.
  read_code_point s; intros H; try discriminate; reflexivity.
Qed.

(** What [trimEnd] returns is a start of the string. *)
Lemma trimEnd_prefix (s : string) : exists dropped, s = JsString.trimEnd s ++ dropped.
Proof.
  induction s as [|c rest [dropped IH]]; [now exists EmptyString |].
  cbn [JsString.trimEnd]. cbv zeta.
  destruct (JsString.white_space_code_point _).
  - now exists (String c rest).
  - exists dropped. simpl. now rewrite <- IH.
Qed.

Lemma starts_clean_prefix (kept dropped : string) :
  starts_clean (kept ++ dropped) -> starts_clean kept.
Proof.
  unfold starts_clean.
  read_code_point kept; intros H; try discriminate; try reflexivity.
Qed.

Lemma trimEnd_starts_clean (s : string) :
  starts_clean s -> starts_clean (JsString.trimEnd s).
Proof.
  intros H. destruct (trimEnd_prefix s) as [dropped Hs].
  rewrite Hs in H. now apply starts_clean_prefix in H.
Qed.

Lemma trimEnd_idempotent (s : string) :
  JsString.trimEnd (JsString.trimEnd s) = JsString.trimEnd s.
Proof.
  induction s as [|c rest IH]; [reflexivity |].
  cbn [JsString.trimEnd]. cbv zeta.
  destruct (JsString.white_space_code_point (String c (JsString.trimEnd rest))) eqn:Hws;
    [reflexivity |].
  cbn [JsString.trimEnd]. cbv zeta. now rewrite IH, Hws.
Qed.

Lemma trim_idempotent (s : string) : JsString.trim (JsString.trim s) = JsString.trim s.
Proof.
  unfold JsString.trim.
  rewrite (trimStart_clean (JsString.trimEnd (JsString.trimStart s))).
  - apply trimEnd_idempotent.
  - apply trimEnd_starts_clean, trimStart_starts_clean.
Qed.

(** *** Names of code points below 128 *)

Lemma is_ascii_app (s t : string) :
  JsString.is_ascii (s ++ t) = JsString.is_ascii s && JsString.is_ascii t.
Proof.
  unfold JsString.is_ascii.
  induction s as [|c rest IH]; simpl; [reflexivity |].
  now rewrite IH, andb_assoc.
Qed.

(** What [trimStart] returns is an end of the string. *)
Lemma trimStart_suffix (s : string) : exists dropped, s = dropped ++ JsString.trimStart s.
Proof.
  induction s as [s IH] using string_length_ind.
  read_code_point s; try (now exists EmptyString).
  - destruct (IH rest) as [dropped H]; [simpl; lia |].
    exists (String a dropped). simpl. now rewrite <- H.
  - destruct (IH rest) as [dropped H]; [simpl; lia |].
    exists (String a (String b dropped)). simpl. now rewrite <- H.
  - destruct (IH rest) as [dropped H]; [simpl; lia |].
    exists (String a (String b (String c dropped))). simpl. now rewrite <- H.
Qed.

Lemma trim_is_ascii (s : string) :
  JsString.is_ascii s = true -> JsString.is_ascii (JsString.trim s) = true.
Proof.
  unfold JsString.trim. intros H.
  destruct (trimStart_suffix s) as [before Hs].
  destruct (trimEnd_prefix (JsString.trimStart s)) as [after Ht].
  rewrite Hs, is_ascii_app in H. apply andb_true_iff in H as [_ H].
  rewrite Ht, is_ascii_app in H. now apply andb_true_iff in H as [H _].
Qed.

Lemma lower_char_white_space (c : ascii) :
  JsString.is_white_space (JsString.lower_char c) = JsString.is_white_space c.
Proof. destruct c as [[] [] [] [] [] [] [] []]; reflexivity. Qed.

Lemma lower_char_idempotent (c : ascii) :
  JsString.lower_char (JsString.lower_char c) = JsString.lower_char c.
Proof. destruct c as [[] [] [] [] [] [] [] []]; reflexivity. Qed.

Lemma lower_char_below_128 (c : ascii) :
  (nat_of_ascii (JsString.lower_char c) <? 128)%nat = (nat_of_ascii c <? 128)%nat.
Proof. destruct c as [[] [] [] [] [] [] [] []]; reflexivity. Qed.

Lemma lower_ascii_idempotent (s : string) :
  JsString.lower_ascii (JsString.lower_ascii s) = JsString.lower_ascii s.
Proof.
  induction s as [|c rest IH]; simpl; [reflexivity |].
  now rewrite lower_char_idempotent, IH.
Qed.

Lemma lower_ascii_is_ascii (s : string) :
  JsString.is_ascii (JsString.lower_ascii s) = JsString.is_ascii s.
Proof.
  unfold JsString.is_ascii.
  induction s as [|c rest IH]; simpl; [reflexivity |].
  now rewrite lower_char_below_128, IH.
Qed.

(** No white-space code point of two or three bytes starts with a byte
    below 128. *)
Lemma is_white_space2_high (a b : ascii) :
  (nat_of_ascii a <? 128)%nat = true -> JsString.is_white_space2 a b = false.
Proof.
  unfold JsString.is_white_space2. intros H. apply Nat.ltb_lt in H.
  destruct (Nat.eqb_spec (nat_of_ascii a) 194); [lia | reflexivity].
Qed.

Lemma is_white_space3_high (a b c : ascii) :
  (nat_of_ascii a <? 128)%nat = true -> JsString.is_white_space3 a b c = false.
Proof.
  unfold JsString.is_white_space3. intros H. apply Nat.ltb_lt in H. cbv zeta.
  destruct (Nat.eqb_spec (nat_of_ascii a) 225); [lia |].
  destruct (Nat.eqb_spec (nat_of_ascii a) 226); [lia |].
  destruct (Nat.eqb_spec (nat_of_ascii a) 227); [lia |].
  destruct (Nat.eqb_spec (nat_of_ascii a) 239); [lia | reflexivity].
Qed.

Lemma trimStart_lower_ascii (s : string) :
  JsString.is_ascii s = true ->
  JsString.trimStart (JsString.lower_ascii s) = JsString.lower_ascii (JsString.trimStart s).
Proof.
  unfold JsString.is_ascii.
  induction s as [|a rest IH]; simpl; [reflexivity |].
  intros H. apply andb_true_iff in H as [Ha Hrest].
  rewrite lower_char_white_space.
  destruct (JsString.is_white_space a); [now apply IH |].
  assert (Hlow : (nat_of_ascii (JsString.lower_char a) <? 128)%nat = true)
    by now rewrite lower_char_below_128.
  destruct rest as [|b [|c rest]]; simpl; try reflexivity;
    rewrite ?(is_white_space2_high _ _ Hlow), ?(is_white_space2_high _ _ Ha),
            ?(is_white_space3_high _ _ _ Hlow), ?(is_white_space3_high _ _ _ Ha);
    reflexivity.
Qed.

Lemma white_space_code_point_lower_ascii (s : string) :
  JsString.is_ascii s = true ->
  JsString.white_space_code_point (JsString.lower_ascii s) =
  JsString.white_space_code_point s.
Proof.
  unfold JsString.is_ascii.
  destruct s as [|a [|b [|c [|d rest]]]]; simpl; try reflexivity;
    intros H; apply andb_true_iff in H as [Ha _];
    assert (Hlow : (nat_of_ascii (JsString.lower_char a) <? 128)%nat = true)
      by (now rewrite lower_char_below_128);
    rewrite ?lower_char_white_space,
            ?(is_white_space2_high _ _ Hlow), ?(is_white_space2_high _ _ Ha),
            ?(is_white_space3_high _ _ _ Hlow), ?(is_white_space3_high _ _ _ Ha);
    reflexivity.
Qed.

Lemma trimEnd_is_ascii (s : string) :
  JsString.is_ascii s = true -> JsString.is_ascii (JsString.trimEnd s) = true.
Proof.
  intros H. destruct (trimEnd_prefix s) as [after Hs].
  rewrite Hs, is_ascii_app in H. now apply andb_true_iff in H as [H _].
Qed.

Lemma trimEnd_lower_ascii (s : string) :
  JsString.is_ascii s = true ->
  JsString.trimEnd (JsString.lower_ascii s) = JsString.lower_ascii (JsString.trimEnd s).
Proof.
  induction s as [|a rest IH]; [reflexivity |].
  intros H.
  assert (Hrest : JsString.is_ascii rest = true).
  { unfold JsString.is_ascii in *. simpl in H. now apply andb_true_iff in H as [_ H]. }
  assert (Hkept : JsString.is_ascii (String a (JsString.trimEnd rest)) = true).
  { unfold JsString.is_ascii in *. simpl in *. apply andb_true_iff in H as [Ha _].
    rewrite Ha. exact (trimEnd_is_ascii rest Hrest). }
  cbn [JsString.trimEnd JsString.lower_ascii]. cbv zeta.
  rewrite (IH Hrest).
  change (String (JsString.lower_char a) (JsString.lower_ascii (JsString.trimEnd rest)))
    with (JsString.lower_ascii (String a (JsString.trimEnd rest))).
  rewrite (white_space_code_point_lower_ascii _ Hkept).
  now destruct (JsString.white_space_code_point (String a (JsString.trimEnd rest))).
Qed.

Lemma trimStart_is_ascii (s : string) :
  JsString.is_ascii s = true -> JsString.is_ascii (JsString.trimStart s) = true.
Proof.
  intros H. destruct (trimStart_suffix s) as [before Hs].
  rewrite Hs, is_ascii_app in H. now apply andb_true_iff in H as [_ H].
Qed.

Lemma trim_lower_ascii (s : string) :
  JsString.is_ascii s = true ->
  JsString.trim (JsString.lower_ascii s) = JsString.lower_ascii (JsString.trim s).
Proof.
  intros H. unfold JsString.trim.
  rewrite (trimStart_lower_ascii s H).
  now rewrite (trimEnd_lower_ascii _ (trimStart_is_ascii s H)).
Qed.

(** On a name of code points below 128 the normal form is a normal form,
    whatever the tables of the engine are. *)
Lemma normal_form_idempotent {engine : JsString.Engine} (s : string) :
  JsString.is_ascii s = true ->
  JsString.toLowerCase (JsString.trim (JsString.toLowerCase (JsString.trim s))) =
  JsString.toLowerCase (JsString.trim s).
Proof.
  intros H. pose proof (trim_is_ascii s H) as Ht.
  unfold JsString.toLowerCase at 2 3. rewrite Ht.
  rewrite (trim_lower_ascii _ Ht), trim_idempotent.
  unfold JsString.toLowerCase. rewrite lower_ascii_is_ascii, Ht.
  apply lower_ascii_idempotent.
Qed.

(** X13: A join depends on the username it is given only through its normal
    form: a name with the same trimmed, lower-cased form gives the same call,
    reply and world alike, whatever the case tables of the engine are.  For
    a name of code points below 128 the normal form is such a name: joining
    under the normal form, the name the reply shows, is the same call as
    joining under the name as typed. *)
Theorem join_is_by_normal_form {engine : JsString.Engine}
    (TOKEN input authToken : string) (w : World) :
  (forall other,
     JsString.toLowerCase (JsString.trim other) =
     JsString.toLowerCase (JsString.trim input) ->
     connect TOKEN other authToken w = connect TOKEN input authToken w) /\
  (JsString.is_ascii input = true ->
   connect TOKEN (JsString.toLowerCase (JsString.trim input)) authToken w =
   connect TOKEN input authToken w).
Proof.
  split.
  - intros other H. unfold connect. now rewrite H.
  - intros H. unfold connect. now rewrite (normal_form_idempotent input H).
Qed.

(** X14: Two posts whose texts differ only in surrounding white space are the
    same call: the text is stored and echoed trimmed. *)
Theorem post_is_by_trimmed_text (TOKEN message authToken : string) (w : World) :
  send TOKEN (JsString.trim message) authToken w = send TOKEN message authToken w.
Proof. unfold send. now rewrite trim_idempotent. Qed.

(** ** The line of a message *)

Lemma replace_first (pat by_ : ascii) (before after : string) :
  Cli.includes pat before = false ->
  JsString.replace pat by_ (before ++ String pat after) = before ++ String by_ after.
Proof.
  induction before as [|c rest IH]; simpl; intros Hno.
  - now rewrite Ascii.eqb_refl.
  - apply orb_false_iff in Hno as [Hc Hrest]. rewrite Hc. now rewrite IH.
Qed.

Lemma split_head_first (sep : ascii) (before after : string) :
  Cli.includes sep before = false ->
  JsString.split_head sep (before ++ String sep after) = before.
Proof.
  induction before as [|c rest IH]; simpl; intros Hno.
  - now rewrite Ascii.eqb_refl.
  - apply orb_false_iff in Hno as [Hc Hrest]. rewrite Hc. now rewrite IH.
Qed.

Lemma append_associative (a b c : string) : (a ++ b) ++ c = a ++ b ++ c.
Proof. induction a as [|x rest IH]; simpl; [reflexivity | now rewrite IH]. Qed.

Lemma includes_app (c : ascii) (a b : string) :
  Cli.includes c (a ++ b) = Cli.includes c a || Cli.includes c b.
Proof.
  induction a as [|x rest IH]; simpl; [reflexivity |].
  now rewrite IH, orb_assoc.
Qed.

(** X15: When the ISO form of a row's timestamp is a date, the letter T, a time, a
    dot and a fraction, the line of the row is the date and the time in
    brackets, separated by a blank, without the fraction, then the username,
    a colon and the text. *)
Theorem format_message_line
    (toISOString : string -> string) (m : MessageRow) (date time fraction : string) :
  toISOString (m_created_at m) = date ++ "T" ++ time ++ "." ++ fraction ->
  Cli.includes "T" date = false ->
  Cli.includes "." date = false ->
  Cli.includes "." time = false ->
  format_message toISOString m =
    "[" ++ date ++ " " ++ time ++ "] " ++ m_username m ++ ": " ++ m_message m.
Proof.
  intros Hiso HT Hdate Htime. unfold format_message. rewrite Hiso.
  change (date ++ "T" ++ time ++ "." ++ fraction)
    with (date ++ String "T" (time ++ "." ++ fraction)).
  rewrite (replace_first "T" " " date _ HT).
  replace (date ++ String " " (time ++ "." ++ fraction))
    with ((date ++ " " ++ time) ++ String "." fraction).
  - rewrite split_head_first.
    + now rewrite !append_associative.
    + rewrite includes_app, Hdate. simpl. exact Htime.
  - now rewrite !append_associative.
Qed.

(** * The command line *)

(** ** Splitting a line *)

Lemma split_not_empty (sep : ascii) (s : string) : Cli.split sep s <> [].
Proof.
  destruct s as [|c rest]; simpl; [discriminate |].
  destruct (Ascii.eqb c sep); [discriminate |].
  destruct (Cli.split sep rest); discriminate.
Qed.

(** [s.split(sep).join(sep)] is [s]. *)
Lemma join_split (sep : ascii) (s : string) :
  JsString.join (String sep EmptyString) (Cli.split sep s) = s.
Proof.
  unfold JsString.join.
  induction s as [|c rest IH]; simpl; [reflexivity |].
  destruct (Ascii.eqb_spec c sep) as [-> | _].
  - pose proof (split_not_empty sep rest) as Hne.
    destruct (Cli.split sep rest) as [|piece pieces]; [contradiction |].
    simpl in *. now rewrite IH.
  - pose proof (split_not_empty sep rest) as Hne.
    destruct (Cli.split sep rest) as [|piece pieces]; [contradiction |].
    destruct pieces as [|next others]; simpl in *.
    + now rewrite IH.
    + rewrite <- IH. reflexivity.
Qed.

Lemma split_word (sep : ascii) (word rest : string) :
  Cli.includes sep word = false ->
  Cli.split sep (word ++ String sep rest) = word :: Cli.split sep rest.
Proof.
  induction word as [|c more IH]; simpl; intros Hno.
  - now rewrite Ascii.eqb_refl.
  - apply orb_false_iff in Hno as [Hc Hmore]. rewrite Hc, (IH Hmore). reflexivity.
Qed.

Lemma split_one_word (sep : ascii) (word : string) :
  Cli.includes sep word = false -> Cli.split sep word = [word].
Proof.
  induction word as [|c more IH]; simpl; intros Hno; [reflexivity |].
  apply orb_false_iff in Hno as [Hc Hmore]. rewrite Hc, (IH Hmore). reflexivity.
Qed.

(** X16: How the handler reads a command line: the command is what stands between
    the slash and the first blank, and the argument is all that follows that
    blank, its inner and leading blanks kept; without a blank the argument
    is empty. *)
Theorem cli_reads_command_and_argument (command rest : string) :
  Cli.includes " " command = false ->
  Cli.command_of ("/" ++ command ++ " " ++ rest) = command /\
  Cli.args_of ("/" ++ command ++ " " ++ rest) = rest /\
  Cli.command_of ("/" ++ command) = command /\
  Cli.args_of ("/" ++ command) = EmptyString.
Proof.
  intros Hword. unfold Cli.command_of, Cli.args_of.
  change (Cli.substring1 ("/" ++ command ++ " " ++ rest))
    with (command ++ String " " rest).
  change (Cli.substring1 ("/" ++ command)) with command.
  rewrite (split_word " " command rest Hword), (split_one_word " " command Hword).
  simpl. repeat split. apply (join_split " " rest).
Qed.

(** ** Replies to the secret *)

Section Authorized.

Variable TOKEN : string.
Variable toISOString : string -> string.
Context {engine : JsString.Engine}.

(** Called with the secret, no tool answers with the authentication
    failure. *)
Lemma authorized_replies (input message : string) (w : World) :
  fst (connect TOKEN input TOKEN w) <> Value "❌ Authentication failed." /\
  fst (disconnect TOKEN TOKEN w) <> Value "❌ Authentication failed." /\
  fst (send TOKEN message TOKEN w) <> Value "❌ Authentication failed." /\
  fst (fetch TOKEN toISOString TOKEN w) <> Value "❌ Authentication failed." /\
  fst (connectedUsers TOKEN TOKEN w) <> Value "❌ Authentication failed." /\
  fst (help TOKEN TOKEN w) <> Value "❌ Authentication failed.".
Proof.
  destruct w as [[u0 last0] st reqs ans].
  split.
  { unfold connect. unfold bind at 1. rewrite verify_match.
    crack; intros H; cbn in H; discriminate H. }
  split.
  { unfold disconnect. unfold bind at 1. rewrite verify_match.
    expose. destruct (truthy_username u0); expose;
      [| intros H; cbn in H; discriminate H].
    crack; intros H; cbn in H; discriminate H. }
  split.
  { unfold send. unfold bind at 1. rewrite verify_match.
    expose. destruct (truthy_username u0); expose;
      [| intros H; cbn in H; discriminate H].
    crack; intros H; cbn in H; discriminate H. }
  split.
  { unfold fetch. unfold bind at 1. rewrite verify_match.
    expose. destruct (truthy_username u0); expose;
      [| intros H; cbn in H; discriminate H].
    crack; try destruct (Table.select_messages_after _ _); expose;
      intros H; cbn in H; discriminate H. }
  split.
  { unfold connectedUsers. unfold bind at 1. rewrite verify_match.
    crack; try destruct (_ =? _)%nat; intros H; cbn in H; discriminate H. }
  unfold help. unfold bind at 1. rewrite verify_match.
  intros H; cbn in H; discriminate H.
Qed.

End Authorized.

(** ** One line of input *)

Section CommandLine.

Variable TOKEN : string.
Variable toISOString : string -> string.
Variable trim_of_undefined : string.
Context {engine : JsString.Engine}.

Lemma log_reply_with_secret (tool : Async string) (p : Cli.Process) :
  (exists reply, fst (tool (Cli.world p)) = Value reply) ->
  fst (tool (Cli.world p)) <> Value "❌ Authentication failed." ->
  exists line,
    Cli.log_reply tool p =
      {| Cli.world := snd (tool (Cli.world p));
         Cli.console := Cli.console p ++ [line];
         Cli.exit_code := Cli.exit_code p;
         Cli.uncaught := Cli.uncaught p |} /\
    line <> "❌ Authentication failed." /\
    fst (tool (Cli.world p)) = Value line.
Proof.
  intros [reply Hreply] Hne. unfold Cli.log_reply.
  destruct (tool (Cli.world p)) as [[line | msg] w']; simpl in *; [| discriminate].
  exists line. repeat split. intros ->. now apply Hne.
Qed.

(** What the handler does with one line while the process runs: it prints
    exactly one line, which is not the authentication failure, leaves no
    exception uncaught, changes the world by at most one call of a tool with
    the secret, and calls [process.exit] only for the command exit. *)
Lemma on_data_cases (text : string) (p : Cli.Process) :
  Cli.halted p = false ->
  exists line w' code,
    Cli.on_data TOKEN toISOString trim_of_undefined text p =
      {| Cli.world := w'; Cli.console := Cli.console p ++ [line];
         Cli.exit_code := code; Cli.uncaught := None |} /\
    line <> "❌ Authentication failed." /\
    Cli.tool_call TOKEN toISOString (Cli.world p) w' /\
    (code = None \/
     code = Some 0 /\ w' = Cli.world p /\
     Cli.startsWith "/" (JsString.trim text) = true /\
     Cli.command_of (JsString.trim text) = "exit").
Proof.
  intros Hrun. unfold Cli.on_data. rewrite Hrun.
  destruct p as [w out code unc]. unfold Cli.halted in Hrun. simpl in Hrun.
  destruct code; [discriminate |]. destruct unc; [discriminate |].
  set (p := {| Cli.world := w; Cli.console := out;
               Cli.exit_code := None; Cli.uncaught := None |}).
  cbv zeta.
  destruct (tools_resolve TOKEN toISOString (Cli.args_of (JsString.trim text))
              (Cli.args_of (JsString.trim text)) TOKEN w)
    as (Rconnect & Rdisconnect & Rsend & Rfetch & Rusers & Rhelp).
  destruct (authorized_replies TOKEN toISOString (Cli.args_of (JsString.trim text))
              (Cli.args_of (JsString.trim text)) w)
    as (Aconnect & Adisconnect & Asend & Afetch & Ausers & Ahelp).
  assert (Htool : forall tool,
            (exists reply, fst (tool w) = Value reply) ->
            fst (tool w) <> Value "❌ Authentication failed." ->
            Cli.tool_call TOKEN toISOString w (snd (tool w)) ->
            exists line w' code0,
              Cli.log_reply tool p =
                {| Cli.world := w'; Cli.console := out ++ [line];
                   Cli.exit_code := code0; Cli.uncaught := None |} /\
              line <> "❌ Authentication failed." /\
              Cli.tool_call TOKEN toISOString w w' /\
              (code0 = None \/
               code0 = Some 0 /\ w' = w /\
               Cli.startsWith "/" (JsString.trim text) = true /\
               Cli.command_of (JsString.trim text) = "exit")).
  { intros tool Hreply Hauth Hcall.
    destruct (log_reply_with_secret tool p Hreply Hauth) as (line & Hlog & Hline & _).
    exists line, (snd (tool w)), None. rewrite Hlog. simpl.
    repeat split; [exact Hline | exact Hcall | now left]. }
  destruct (Cli.startsWith "/" (JsString.trim text)) eqn:Hslash.
  - destruct (String.eqb_spec (Cli.command_of (JsString.trim text)) "connect");
      [apply Htool; [exact Rconnect | exact Aconnect | constructor] |].
    destruct (String.eqb_spec (Cli.command_of (JsString.trim text)) "disconnect");
      [apply Htool; [exact Rdisconnect | exact Adisconnect | constructor] |].
    destruct (String.eqb_spec (Cli.command_of (JsString.trim text)) "send");
      [apply Htool; [exact Rsend | exact Asend | constructor] |].
    destruct (String.eqb_spec (Cli.command_of (JsString.trim text)) "fetch");
      [apply Htool; [exact Rfetch | exact Afetch | constructor] |].
    destruct (String.eqb_spec (Cli.command_of (JsString.trim text)) "help");
      [apply Htool; [exact Rhelp | exact Ahelp | constructor] |].
    destruct (String.eqb_spec (Cli.command_of (JsString.trim text)) "connected_users");
      [apply Htool; [exact Rusers | exact Ausers | constructor] |].
    destruct (String.eqb_spec (Cli.command_of (JsString.trim text)) "exit") as [Hexit |].
    + exists "Exiting CLI.", w, (Some 0). simpl.
      repeat split; [discriminate | constructor |].
      right. repeat split. exact Hexit.
    + eexists; exists w, None. simpl.
      repeat split; [discriminate | constructor | now left].
  - simpl.
    destruct (truthy_username (username (session w))).
    + destruct (tools_resolve TOKEN toISOString (JsString.trim text)
                  (JsString.trim text) TOKEN w) as (_ & _ & Rtext & _).
      destruct (authorized_replies TOKEN toISOString (JsString.trim text)
                  (JsString.trim text) w) as (_ & _ & Atext & _).
      apply Htool; [exact Rtext | exact Atext | constructor].
    + eexists; exists w, None. simpl.
      repeat split; [discriminate | constructor | now left].
Qed.

End CommandLine.

(** ** Terminal sessions *)

Section Sessions.

Variable TOKEN : string.
Variable toISOString : string -> string.
Variable trim_of_undefined : string.
Context {engine : JsString.Engine}.

(** One call of a tool keeps the worlds consistent and the usernames unique,
    and only appends to the message table. *)
Lemma tool_call_keeps (w w' : World) :
  Cli.tool_call TOKEN toISOString w w' ->
  (consistent w -> consistent w') /\
  (NoDup (user_keys (store w)) -> NoDup (user_keys (store w'))) /\
  exists extra, puchchat (store w') = (puchchat (store w) ++ extra)%list.
Proof.
  intros Hcall.
  assert (Hsame : forall s, s = store w ->
            exists extra, puchchat s = (puchchat (store w) ++ extra)%list).
  { intros s ->. exists []. now rewrite app_nil_r. }
  destruct Hcall as [| input | | message | | |].
  - split; [tauto | split; [tauto | now apply Hsame]].
  - split; [intros H; apply (tools_keep_consistent TOKEN toISOString input input TOKEN w H) |].
    split; [intros H; apply (tools_keep_unique_keys TOKEN toISOString input input TOKEN w H) |].
    destruct (connect_store_cases TOKEN input TOKEN w) as [H | [H | [_ H]]];
      cbv zeta in H; rewrite H; exists []; simpl; now rewrite app_nil_r.
  - split; [intros H; apply (tools_keep_consistent TOKEN toISOString EmptyString EmptyString TOKEN w H) |].
    split; [intros H; apply (tools_keep_unique_keys TOKEN toISOString EmptyString EmptyString TOKEN w H) |].
    destruct (disconnect_store_cases TOKEN TOKEN w) as [H | [u [_ H]]];
      cbv zeta in H; rewrite H; exists []; simpl; now rewrite app_nil_r.
  - split; [intros H; apply (tools_keep_consistent TOKEN toISOString message message TOKEN w H) |].
    split; [intros H; apply (tools_keep_unique_keys TOKEN toISOString message message TOKEN w H) |].
    destruct (send_store_cases TOKEN message TOKEN w) as [H | (u & now & _ & H)];
      cbv zeta in H; rewrite H; [exists []; now rewrite app_nil_r |].
    eexists. reflexivity.
  - split; [intros H; apply (tools_keep_consistent TOKEN toISOString EmptyString EmptyString TOKEN w H) |].
    split; [intros H; apply (tools_keep_unique_keys TOKEN toISOString EmptyString EmptyString TOKEN w H) |].
    apply Hsame. apply (readers_keep_store TOKEN toISOString TOKEN w).
  - split; [intros H; apply (tools_keep_consistent TOKEN toISOString EmptyString EmptyString TOKEN w H) |].
    split; [intros H; apply (tools_keep_unique_keys TOKEN toISOString EmptyString EmptyString TOKEN w H) |].
    apply Hsame. apply (readers_keep_store TOKEN toISOString TOKEN w).
  - split; [intros H; apply (tools_keep_consistent TOKEN toISOString EmptyString EmptyString TOKEN w H) |].
    split; [intros H; apply (tools_keep_unique_keys TOKEN toISOString EmptyString EmptyString TOKEN w H) |].
    apply Hsame. apply (readers_keep_store TOKEN toISOString TOKEN w).
Qed.

(** X17: While the process runs, the handler of a line prints exactly one line and
    leaves no exception uncaught; it calls [process.exit] only when the line
    is the command exit, and then without touching the world; once the
    process has exited a line does nothing. *)
Theorem cli_prints_one_line_and_exits_only_on_exit (text : string) (p : Cli.Process) :
  (Cli.halted p = true ->
   Cli.on_data TOKEN toISOString trim_of_undefined text p = p) /\
  (Cli.halted p = false ->
   let p' := Cli.on_data TOKEN toISOString trim_of_undefined text p in
   (exists line, Cli.console p' = (Cli.console p ++ [line])%list) /\
   Cli.uncaught p' = None /\
   (Cli.exit_code p' <> None ->
    Cli.exit_code p' = Some 0 /\
    Cli.world p' = Cli.world p /\
    Cli.startsWith "/" (JsString.trim text) = true /\
    Cli.command_of (JsString.trim text) = "exit")).
Proof.
  split.
  - intros Hhalted. unfold Cli.on_data. now rewrite Hhalted.
  - intros Hrun p'. subst p'.
    destruct (on_data_cases TOKEN toISOString trim_of_undefined text p Hrun)
      as (line & w' & code & -> & _ & _ & Hcode).
    simpl. split; [now exists line |]. split; [reflexivity |].
    intros Hexit. destruct Hcode as [-> | (-> & -> & Hslash & Hcommand)];
      [contradiction |].
    repeat split; assumption.
Qed.

(** X18: Over a whole terminal session, whatever is typed and whatever the store
    answers: the worlds stay consistent, the user table keeps one row per
    username, and the message table only grows at its end. *)
Theorem cli_sessions_keep_the_tables_sound (texts : list string) (w : World) :
  consistent w ->
  NoDup (user_keys (store w)) ->
  let p := Cli.on_lines TOKEN toISOString trim_of_undefined texts (Cli.ready w) in
  consistent (Cli.world p) /\
  NoDup (user_keys (store (Cli.world p))) /\
  exists extra, puchchat (store (Cli.world p)) = (puchchat (store w) ++ extra)%list.
Proof.
  intros Hw Hkeys p. subst p.
  assert (Hgen : forall p0,
            consistent (Cli.world p0) ->
            NoDup (user_keys (store (Cli.world p0))) ->
            (exists extra, puchchat (store (Cli.world p0)) = (puchchat (store w) ++ extra)%list) ->
            let p := Cli.on_lines TOKEN toISOString trim_of_undefined texts p0 in
            consistent (Cli.world p) /\
            NoDup (user_keys (store (Cli.world p))) /\
            exists extra, puchchat (store (Cli.world p)) = (puchchat (store w) ++ extra)%list).
  { induction texts as [|text rest IH]; intros p0 Hc Hk Hp; cbv zeta.
    - simpl. split; [assumption | split; assumption].
    - simpl. apply IH.
      all: destruct (Cli.halted p0) eqn:Hrun;
        [ unfold Cli.on_data; rewrite Hrun; assumption |].
      all: destruct (on_data_cases TOKEN toISOString trim_of_undefined text p0 Hrun)
             as (line & w' & code & -> & _ & Hcall & _);
        destruct (tool_call_keeps _ _ Hcall) as (Hc' & Hk' & [more Hmore]); simpl.
      + now apply Hc'.
      + now apply Hk'.
      + destruct Hp as [extra Hextra]. exists (extra ++ more)%list.
        now rewrite Hmore, Hextra, app_assoc. }
  apply Hgen; simpl; [exact Hw | exact Hkeys |].
  exists []. now rewrite app_nil_r.
Qed.

(** X19: The command line always passes the secret: over a whole terminal session
    no line is ever answered with the authentication failure, and no
    exception is ever left uncaught. *)
Theorem cli_is_never_turned_away (texts : list string) (w : World) :
  let p := Cli.on_lines TOKEN toISOString trim_of_undefined texts (Cli.ready w) in
  ~ In "❌ Authentication failed." (Cli.console p) /\
  Cli.uncaught p = None /\
  (List.length (Cli.console p) <= List.length texts)%nat.
Proof.
  cbv zeta.
  assert (Hgen : forall p0,
            ~ In "❌ Authentication failed." (Cli.console p0) ->
            Cli.uncaught p0 = None ->
            let p := Cli.on_lines TOKEN toISOString trim_of_undefined texts p0 in
            ~ In "❌ Authentication failed." (Cli.console p) /\
            Cli.uncaught p = None /\
            (List.length (Cli.console p) <=
             List.length (Cli.console p0) + List.length texts)%nat).
  { induction texts as [|text rest IH]; intros p0 Hno Hunc; cbv zeta.
    - simpl. repeat split; try assumption. lia.
    - simpl.
      destruct (Cli.halted p0) eqn:Hrun.
      + unfold Cli.on_data at 1 2 3. rewrite Hrun.
        destruct (IH p0 Hno Hunc) as (H1 & H2 & H3). cbv zeta in H3.
        repeat split; try assumption. lia.
      + destruct (on_data_cases TOKEN toISOString trim_of_undefined text p0 Hrun)
          as (line & w' & code & Hstep & Hline & _ & _).
        rewrite Hstep.
        destruct (IH {| Cli.world := w'; Cli.console := Cli.console p0 ++ [line];
                        Cli.exit_code := code; Cli.uncaught := None |})
          as (H1 & H2 & H3).
        * simpl. intros Hin. apply in_app_or in Hin as [Hin | [Hin | []]];
            [now apply Hno | now apply Hline].
        * reflexivity.
        * cbv zeta in H3. simpl in H3. rewrite last_request_index in H3.
          repeat split; try assumption. lia. }
  destruct (Hgen (Cli.ready w)) as (H1 & H2 & H3);
    [intros [] | reflexivity |].
  repeat split; assumption.
Qed.

End Sessions.

(** ** Edges of the dispatcher *)

Section Dispatcher.

Variable TOKEN : string.
Variable toISOString : string -> string.
Variable trim_of_undefined : string.
Context {engine : JsString.Engine}.

(** X20: A line of white space only, typed while joined, is posted: with the
    user's row marked connected and the store serving, the handler inserts a
    row with the empty text under the next id and prints the confirmation
    with nothing after the colon. *)
Theorem cli_blank_line_posts_empty_message
    (text u now1 now2 : string) (p : Cli.Process) :
  Cli.halted p = false ->
  JsString.all_white_space text = true ->
  truthy_username (username (session (Cli.world p))) = Some u ->
  answers (Cli.world p) (List.length (requests (Cli.world p))) = Served now1 ->
  map u_is_connected (Table.select_user u (store (Cli.world p))) = [true] ->
  answers (Cli.world p) (S (List.length (requests (Cli.world p)))) = Served now2 ->
  let p' := Cli.on_data TOKEN toISOString trim_of_undefined text p in
  Cli.console p' = (Cli.console p ++ ["📨 Message sent: "])%list /\
  puchchat (store (Cli.world p')) =
    (puchchat (store (Cli.world p)) ++
       [{| m_id := next_id (store (Cli.world p)); m_username := u;
           m_message := EmptyString; m_created_at := now2 |}])%list.
Proof.
  intros Hrun Hblank Hu H1 Hrow H2 p'. subst p'.
  unfold Cli.on_data. rewrite Hrun. cbv zeta.
  rewrite (trim_all_white_space text Hblank). simpl Cli.startsWith. cbv iota.
  rewrite Hu.
  change (Cli.simulateCommand TOKEN toISOString trim_of_undefined "send"
            [EmptyString] TOKEN p)
    with (Cli.log_reply (send TOKEN EmptyString TOKEN) p).
  unfold Cli.log_reply.
  rewrite (send_delivers TOKEN EmptyString u now1 now2 (Cli.world p) Hu H1 Hrow H2).
  simpl. split; reflexivity.
Qed.

(** X21: The command connect typed without a name joins under the empty
    username: the session is named by the empty string whatever the store
    answers, and with the store serving the join the handler prints that it
    connected as ''. *)
Theorem cli_connect_without_a_name (text now1 now2 : string) (p : Cli.Process) :
  Cli.halted p = false ->
  JsString.trim text = "/connect" ->
  let p' := Cli.on_data TOKEN toISOString trim_of_undefined text p in
  username (session (Cli.world p')) = Some EmptyString /\
  (answers (Cli.world p) (List.length (requests (Cli.world p))) = Served now1 ->
   answers (Cli.world p) (S (List.length (requests (Cli.world p)))) = Served now2 ->
   Cli.console p' = (Cli.console p ++ ["✅ Connected as ''."])%list).
Proof.
  intros Hrun Htext p'.
  assert (Hp' : p' = Cli.log_reply (connect TOKEN EmptyString TOKEN) p).
  { subst p'. unfold Cli.on_data. rewrite Hrun. cbv zeta. rewrite Htext.
    reflexivity. }
  clearbody p'. subst p'. unfold Cli.log_reply.
  pose proof (blank_connect_names_empty TOKEN EmptyString (Cli.world p) eq_refl) as Hname.
  destruct (tools_resolve TOKEN toISOString EmptyString EmptyString TOKEN (Cli.world p))
    as ([reply Hreply] & _).
  destruct (connect TOKEN EmptyString TOKEN (Cli.world p)) as [[line | msg] w'] eqn:Hjoin;
    simpl in Hreply, Hname; [| discriminate].
  simpl. split; [exact Hname |].
  intros H1 H2.
  destruct (connect_served TOKEN EmptyString now1 now2 (Cli.world p) H1 H2)
    as [w'' Hserved].
  rewrite Hjoin in Hserved. injection Hserved as -> _. reflexivity.
Qed.

(** X22: The dispatcher called without arguments: a connect prints the failure
    reply of the join with the message of the TypeError and leaves the world
    as it was; a send never inserts a message, it leaves the session and the
    tables as they were and issues at most the check of the user's row. *)
Theorem simulateCommand_without_arguments (p : Cli.Process) :
  Cli.simulateCommand TOKEN toISOString trim_of_undefined "connect" [] TOKEN p =
    Cli.console_log
      ("❌ An unexpected error occurred while connecting: " ++ trim_of_undefined) p /\
  (let p' := Cli.simulateCommand TOKEN toISOString trim_of_undefined "send" [] TOKEN p in
   session (Cli.world p') = session (Cli.world p) /\
   store (Cli.world p') = store (Cli.world p) /\
   Cli.uncaught p' = Cli.uncaught p /\
   (requests (Cli.world p') = requests (Cli.world p) \/
    exists u, requests (Cli.world p') =
                (requests (Cli.world p) ++ [SelectIsConnected u])%list)).
Proof.
  split.
  - change (Cli.simulateCommand TOKEN toISOString trim_of_undefined "connect" [] TOKEN p)
      with (Cli.log_reply (Cli.connect_undefined TOKEN trim_of_undefined TOKEN) p).
    unfold Cli.log_reply, Cli.connect_undefined. unfold bind at 1.
    rewrite verify_match. reflexivity.
  - intros p'.
    assert (Hp' : p' = Cli.log_reply (Cli.send_undefined TOKEN trim_of_undefined TOKEN) p)
      by reflexivity.
    clearbody p'. revert Hp'.
    unfold Cli.log_reply, Cli.send_undefined. unfold bind at 1.
    rewrite verify_match.
    destruct p as [[[u0 last0] st reqs ans] out code unc]. simpl Cli.world.
    expose. destruct (truthy_username u0) as [u|]; expose.
    + crack; intros ->; simpl; repeat split;
        first [now left | right; now exists u].
    + intros ->. simpl. repeat split. now left.
Qed.

(** X23: The dispatcher called with a token that is not the secret prints the
    authentication failure for each of its six commands, with or without
    arguments, and leaves the world as it was. *)
Theorem simulateCommand_rejects_wrong_token
    (command token : string) (args : list string) (p : Cli.Process) :
  token <> TOKEN ->
  In command ["connect"; "disconnect"; "send"; "fetch"; "help"; "connected_users"] ->
  Cli.simulateCommand TOKEN toISOString trim_of_undefined command args token p =
    Cli.console_log "❌ Authentication failed." p.
Proof.
  intros Hwrong Hknown.
  assert (Hturned : forall tool : Async string,
            tool (Cli.world p) = (Value "❌ Authentication failed.", Cli.world p) ->
            Cli.log_reply tool p = Cli.console_log "❌ Authentication failed." p).
  { intros tool Htool. unfold Cli.log_reply. rewrite Htool. reflexivity. }
  simpl in Hknown.
  destruct Hknown as [<- | [<- | [<- | [<- | [<- | [<- | []]]]]]];
    unfold Cli.simulateCommand; simpl String.eqb; cbv iota; apply Hturned.
  - destruct (nth_error args 0);
      [unfold connect | unfold Cli.connect_undefined];
      unfold bind; now rewrite verify_mismatch.
  - unfold disconnect, bind. now rewrite verify_mismatch.
  - destruct (nth_error args 0);
      [unfold send | unfold Cli.send_undefined];
      unfold bind at 1; now rewrite verify_mismatch.
  - unfold fetch. unfold bind at 1. now rewrite verify_mismatch.
  - unfold help, bind. now rewrite verify_mismatch.
  - unfold connectedUsers, bind. now rewrite verify_mismatch.
Qed.

End Dispatcher.

(** * Start-up *)

(** X24: The script goes past its checks exactly when the token, the URL and the
    key are all set and not empty, and then with those values; otherwise it
    exits with code 1 after naming the first of them, in that order, that is
    missing. *)
Theorem start_runs_iff_configured (env : Startup.Env) :
  (forall config,
     Startup.start env = Startup.Runs config <->
     truthy_username (env "AUTH_TOKEN") = Some (Startup.AUTH_TOKEN config) /\
     truthy_username (env "SUPABASE_URL") = Some (Startup.SUPABASE_URL config) /\
     truthy_username (env "SUPABASE_KEY") = Some (Startup.SUPABASE_KEY config)) /\
  (forall code logged,
     Startup.start env = Startup.Exits code logged ->
     code = 1 /\
     (truthy_username (env "AUTH_TOKEN") = None /\
      logged = "AUTH_TOKEN environment variable not set. Exiting." \/
      truthy_username (env "AUTH_TOKEN") <> None /\
      truthy_username (env "SUPABASE_URL") = None /\
      logged = "SUPABASE_URL environment variable not set. Exiting." \/
      truthy_username (env "AUTH_TOKEN") <> None /\
      truthy_username (env "SUPABASE_URL") <> None /\
      truthy_username (env "SUPABASE_KEY") = None /\
      logged = "SUPABASE_KEY environment variable not set. Exiting.")).
Proof.
  unfold Startup.start. split.
  - intros [t u k]. simpl.
    destruct (truthy_username (env "AUTH_TOKEN")) as [token|];
      destruct (truthy_username (env "SUPABASE_URL")) as [url|];
      destruct (truthy_username (env "SUPABASE_KEY")) as [key|];
      split; intros H; try discriminate H;
      try (destruct H as (H1 & H2 & H3); discriminate).
    + injection H as <- <- <-. repeat split.
    + destruct H as (H1 & H2 & H3). congruence.
  - intros code logged.
    destruct (truthy_username (env "AUTH_TOKEN")) as [token|];
      destruct (truthy_username (env "SUPABASE_URL")) as [url|];
      destruct (truthy_username (env "SUPABASE_KEY")) as [key|];
      intros H; inversion H; subst; (split; [reflexivity |]);
      first [ left; split; reflexivity
            | right; left; split; [discriminate | split; reflexivity]
            | right; right; split; [discriminate |];
              split; [discriminate | split; reflexivity] ].
Qed.

(** X25: In a process that got past its start-up checks the secret is not empty,
    so the empty token is turned away by every tool and touches nothing. *)
Theorem empty_token_is_never_accepted {engine : JsString.Engine}
    (env : Startup.Env) (config : Startup.Config)
    (toISOString : string -> string) (input message : string) (w : World) :
  Startup.start env = Startup.Runs config ->
  let TOKEN := Startup.AUTH_TOKEN config in
  TOKEN <> EmptyString /\
  connect TOKEN input EmptyString w = (Value "❌ Authentication failed.", w) /\
  disconnect TOKEN EmptyString w = (Value "❌ Authentication failed.", w) /\
  send TOKEN message EmptyString w = (Value "❌ Authentication failed.", w) /\
  fetch TOKEN toISOString EmptyString w = (Value "❌ Authentication failed.", w) /\
  connectedUsers TOKEN EmptyString w = (Value "❌ Authentication failed.", w) /\
  help TOKEN EmptyString w = (Value "❌ Authentication failed.", w).
Proof.
  intros Hstart TOKEN.
  assert (Hset : TOKEN <> EmptyString).
  { subst TOKEN. revert Hstart. unfold Startup.start.
    destruct (truthy_username (env "AUTH_TOKEN")) as [token|] eqn:Htoken;
      [| discriminate].
    destruct (truthy_username (env "SUPABASE_URL")); [| discriminate].
    destruct (truthy_username (env "SUPABASE_KEY")); [| discriminate].
    intros [= <-]. simpl. now apply truthy_username_Some in Htoken as [_ H]. }
  split; [exact Hset |].
  assert (Hwrong : EmptyString <> TOKEN) by congruence.
  unfold connect, disconnect, send, fetch, connectedUsers, help, bind.
  rewrite (verify_mismatch TOKEN EmptyString w Hwrong).
  repeat split; reflexivity.
Qed.

(** * More of the listener *)

Lemma exited_is_final (user : option string) (events : list Realtime.Event)
    (l : Realtime.Listener) :
  Realtime.exited l = true -> Realtime.run user events l = l.
Proof.
  unfold Realtime.run. revert l.
  induction events as [|e rest IH]; intros l Hgone; simpl; [reflexivity |].
  unfold Realtime.step at 2. rewrite Hgone. now apply IH.
Qed.

(** X26: The shutdown signal is final: once SIGINT has been handled no later
    event changes anything; the timers still pending never start the listener
    again and nothing more is unsubscribed or tracked. *)
Theorem sigint_is_final (user : option string) (events : list Realtime.Event)
    (l : Realtime.Listener) :
  Realtime.exited l = false ->
  Realtime.run user (Realtime.SIGINT :: events) l = Realtime.on_SIGINT l /\
  Realtime.exited (Realtime.on_SIGINT l) = true /\
  Realtime.timers (Realtime.on_SIGINT l) = Realtime.timers l /\
  Realtime.created (Realtime.on_SIGINT l) = Realtime.created l.
Proof.
  intros Hrun.
  assert (Hstep : Realtime.step user Realtime.SIGINT l = Realtime.on_SIGINT l).
  { unfold Realtime.step. now rewrite Hrun. }
  split.
  - change (Realtime.run user (Realtime.SIGINT :: events) l)
      with (Realtime.run user events (Realtime.step user Realtime.SIGINT l)).
    rewrite Hstep. apply exited_is_final. reflexivity.
  - unfold Realtime.on_SIGINT.
    destruct (Realtime.realtimeChannel l); repeat split.
Qed.

Lemma step_keeps_delays (user : option string) (e : Realtime.Event)
    (l : Realtime.Listener) :
  Forall (fun ms => ms = 5000%nat) (Realtime.timers l) ->
  Forall (fun ms => ms = 5000%nat) (Realtime.timers (Realtime.step user e l)).
Proof.
  intros Hl.
  assert (Hmore : Forall (fun ms => ms = 5000%nat) (Realtime.timers l ++ [5000%nat]))
    by (apply Forall_app; split; [exact Hl | repeat constructor]).
  assert (Htail : Forall (fun ms => ms = 5000%nat) (tl (Realtime.timers l)))
    by (destruct (Realtime.timers l); [constructor | now inversion Hl]).
  assert (Htail' : Forall (fun ms => ms = 5000%nat) (tl (Realtime.timers l) ++ [5000%nat]))
    by (apply Forall_app; split; [exact Htail | repeat constructor]).
  unfold Realtime.step.
  destruct (Realtime.exited l); [exact Hl |].
  destruct e as [ch status | setup |].
  - destruct (Realtime.registered ch (Realtime.status_callbacks l));
      destruct (Realtime.registered ch (Realtime.presence_callbacks l));
      destruct status; simpl; try assumption;
      destruct (Realtime.realtimeChannel l); assumption.
  - destruct (Realtime.timers l) as [|ms rest] eqn:Ht; [now rewrite Ht |].
    simpl in Htail, Htail'.
    destruct setup; simpl; rewrite Ht; simpl; assumption.
  - unfold Realtime.on_SIGINT.
    destruct (Realtime.realtimeChannel l); simpl; assumption.
Qed.

(** X27: The delay is fixed: whatever the events, the setups that throw and the
    reports of the channels, every pending restart of the listener waits
    5000 ms; the delay never grows. *)
Theorem restart_delay_is_always_5000
    (user : option string) (setup : Realtime.Setup) (events : list Realtime.Event) :
  Forall (fun ms => ms = 5000%nat)
    (Realtime.timers
       (Realtime.run user events (Realtime.startRealtimeListener setup Realtime.initial))).
Proof.
  assert (Hgen : forall l,
            Forall (fun ms => ms = 5000%nat) (Realtime.timers l) ->
            Forall (fun ms => ms = 5000%nat) (Realtime.timers (Realtime.run user events l))).
  { unfold Realtime.run. induction events as [|e rest IH]; intros l Hl; simpl;
      [exact Hl |].
    apply IH. now apply step_keeps_delays. }
  apply Hgen. destruct setup; simpl; repeat constructor.
Qed.

Lemma step_keeps_tracks (user : option string) (e : Realtime.Event)
    (l : Realtime.Listener) :
  (forall ch, Realtime.realtimeChannel l = Some ch -> (ch < Realtime.created l)%nat) /\
  Forall (fun t => (fst t < Realtime.created l)%nat /\ snd t <> EmptyString)
    (Realtime.tracked l) ->
  (forall ch, Realtime.realtimeChannel (Realtime.step user e l) = Some ch ->
              (ch < Realtime.created (Realtime.step user e l))%nat) /\
  Forall (fun t => (fst t < Realtime.created (Realtime.step user e l))%nat /\
                   snd t <> EmptyString)
    (Realtime.tracked (Realtime.step user e l)).
Proof.
  intros [Hheld Htracked].
  assert (Hname : match truthy_username user with
                  | Some u => u
                  | None => "anonymous"
                  end <> EmptyString).
  { destruct (truthy_username user) as [u|] eqn:Hu; [| discriminate].
    now apply truthy_username_Some in Hu as [_ H]. }
  assert (Hnext : Forall (fun t => (fst t < S (Realtime.created l))%nat /\
                                   snd t <> EmptyString) (Realtime.tracked l)).
  { eapply Forall_impl; [| exact Htracked]. simpl. intros t [? ?]. split; [lia | assumption]. }
  unfold Realtime.step.
  destruct (Realtime.exited l); [split; assumption |].
  destruct e as [ch status | setup |].
  - destruct (Realtime.registered ch (Realtime.status_callbacks l));
      destruct (Realtime.registered ch (Realtime.presence_callbacks l));
      destruct status; simpl; try (split; assumption);
      destruct (Realtime.realtimeChannel l) as [held|] eqn:Hch; simpl;
      (split;
       [ first [ exact Hheld
               | intros c Hc; apply Hheld; congruence
               | intros c Hc; congruence ]
       | first [ exact Htracked
               | apply Forall_app; split; [exact Htracked |];
                 constructor; [| constructor]; simpl; split; [| exact Hname];
                 apply Hheld; congruence ] ]).
  - destruct (Realtime.timers l) as [|ms rest]; [split; assumption |].
    destruct setup; simpl; (split; [| first [exact Htracked | exact Hnext]]);
      first [ exact Hheld | intros ch [= <-]; lia ].
  - unfold Realtime.on_SIGINT.
    destruct (Realtime.realtimeChannel l) eqn:Hch; simpl;
      (split; [| exact Htracked]);
      first [exact Hheld | intros c Hc; apply Hheld; congruence].
Qed.

Lemma run_keeps_tracks (user : option string) (events : list Realtime.Event) :
  forall l,
    (forall ch, Realtime.realtimeChannel l = Some ch -> (ch < Realtime.created l)%nat) /\
    Forall (fun t => (fst t < Realtime.created l)%nat /\ snd t <> EmptyString)
      (Realtime.tracked l) ->
    Forall (fun t => (fst t < Realtime.created (Realtime.run user events l))%nat /\
                     snd t <> EmptyString)
      (Realtime.tracked (Realtime.run user events l)).
Proof.
  unfold Realtime.run. induction events as [|e rest IH]; intros l Hl; simpl.
  - apply Hl.
  - apply IH. now apply step_keeps_tracks.
Qed.

Lemma run_keeps_names (user : option string) (events : list Realtime.Event) :
  forall l,
    Forall (fun t => snd t = match truthy_username user with
                             | Some u => u
                             | None => "anonymous"
                             end) (Realtime.tracked l) ->
    Forall (fun t => snd t = match truthy_username user with
                             | Some u => u
                             | None => "anonymous"
                             end)
      (Realtime.tracked (Realtime.run user events l)).
Proof.
  unfold Realtime.run. induction events as [|e rest IH]; intros l Hl; simpl;
    [exact Hl |].
  apply IH. unfold Realtime.step.
  destruct (Realtime.exited l); [exact Hl |].
  destruct e as [ch status | s |].
  - destruct (Realtime.registered ch (Realtime.status_callbacks l));
      destruct (Realtime.registered ch (Realtime.presence_callbacks l));
      destruct status; simpl; try exact Hl;
      destruct (Realtime.realtimeChannel l); simpl; try exact Hl;
      apply Forall_app; (split; [exact Hl |]); repeat constructor.
  - destruct (Realtime.timers l); [exact Hl |]. destruct s; exact Hl.
  - unfold Realtime.on_SIGINT. destruct (Realtime.realtimeChannel l); exact Hl.
Qed.

(** X28: Presence is never tracked under an empty name or on a channel that was
    not created: whatever the events, every [track] call of the listener
    names the session's username, or "anonymous" when the session has none or
    an empty one, on a channel the listener made. *)
Theorem presence_is_tracked_under_a_name
    (user : option string) (setup : Realtime.Setup) (events : list Realtime.Event) :
  let l := Realtime.run user events
             (Realtime.startRealtimeListener setup Realtime.initial) in
  Forall (fun t => (fst t < Realtime.created l)%nat /\
                   snd t = match truthy_username user with
                           | Some u => u
                           | None => "anonymous"
                           end /\
                   snd t <> EmptyString)
    (Realtime.tracked l).
Proof.
  cbv zeta.
  set (l0 := Realtime.startRealtimeListener setup Realtime.initial).
  assert (H0 : (forall ch, Realtime.realtimeChannel l0 = Some ch ->
                           (ch < Realtime.created l0)%nat) /\
               Forall (fun t => (fst t < Realtime.created l0)%nat /\ snd t <> EmptyString)
                 (Realtime.tracked l0)).
  { subst l0. destruct setup; simpl;
      (split; [first [intros ch [= <-]; lia | intros ch [=]] | constructor]). }
  pose proof (run_keeps_tracks user events l0 H0) as H1.
  pose proof (run_keeps_names user events l0) as H2.
  assert (Hstart : Realtime.tracked l0 = []) by (subst l0; destruct setup; reflexivity).
  rewrite Hstart in H2. specialize (H2 (Forall_nil _)).
  rewrite Forall_forall in *. intros t Ht.
  destruct (H1 t Ht) as [Hch Hne]. repeat split; [exact Hch | now apply H2 | exact Hne].
Qed.

(** * More concrete runs *)

Section MoreRuns.

#[local] Existing Instance Sample.engine.

(** A short terminal session: join, a line of text, two drains, the list of
    users, an unknown command, leave, a line of text, exit; the help typed
    after the exit is not answered. *)
Example terminal_session :
  let p := Cli.on_lines "secret" Sample.iso Cases.trim_of_undefined Cases.typed
             (Cli.ready (Sample.fresh Sample.healthy)) in
  Cli.console p =
    ["✅ Connected as 'alice'.";
     "📨 Message sent: hello there";
     "💬 New messages:" ++ LF ++ "[2024-01-02 03:04:05] alice: hello there";
     "🕒 No new messages.";
     "Connected users (1):" ++ LF ++ "alice";
     "Unknown command: /nonsense. Type /help for a list of commands.";
     "🚪 User 'alice' disconnected from chat.";
     "You are not connected. Use /connect <username> to join the chat.";
     "Exiting CLI."] /\
  Cli.exit_code p = Some 0 /\ Cli.uncaught p = None.
Proof. vm_compute. repeat split. Qed.

(** X5 at a concrete input: A row delivered by alice's drain is not selected again from the cursor
    that drain left. *)
Lemma never_delivered_twice_witness :
  ~ In Sample.hello
      (Table.select_messages_after 1 (store (Sample.joined Sample.healthy))).
Proof.
  destruct (never_delivered_twice "secret" Sample.iso "secret"
              ("💬 New messages:" ++ LF ++ "[2024-01-02 03:04:05] alice: hello")
              (Sample.joined Sample.healthy)
              (snd (fetch "secret" Sample.iso "secret" (Sample.joined Sample.healthy))))
    as (_ & _ & Hnever).
  - vm_compute. reflexivity.
  - reflexivity.
  - apply (Hnever (store (Sample.joined Sample.healthy)) Sample.hello).
    left. reflexivity.
Defined.

(** X7 at a concrete input: After a join under two blanks a post is turned away. *)
Lemma blank_join_locks_the_session_witness :
  let w' := snd (connect "secret" "  " "secret" (Sample.fresh Sample.healthy)) in
  send "secret" "hi" "secret" w' =
    (Value "⚠️ You must /connect before sending messages.", w').
Proof.
  destruct (blank_join_locks_the_session "secret" Sample.iso "  " "hi"
              (Sample.fresh Sample.healthy) eq_refl) as (_ & _ & Hsend & _).
  exact Hsend.
Defined.

(** X8 at a concrete input: alice's row is marked disconnected: her post is answered with the
    warning. *)
Lemma drifted_session_is_warned_witness :
  send "secret" "hi" "secret" (Cases.drifted Sample.healthy) =
    (Value "⚠️ You are not connected. Use /connect first.",
     log_request (SelectIsConnected "alice") (Cases.drifted Sample.healthy)).
Proof.
  destruct (drifted_session_is_warned "secret" Sample.iso "hi" "alice" Sample.clock
              (Cases.drifted Sample.healthy)) as (Hsend & _).
  - reflexivity.
  - reflexivity.
  - discriminate.
  - exact Hsend.
Defined.

(** X6 at a concrete input: alice leaves. *)
Lemma leave_success_witness :
  session (snd (disconnect "secret" "secret" (Sample.joined Sample.healthy))) =
    initial_session.
Proof.
  destruct (leave_success "secret" "secret" "🚪 User 'alice' disconnected from chat."
              (Sample.joined Sample.healthy)
              (snd (disconnect "secret" "secret" (Sample.joined Sample.healthy))))
    as (u & _ & _ & _ & Hsession & _).
  - vm_compute. reflexivity.
  - reflexivity.
  - exact Hsession.
Defined.

(** X9 at a concrete input: The list of users while alice is connected. *)
Lemma connectedUsers_lists_connected_rows_witness :
  fst (connectedUsers "secret" "secret" (Sample.joined Sample.healthy)) =
    Value ("Connected users (1):" ++ LF ++ "alice").
Proof.
  rewrite (connectedUsers_lists_connected_rows "secret" Sample.clock
             (Sample.joined Sample.healthy) eq_refl).
  reflexivity.
Defined.

(** X10 at a concrete input: Alice joins a fresh store and posts. *)
Lemma join_then_post_is_confirmed_witness :
  exists w2,
    send "secret" " hi " "secret"
      (snd (connect "secret" " Alice " "secret" (Sample.fresh Sample.healthy))) =
    (Value "📨 Message sent: hi", w2).
Proof.
  destruct (join_then_post_is_confirmed "secret" " Alice " "secret"
              "✅ Connected as 'alice'." " hi " Sample.clock Sample.clock
              (Sample.fresh Sample.healthy)
              (snd (connect "secret" " Alice " "secret" (Sample.fresh Sample.healthy))))
    as (w2 & Hsend & _).
  - vm_compute. reflexivity.
  - reflexivity.
  - constructor.
  - discriminate.
  - reflexivity.
  - reflexivity.
  - exists w2. exact Hsend.
Defined.

(** X11 at a concrete input: Bob joins while alice's message is in the table, and drains. *)
Lemma join_then_drain_replays_backlog_witness :
  exists delivered w2,
    fetch "secret" Sample.iso "secret"
      (snd (connect "secret" "Bob" "secret" (Sample.joined Sample.healthy))) =
    (Value (match delivered with
            | [] => "🕒 No new messages."
            | _ :: _ =>
                "💬 New messages:" ++ LF ++
                JsString.join LF (map (format_message Sample.iso) delivered)
            end), w2) /\
    In Sample.hello delivered.
Proof.
  destruct (join_then_drain_replays_backlog "secret" Sample.iso "Bob" "secret"
              "✅ Connected as 'bob'." Sample.clock Sample.clock
              (Sample.joined Sample.healthy)
              (snd (connect "secret" "Bob" "secret" (Sample.joined Sample.healthy))))
    as (delivered & w2 & Hfetch & _ & Hall).
  - vm_compute. reflexivity.
  - reflexivity.
  - repeat constructor. intros [].
  - discriminate.
  - reflexivity.
  - reflexivity.
  - exists delivered, w2. split; [exact Hfetch |].
    apply Hall. split; [now left | reflexivity].
Defined.

(** X12 at a concrete input: Bob joins and is listed. *)
Lemma join_then_listed_witness :
  exists names,
    fst (connectedUsers "secret" "secret"
           (snd (connect "secret" "Bob" "secret" (Sample.joined Sample.healthy)))) =
    Value ("Connected users (" ++ JsString.of_nat (List.length names) ++ "):"
             ++ LF ++ JsString.join LF names) /\
    In "bob" names.
Proof.
  destruct (join_then_listed "secret" "Bob" "secret" "✅ Connected as 'bob'." Sample.clock
              (Sample.joined Sample.healthy)
              (snd (connect "secret" "Bob" "secret" (Sample.joined Sample.healthy))))
    as (names & Hreply & Hin).
  - vm_compute. reflexivity.
  - reflexivity.
  - reflexivity.
  - exists names. rewrite Hreply. split; [reflexivity | exact Hin].
Defined.

(** X13 at concrete inputs: a name of capital letters with a no-break space
    after it and the name as the reply shows it; a name below 128 and its
    normal form. *)
Lemma join_is_by_normal_form_witness :
  connect "secret" "école" "secret" (Sample.fresh Sample.healthy) =
  connect "secret" (" ÉCOLE" ++ Sample.NBSP) "secret" (Sample.fresh Sample.healthy) /\
  connect "secret" "alice" "secret" (Sample.fresh Sample.healthy) =
  connect "secret" " Alice " "secret" (Sample.fresh Sample.healthy).
Proof.
  split.
  - apply (proj1 (join_is_by_normal_form "secret" (" ÉCOLE" ++ Sample.NBSP) "secret"
                    (Sample.fresh Sample.healthy))).
    reflexivity.
  - apply (proj2 (join_is_by_normal_form "secret" " Alice " "secret"
                    (Sample.fresh Sample.healthy))).
    reflexivity.
Defined.

(** X15 at a concrete input: The line of alice's message. *)
Lemma format_message_line_witness :
  format_message Sample.iso Sample.hello = "[2024-01-02 03:04:05] alice: hello".
Proof.
  exact (format_message_line Sample.iso Sample.hello "2024-01-02" "03:04:05" "678Z"
           eq_refl eq_refl eq_refl eq_refl).
Defined.

(** X16 at a concrete input: A send command with two blanks inside its text. *)
Lemma cli_reads_command_and_argument_witness :
  Cli.command_of "/send hello  world" = "send" /\
  Cli.args_of "/send hello  world" = "hello  world".
Proof.
  destruct (cli_reads_command_and_argument "send" "hello  world" eq_refl)
    as (Hcommand & Hargs & _).
  split; [exact Hcommand | exact Hargs].
Defined.

(** X18 at a concrete input: The tables after the short terminal session. *)
Lemma cli_sessions_keep_the_tables_sound_witness :
  NoDup (user_keys (store (Cli.world
    (Cli.on_lines "secret" Sample.iso Cases.trim_of_undefined Cases.typed
       (Cli.ready (Sample.fresh Sample.healthy)))))).
Proof.
  destruct (cli_sessions_keep_the_tables_sound "secret" Sample.iso
              Cases.trim_of_undefined Cases.typed (Sample.fresh Sample.healthy))
    as (_ & Hkeys & _).
  - apply fresh_consistent.
  - constructor.
  - exact Hkeys.
Defined.

(** X20 at a concrete input: alice presses the return key. *)
Lemma cli_blank_line_posts_empty_message_witness :
  Cli.console
    (Cli.on_data "secret" Sample.iso Cases.trim_of_undefined "  "
       (Cli.ready (Sample.joined Sample.healthy))) = ["📨 Message sent: "].
Proof.
  destruct (cli_blank_line_posts_empty_message "secret" Sample.iso
              Cases.trim_of_undefined "  " "alice" Sample.clock Sample.clock
              (Cli.ready (Sample.joined Sample.healthy))
              eq_refl eq_refl eq_refl eq_refl eq_refl eq_refl) as (Hconsole & _).
  exact Hconsole.
Defined.

(** X21 at a concrete input: The command connect alone. *)
Lemma cli_connect_without_a_name_witness :
  username (session (Cli.world
    (Cli.on_data "secret" Sample.iso Cases.trim_of_undefined "/connect "
       (Cli.ready (Sample.fresh Sample.healthy))))) = Some EmptyString.
Proof.
  destruct (cli_connect_without_a_name "secret" Sample.iso Cases.trim_of_undefined
              "/connect " Sample.clock Sample.clock
              (Cli.ready (Sample.fresh Sample.healthy)) eq_refl eq_refl) as (Hname & _).
  exact Hname.
Defined.

(** X23 at a concrete input: A drain dispatched with a guessed token. *)
Lemma simulateCommand_rejects_wrong_token_witness :
  Cli.simulateCommand "secret" Sample.iso Cases.trim_of_undefined "fetch" [] "guess"
    (Cli.ready (Sample.joined Sample.healthy)) =
  Cli.console_log "❌ Authentication failed." (Cli.ready (Sample.joined Sample.healthy)).
Proof.
  apply (simulateCommand_rejects_wrong_token "secret" Sample.iso Cases.trim_of_undefined
           "fetch" "guess" [] (Cli.ready (Sample.joined Sample.healthy))).
  - discriminate.
  - simpl. tauto.
Defined.

(** X25 at a concrete input: The empty token in a configured process. *)
Lemma empty_token_is_never_accepted_witness :
  fetch "secret" Sample.iso EmptyString (Sample.joined Sample.healthy) =
    (Value "❌ Authentication failed.", Sample.joined Sample.healthy).
Proof.
  destruct (empty_token_is_never_accepted Cases.env
              {| Startup.AUTH_TOKEN := "secret";
                 Startup.SUPABASE_URL := "https://db.example";
                 Startup.SUPABASE_KEY := "key" |}
              Sample.iso "Alice" "hi" (Sample.joined Sample.healthy) eq_refl)
    as (_ & _ & _ & _ & Hfetch & _).
  exact Hfetch.
Defined.

(** X26 at a concrete input: The listener as started receives SIGINT, then a close and a timer. *)
Lemma sigint_is_final_witness :
  Realtime.run None
    [Realtime.SIGINT; Realtime.Report 0 Realtime.CLOSED;
     Realtime.TimerFires Realtime.SetupDone] Realtime.started =
  Realtime.on_SIGINT Realtime.started.
Proof.
  destruct (sigint_is_final None
              [Realtime.Report 0 Realtime.CLOSED; Realtime.TimerFires Realtime.SetupDone]
              Realtime.started eq_refl) as (Hrun & _).
  exact Hrun.
Defined.

(** White space and letters beyond the code points below 128: a text ending
    in a no-break space is stored without it; a name of a no-break space
    only joins as the empty name, and the post that follows is turned away;
    a name in capital letters joins as the row of its small letters, which is
    updated, not doubled; the command exit behind a no-break space exits. *)
Example runs_beyond_128 :
  JsString.trim (Sample.NBSP ++ "hi" ++ Sample.NBSP) = "hi" /\
  fst ((r1 <- connect "secret" Sample.NBSP "secret" ;;
        r2 <- send "secret" "x" "secret" ;;
        ret [r1; r2]) (Sample.fresh Sample.healthy)) =
    Value ["✅ Connected as ''."; "⚠️ You must /connect before sending messages."] /\
  (let w := snd ((connect "secret" "école" "secret" ;;;
                  connect "secret" "ÉCOLE" "secret") (Sample.fresh Sample.healthy)) in
   puchchat_users (store w) = [{| u_username := "école"; u_is_connected := true |}] /\
   requests w = [SelectUser "école"; InsertUser "école" true;
                 SelectUser "école"; UpdateUser "école" true]) /\
  Cli.exit_code
    (Cli.on_data "secret" Sample.iso Cases.trim_of_undefined (Sample.NBSP ++ "/exit")
       (Cli.ready (Sample.fresh Sample.healthy))) = Some 0.
Proof. vm_compute. repeat split. Qed.

End MoreRuns.
